(** * Signal propagation and measurement engine of the calibration bench

    A shallow embedding of the simulator's state store
    ([SimulatorContext.jsx], with the role queries of [deviceRegistry.js]),
    of the circuit resolver and measurement transform of the digital
    multimeter ([Multimeter.jsx]) and of the Fluke 117 ([Fluke117.jsx]), and
    of the shared fluctuation hook ([useUncertaintyMode.js]), followed by the
    properties the engine's specification states about them.

    Conventions.  Component ids are integers ([Z]).  JavaScript numbers are
    an interface with two instances, binary64 and exact rationals.
    [Math.random] is a stream of draws threaded through the reducer.  A call
    that can throw returns an [outcome]; [undefined] and [null] are [None]. *)

From Stdlib Require Import ZArith QArith Qabs Qround List String Bool Lia Lqa.
From Stdlib Require Import Sorted Floats.
Import ListNotations.
Open Scope string_scope.

(** ** JavaScript numbers

    The engine computes with JavaScript numbers.  The code is embedded once,
    over the operations it uses, and read at two instances: IEEE 754
    binary64 ([float], what the program runs on) and exact rationals ([Q],
    on which the bounds are proved). *)

Class JSNumber (num : Type) : Type := {
  lit : Q -> num;                  (* a numeric literal of the source *)
  num_add : num -> num -> num;
  num_sub : num -> num -> num;
  num_mul : num -> num -> num;
  num_div : num -> num -> num;
  num_abs : num -> num;            (* Math.abs *)
  num_gtb : num -> num -> bool;    (* a > b *)
  truthy : num -> bool;            (* ToBoolean: false at 0 and at NaN *)
  num_floor : num -> option Z      (* Math.floor; None when not finite *)
}.

Declare Scope num_scope.
Delimit Scope num_scope with num.
Infix "+" := num_add : num_scope.
Infix "-" := num_sub : num_scope.
Infix "*" := num_mul : num_scope.
Infix "/" := num_div : num_scope.
Infix ">?" := num_gtb (at level 70, no associativity) : num_scope.

#[export] Instance Q_JSNumber : JSNumber Q := {|
  lit q := q;
  num_add := Qplus;
  num_sub := Qminus;
  num_mul := Qmult;
  num_div := Qdiv;
  num_abs := Qabs;
  num_gtb a b := negb (Qle_bool a b);
  truthy q := negb (Qeq_bool q 0);
  num_floor q := Some (Qfloor q)
|}.

Definition float_of_Z (z : Z) : float :=
  if (z <? 0)%Z then PrimFloat.opp (PrimFloat.of_uint63 (Uint63.of_Z (- z)))
  else PrimFloat.of_uint63 (Uint63.of_Z z).

(** A decimal literal is the correctly rounded quotient of two integers that
    binary64 holds exactly. *)
Definition float_of_Q (q : Q) : float :=
  PrimFloat.div (float_of_Z (Qnum q)) (float_of_Z (Zpos (Qden q))).

Definition float_floor (x : float) : option Z :=
  match Prim2SF x with
  | S754_zero _ => Some 0%Z
  | S754_finite s m e =>
      let n := if s then Z.neg m else Z.pos m in
      Some (if (0 <=? e)%Z then n * 2 ^ e else n / 2 ^ (- e))%Z
  | S754_infinity _ | S754_nan => None
  end.

#[export] Instance float_JSNumber : JSNumber float := {|
  lit := float_of_Q;
  num_add := PrimFloat.add;
  num_sub := PrimFloat.sub;
  num_mul := PrimFloat.mul;
  num_div := PrimFloat.div;
  num_abs := PrimFloat.abs;
  num_gtb a b := PrimFloat.ltb b a;
  truthy x := negb (PrimFloat.eqb x PrimFloat.zero) && negb (PrimFloat.is_nan x);
  num_floor := float_floor
|}.

(** ** Small pieces of the JavaScript runtime *)

(** [String.prototype.includes] *)
Fixpoint str_includes (needle hay : string) : bool :=
  String.prefix needle hay
  || match hay with
     | EmptyString => false
     | String _ rest => str_includes needle rest
     end.

(** [Array.prototype.includes] on an array of strings *)
Definition includes (l : list string) (s : string) : bool :=
  existsb (String.eqb s) l.

(** [a || b] on strings: the empty string is falsy *)
Definition str_or (a b : string) : string :=
  match a with EmptyString => b | _ => a end.

(** [Array.prototype.map] / [filter] with the element's index *)
Fixpoint mapi_from {A B : Type} (i : nat) (f : A -> nat -> B) (l : list A) : list B :=
  match l with
  | [] => []
  | a :: rest => f a i :: mapi_from (S i) f rest
  end.

Fixpoint filteri_from {A : Type} (i : nat) (f : A -> nat -> bool) (l : list A) : list A :=
  match l with
  | [] => []
  | a :: rest => if f a i then a :: filteri_from (S i) f rest else filteri_from (S i) f rest
  end.

(** [Math.max(...l, 0)] on integers *)
Definition Math_max0 (l : list Z) : Z := fold_right Z.max 0%Z l.

(** ** Data model of the store

    A device's [state] object is an open map in the source.  The fields the
    engine reads are given here with the types the device templates give
    them: flags stand for the truthiness of the field, [option] marks the
    fields the code guards with [||] or [?.] ([None] is [undefined] or
    [null]). *)

Record deviceState (num : Type) := mkDeviceState {
  power : bool;
  output : bool;
  rfOn : bool;
  mode : option string;
  value : num;
  unit : string;
  frequency : option num;
  level : num;
  complianceStatus : option string
}.
Arguments mkDeviceState {num}.
Arguments power {num}.
Arguments output {num}.
Arguments rfOn {num}.
Arguments mode {num}.
Arguments value {num}.
Arguments unit {num}.
Arguments frequency {num}.
Arguments level {num}.
Arguments complianceStatus {num}.

(** The partial state object of [updateDeviceState]: the fields it carries. *)
Record statePatch (num : Type) := mkStatePatch {
  p_power : option bool;
  p_output : option bool;
  p_rfOn : option bool;
  p_mode : option (option string);
  p_value : option num;
  p_unit : option string;
  p_frequency : option (option num);
  p_level : option num;
  p_complianceStatus : option (option string)
}.
Arguments mkStatePatch {num}.
Arguments p_power {num}.
Arguments p_output {num}.
Arguments p_rfOn {num}.
Arguments p_mode {num}.
Arguments p_value {num}.
Arguments p_unit {num}.
Arguments p_frequency {num}.
Arguments p_level {num}.
Arguments p_complianceStatus {num}.

Record component (num : Type) := mkComponent {
  id : Z;
  type : string;
  x : num;
  y : num;
  state : deviceState num
}.
Arguments mkComponent {num}.
Arguments id {num}.
Arguments type {num}.
Arguments x {num}.
Arguments y {num}.
Arguments state {num}.

(** [wireProperties: { type, resistance }] *)
Record wireProps (num : Type) := mkWireProps {
  wtype : string;
  resistance : num
}.
Arguments mkWireProps {num}.
Arguments wtype {num}.
Arguments resistance {num}.

Record connection (num : Type) := mkConnection {
  from : Z;
  to : Z;
  polarity : string;
  wireProperties : option (wireProps num)
}.
Arguments mkConnection {num}.
Arguments from {num}.
Arguments to {num}.
Arguments polarity {num}.
Arguments wireProperties {num}.

Record errorFlags := mkErrorFlags {
  loadingError : bool;
  resolutionUncertainty : bool;
  instrumentError : bool
}.

(** What [checkConnectionCompatibility] reports; the comment gives the text
    the source shows for it. *)
Inductive message :=
| DEVICE_NOT_FOUND                            (* the device was not found *)
| UNSUPPORTED_SOURCE_ROLE                     (* must connect from a Calibrator *)
| UNSUPPORTED_SINK_ROLE                       (* must connect to a UUC *)
| DUPLICATE_POLARITY (polarityLabel : string) (* the <label> wire is already connected *)
| CONNECT_OK.                                 (* connected successfully *)

Record compatibility := mkCompatibility {
  valid : bool;
  cmessage : message
}.

Inductive alertText :=
| Validation (m : message)
| WireConnected (polarityLabel : string).

(** An alert [{ type, title, message, id }]; the texts are glossed. *)
Record alert := mkAlert {
  alertType : string;
  alertTitle : string;
  alertMessage : alertText;
  alertId : Z
}.

Record startPoint := mkStartPoint {
  sp_componentId : Z;
  sp_type : string;
  sp_polarity : string
}.

Record simState (num : Type) := mkSimState {
  components : list (component num);
  connections : list (connection num);
  componentIdCounter : Z;
  connectionStartPoint : option startPoint;
  alerts : list alert;
  alertIdCounter : Z;
  uncertaintyMode : bool;
  errorSimulation : errorFlags
}.
Arguments mkSimState {num}.
Arguments components {num}.
Arguments connections {num}.
Arguments componentIdCounter {num}.
Arguments connectionStartPoint {num}.
Arguments alerts {num}.
Arguments alertIdCounter {num}.
Arguments uncertaintyMode {num}.
Arguments errorSimulation {num}.

(** A device package of the registry: [{ type, role, tolerance, initialState }] *)
Record deviceConfig (num : Type) := mkDeviceConfig {
  cfg_type : string;
  cfg_role : string;
  cfg_tolerance : list (string * num);
  cfg_initialState : option (deviceState num)
}.
Arguments mkDeviceConfig {num}.
Arguments cfg_type {num}.
Arguments cfg_role {num}.
Arguments cfg_tolerance {num}.
Arguments cfg_initialState {num}.

(** ** [Math.random]: the values it returns, in call order *)

Definition Rand (A : Type) : Type := nat -> A * nat.

Definition ret {A : Type} (a : A) : Rand A := fun k => (a, k).

Definition bind {A B : Type} (m : Rand A) (f : A -> Rand B) : Rand B :=
  fun k => let (a, k') := m k in f a k'.

Notation "x <- m ;; f" := (bind m (fun x => f))
  (at level 61, m at next level, right associativity).

Fixpoint mapM {A B : Type} (f : A -> Rand B) (l : list A) : Rand (list B) :=
  match l with
  | [] => ret []
  | a :: rest => b <- f a ;; bs <- mapM f rest ;; ret (b :: bs)
  end.

(** ** The state store: [SimulatorContext.jsx] *)

Module SimulatorContext.
Section Store.
Context {num : Type} `{JSNumber num}.

(** [DEVICES] of the device registry, and the stream [Math.random] draws from *)
Variable DEVICES : list (deviceConfig num).
Variable random : nat -> num.

Definition Math_random : Rand num := fun k => (random k, S k).

Definition COMPLIANCE_STATUSES : list string :=
  ["compliance"; "non_compliance"; "out_of_tolerance"].

Definition initialState : simState num := {|
  components := [];
  connections := [];
  componentIdCounter := 0;
  connectionStartPoint := None;
  alerts := [];
  alertIdCounter := 0;
  uncertaintyMode := false;
  errorSimulation := {| loadingError := false;
                        resolutionUncertainty := false;
                        instrumentError := false |}
|}.

(** *** The registry's queries ([deviceRegistry.js]) *)

Definition getInitialState (type : string) : deviceState num :=
  match find (fun d => String.eqb (cfg_type d) type) DEVICES with
  | Some {| cfg_initialState := Some st |} => st
  | _ => {| power := false; output := false; rfOn := false; mode := None;
            value := lit 0; unit := ""; frequency := None; level := lit 0;
            complianceStatus := None |}
  end.

Definition getCalibratorTypes : list string :=
  map cfg_type (filter (fun d => String.eqb (cfg_role d) "calibrator") DEVICES).

Definition getUUCTypes : list string :=
  map cfg_type (filter (fun d => String.eqb (cfg_role d) "uuc") DEVICES).

Definition getInitialDeviceState (type : string) : deviceState num :=
  getInitialState type.

(** *** Actions *)

Inductive action :=
| ADD_COMPONENT (type : string) (x y : num)
| REMOVE_COMPONENT (id : Z)
| UPDATE_COMPONENT_POSITION (id : Z) (x y : num)
| UPDATE_DEVICE_STATE (id : Z) (state : statePatch num)
| ADD_CONNECTION (from to : Z) (polarity : string)
| REMOVE_CONNECTION (index : nat)
| REMOVE_CONNECTIONS_FOR_COMPONENT (id : Z)
| SET_CONNECTION_START (point : startPoint)
| CLEAR_CONNECTION_START
| CLEAR_ALL
| LOAD_PROJECT (components : list (component num)) (connections : list (connection num))
| ADD_ALERT (type title : string) (message : alertText)
| DISMISS_ALERT (id : Z)
| TOGGLE_UNCERTAINTY_MODE
| TOGGLE_ERROR_SIMULATION (errorType : string)
| TOGGLE_CONNECTION_WIRE_TYPE (index : nat).

(** *** Object spreads: [{ ...state, field: v }] *)

Definition with_components (s : simState num) (cs : list (component num)) : simState num :=
  {| components := cs; connections := connections s;
     componentIdCounter := componentIdCounter s;
     connectionStartPoint := connectionStartPoint s; alerts := alerts s;
     alertIdCounter := alertIdCounter s; uncertaintyMode := uncertaintyMode s;
     errorSimulation := errorSimulation s |}.

Definition with_connections (s : simState num) (cs : list (connection num)) : simState num :=
  {| components := components s; connections := cs;
     componentIdCounter := componentIdCounter s;
     connectionStartPoint := connectionStartPoint s; alerts := alerts s;
     alertIdCounter := alertIdCounter s; uncertaintyMode := uncertaintyMode s;
     errorSimulation := errorSimulation s |}.

Definition with_componentIdCounter (s : simState num) (n : Z) : simState num :=
  {| components := components s; connections := connections s;
     componentIdCounter := n;
     connectionStartPoint := connectionStartPoint s; alerts := alerts s;
     alertIdCounter := alertIdCounter s; uncertaintyMode := uncertaintyMode s;
     errorSimulation := errorSimulation s |}.

Definition with_connectionStartPoint (s : simState num) (p : option startPoint) : simState num :=
  {| components := components s; connections := connections s;
     componentIdCounter := componentIdCounter s;
     connectionStartPoint := p; alerts := alerts s;
     alertIdCounter := alertIdCounter s; uncertaintyMode := uncertaintyMode s;
     errorSimulation := errorSimulation s |}.

Definition with_alerts (s : simState num) (al : list alert) (n : Z) : simState num :=
  {| components := components s; connections := connections s;
     componentIdCounter := componentIdCounter s;
     connectionStartPoint := connectionStartPoint s; alerts := al;
     alertIdCounter := n; uncertaintyMode := uncertaintyMode s;
     errorSimulation := errorSimulation s |}.

Definition with_uncertaintyMode (s : simState num) (b : bool) : simState num :=
  {| components := components s; connections := connections s;
     componentIdCounter := componentIdCounter s;
     connectionStartPoint := connectionStartPoint s; alerts := alerts s;
     alertIdCounter := alertIdCounter s; uncertaintyMode := b;
     errorSimulation := errorSimulation s |}.

Definition with_errorSimulation (s : simState num) (e : errorFlags) : simState num :=
  {| components := components s; connections := connections s;
     componentIdCounter := componentIdCounter s;
     connectionStartPoint := connectionStartPoint s; alerts := alerts s;
     alertIdCounter := alertIdCounter s; uncertaintyMode := uncertaintyMode s;
     errorSimulation := e |}.

Definition with_position (c : component num) (x' y' : num) : component num :=
  {| id := id c; type := type c; x := x'; y := y'; state := state c |}.

Definition with_state (c : component num) (st : deviceState num) : component num :=
  {| id := id c; type := type c; x := x c; y := y c; state := st |}.

Definition with_complianceStatus (st : deviceState num) (cs : option string) : deviceState num :=
  {| power := power st; output := output st; rfOn := rfOn st; mode := mode st;
     value := value st; unit := unit st; frequency := frequency st;
     level := level st; complianceStatus := cs |}.

Definition with_wireProperties (c : connection num) (w : wireProps num) : connection num :=
  {| from := from c; to := to c; polarity := polarity c; wireProperties := Some w |}.

(** [{ ...c.state, ...action.payload.state }] *)
Definition mergeState (st : deviceState num) (p : statePatch num) : deviceState num :=
  let pick {A : Type} (o : option A) (d : A) := match o with Some a => a | None => d end in
  {| power := pick (p_power p) (power st);
     output := pick (p_output p) (output st);
     rfOn := pick (p_rfOn p) (rfOn st);
     mode := pick (p_mode p) (mode st);
     value := pick (p_value p) (value st);
     unit := pick (p_unit p) (unit st);
     frequency := pick (p_frequency p) (frequency st);
     level := pick (p_level p) (level st);
     complianceStatus := pick (p_complianceStatus p) (complianceStatus st) |}.

(** [COMPLIANCE_STATUSES[Math.floor(Math.random() * COMPLIANCE_STATUSES.length)]] *)
Definition randomStatus : Rand (option string) :=
  r <- Math_random ;;
  ret match num_floor (r * lit 3)%num with
      | Some randomIndex =>
          if (randomIndex <? 0)%Z then None
          else nth_error COMPLIANCE_STATUSES (Z.to_nat randomIndex)
      | None => None
      end.

(** [{ ...state.errorSimulation, [errorType]: !state.errorSimulation[errorType] }];
    a key that is none of the three flags leaves them as they are. *)
Definition toggleFlag (e : errorFlags) (errorType : string) : errorFlags :=
  if String.eqb errorType "loadingError" then
    {| loadingError := negb (loadingError e);
       resolutionUncertainty := resolutionUncertainty e;
       instrumentError := instrumentError e |}
  else if String.eqb errorType "resolutionUncertainty" then
    {| loadingError := loadingError e;
       resolutionUncertainty := negb (resolutionUncertainty e);
       instrumentError := instrumentError e |}
  else if String.eqb errorType "instrumentError" then
    {| loadingError := loadingError e;
       resolutionUncertainty := resolutionUncertainty e;
       instrumentError := negb (instrumentError e) |}
  else e.

(** *** The reducer *)

Definition simulatorReducer (st : simState num) (a : action) : Rand (simState num) :=
  match a with
  | ADD_COMPONENT deviceType px py =>
      let newId := componentIdCounter st in
      let isUUC := includes getUUCTypes deviceType in
      complianceStatus <-
        (if uncertaintyMode st && isUUC then randomStatus else ret None) ;;
      let newComponent :=
        {| id := newId; type := deviceType; x := px; y := py;
           state := with_complianceStatus (getInitialDeviceState deviceType)
                                          complianceStatus |} in
      ret (with_componentIdCounter
             (with_components st (components st ++ [newComponent]))
             (newId + 1)%Z)
  | REMOVE_COMPONENT rid =>
      ret (with_connections
             (with_components st
                (filter (fun c => negb (id c =? rid)%Z) (components st)))
             (filter (fun conn => negb (from conn =? rid)%Z && negb (to conn =? rid)%Z)
                (connections st)))
  | UPDATE_COMPONENT_POSITION cid px py =>
      ret (with_components st
             (map (fun c => if (id c =? cid)%Z then with_position c px py else c)
                (components st)))
  | UPDATE_DEVICE_STATE cid patch =>
      ret (with_components st
             (map (fun c => if (id c =? cid)%Z
                            then with_state c (mergeState (state c) patch) else c)
                (components st)))
  | ADD_CONNECTION cfrom cto pol =>
      ret (with_connectionStartPoint
             (with_connections st
                (connections st ++
                 [{| from := cfrom; to := cto; polarity := str_or pol "hi";
                     wireProperties :=
                       Some {| wtype := "standard"; resistance := lit 0.05 |} |}]))
             None)
  | REMOVE_CONNECTION index =>
      ret (with_connections st
             (filteri_from 0 (fun _ i => negb (i =? index)%nat) (connections st)))
  | REMOVE_CONNECTIONS_FOR_COMPONENT rid =>
      ret (with_connections st
             (filter (fun conn => negb (from conn =? rid)%Z && negb (to conn =? rid)%Z)
                (connections st)))
  | SET_CONNECTION_START point =>
      ret (with_connectionStartPoint st (Some point))
  | CLEAR_CONNECTION_START =>
      ret (with_connectionStartPoint st None)
  | CLEAR_ALL =>
      ret initialState
  | LOAD_PROJECT cs conns =>
      ret (with_componentIdCounter
             (with_connections (with_components st cs) conns)
             (Math_max0 (map id cs) + 1)%Z)
  | ADD_ALERT ty title msg =>
      let alertId := alertIdCounter st in
      ret (with_alerts st
             (alerts st ++ [{| alertType := ty; alertTitle := title; alertMessage := msg;
                               alertId := alertId |}])
             (alertId + 1)%Z)
  | DISMISS_ALERT aid =>
      ret (with_alerts st
             (filter (fun al => negb (alertId al =? aid)%Z) (alerts st))
             (alertIdCounter st))
  | TOGGLE_UNCERTAINTY_MODE =>
      let newMode := negb (uncertaintyMode st) in
      cs <- mapM (fun c =>
                    let isUUC := includes getUUCTypes (type c) in
                    if isUUC && newMode then
                      status <- randomStatus ;;
                      ret (with_state c (with_complianceStatus (state c) status))
                    else ret c)
                 (components st) ;;
      ret (with_components (with_uncertaintyMode st newMode) cs)
  | TOGGLE_ERROR_SIMULATION errorType =>
      ret (with_errorSimulation st (toggleFlag (errorSimulation st) errorType))
  | TOGGLE_CONNECTION_WIRE_TYPE index =>
      ret (with_connections st
             (mapi_from 0
                (fun conn i =>
                   if negb (i =? index)%nat then conn
                   else
                     let isStandard :=
                       match wireProperties conn with
                       | Some w => String.eqb (wtype w) "standard"
                       | None => false
                       end in
                     with_wireProperties conn
                       {| wtype := if isStandard then "bad" else "standard";
                          resistance := if isStandard then lit 5 else lit 0.05 |})
                (connections st)))
  end.

(** A sequence of dispatches *)
Fixpoint dispatchAll (st : simState num) (acts : list action) : Rand (simState num) :=
  match acts with
  | [] => ret st
  | a :: rest => s' <- simulatorReducer st a ;; dispatchAll s' rest
  end.

(** *** The provider's callbacks *)

Definition checkConnectionCompatibility (st : simState num)
    (fromId toId : Z) (pol : string) : compatibility :=
  let fromComp := find (fun c => (id c =? fromId)%Z) (components st) in
  let toComp := find (fun c => (id c =? toId)%Z) (components st) in
  match fromComp, toComp with
  | Some fromComp, Some toComp =>
      let calibrators := getCalibratorTypes in
      let uucs := getUUCTypes in
      let isFromCalibrator := includes calibrators (type fromComp) in
      let isToUUC := includes uucs (type toComp) in
      if negb isFromCalibrator then
        {| valid := false; cmessage := UNSUPPORTED_SOURCE_ROLE |}
      else if negb isToUUC then
        {| valid := false; cmessage := UNSUPPORTED_SINK_ROLE |}
      else
        let existingConnection :=
          find (fun c => (from c =? fromId)%Z && (to c =? toId)%Z
                         && String.eqb (polarity c) pol)
               (connections st) in
        match existingConnection with
        | Some _ =>
            let polarityLabel := if String.eqb pol "hi" then "HI" else "LO" in
            {| valid := false; cmessage := DUPLICATE_POLARITY polarityLabel |}
        | None => {| valid := true; cmessage := CONNECT_OK |}
        end
  | _, _ => {| valid := false; cmessage := DEVICE_NOT_FOUND |}
  end.

Definition addAlert (st : simState num) (ty title : string) (msg : alertText)
  : Rand (simState num) :=
  simulatorReducer st (ADD_ALERT ty title msg).

Definition addConnection (st : simState num) (cfrom cto : Z) (pol : string)
  : Rand (simState num * compatibility) :=
  let compatibility := checkConnectionCompatibility st cfrom cto pol in
  if valid compatibility then
    s1 <- simulatorReducer st (ADD_CONNECTION cfrom cto pol) ;;
    let polarityLabel := if String.eqb pol "hi" then "HI (positive)" else "LO (negative)" in
    s2 <- addAlert s1 "success" "connected" (WireConnected polarityLabel) ;;
    ret (s2, compatibility)
  else
    s1 <- addAlert st "error" "connection failed" (Validation (cmessage compatibility)) ;;
    ret (s1, compatibility).

Definition getComponent (st : simState num) (cid : Z) : option (component num) :=
  find (fun c => (id c =? cid)%Z) (components st).

Definition isOutputActive (st : simState num) (componentId : Z) : bool :=
  match find (fun c => (id c =? componentId)%Z) (components st) with
  | None => false
  | Some comp =>
      if String.eqb (type comp) "sma100a" then power (state comp) && rfOn (state comp)
      else if String.eqb (type comp) "fluke5500a" then power (state comp) && output (state comp)
      else false
  end.

Definition isComponentConnected (st : simState num) (componentId : Z) : bool :=
  existsb (fun conn => (from conn =? componentId)%Z || (to conn =? componentId)%Z)
          (connections st).

End Store.
End SimulatorContext.

(** ** What a measuring device reads from its source *)

(** The object [getConnectedValue] returns.  The calibrator branch fills every
    field; the generator branch returns [{ value, unit, active }] only. *)
Record connectedValue (num : Type) := mkConnectedValue {
  cv_value : num;
  cv_unit : string;
  cv_mode : option string;
  cv_mappedMode : option string;
  cv_frequency : option num;
  cv_active : bool;
  cv_wireResistance : option num
}.
Arguments mkConnectedValue {num}.
Arguments cv_value {num}.
Arguments cv_unit {num}.
Arguments cv_mode {num}.
Arguments cv_mappedMode {num}.
Arguments cv_frequency {num}.
Arguments cv_active {num}.
Arguments cv_wireResistance {num}.

(** A call either returns or throws a [TypeError] (a method called on
    [undefined]). *)
Inductive outcome (A : Type) :=
| Returned (a : A)
| TypeError.
Arguments Returned {A}.
Arguments TypeError {A}.

Section Runtime.
Context {num : Type} `{JSNumber num}.

(** [o || d] on an optional number *)
Definition num_or (o : option num) (d : num) : num :=
  match o with
  | Some r => if truthy r then r else d
  | None => d
  end.

(** [wire?.wireProperties?.resistance] *)
Definition wireResistanceOf (wire : option (connection num)) : option num :=
  match wire with
  | Some w => option_map resistance (wireProperties w)
  | None => None
  end.

(** [table[key]] on an object literal with string keys *)
Fixpoint lookup {A : Type} (table : list (string * A)) (key : string) : option A :=
  match table with
  | [] => None
  | (k, v) :: rest => if String.eqb k key then Some v else lookup rest key
  end.

(** [connections.find(c => c.to === id && c.polarity === p)] *)
Definition findWire (connections : list (connection num)) (sink : Z) (p : string)
  : option (connection num) :=
  find (fun c => (to c =? sink)%Z && String.eqb (polarity c) p) connections.

(** [a && b && a.from === b.from] *)
Definition sameSource (a b : option (connection num)) : option Z :=
  match a, b with
  | Some a, Some b => if (from a =? from b)%Z then Some (from a) else None
  | _, _ => None
  end.

(** [o === s] where [o] may be [undefined] *)
Definition str_is (o : option string) (s : string) : bool :=
  match o with
  | Some m => String.eqb m s
  | None => false
  end.

(** [complianceStatus]-dependent scaling shared by the devices and the hook *)
Definition scaleByCompliance (status : option string) (tolerance : num) : num :=
  match status with
  | Some s =>
      if String.eqb s "out_of_tolerance" then (tolerance * lit 10)%num
      else if String.eqb s "non_compliance" then (tolerance * lit 3)%num
      else tolerance
  | None => tolerance
  end.

End Runtime.

(** ** The digital multimeter: [Multimeter.jsx] *)

Module Multimeter.
Section Device.
Context {num : Type} `{JSNumber num}.

(** The store's snapshot and the device's own props *)
Variable connections : list (connection num).
Variable components : list (component num).
Variable component : component num.
Variable uncertaintyMode : bool.
Variable errorSimulation : errorFlags.
Variable config : deviceConfig num.
Variable random : nat -> num.

Definition modeMapping : list (string * string) :=
  [("DC Voltage", "DC V"); ("AC Voltage", "AC V"); ("DC Current", "DC A");
   ("AC Current", "AC A"); ("Resistance", "Ω"); ("Capacitance", "F");
   ("Frequency", "Hz"); ("Temperature", "°C")].

Definition getConnectedValue : outcome (option (connectedValue num)) :=
  let loadingError := loadingError errorSimulation in
  let hiConn := findWire connections (id component) "hi" in
  let loConn := findWire connections (id component) "lo" in
  let auxHiConn := findWire connections (id component) "aux_hi" in
  let auxLoConn := findWire connections (id component) "aux_lo" in
  let circuit :=
    match sameSource hiConn loConn with
    | Some sourceId => Some (sourceId, false)
    | None =>
        match sameSource auxHiConn auxLoConn with
        | Some sourceId => Some (sourceId, true)
        | None => None
        end
    end in
  match circuit with
  | None => Returned None
  | Some (sourceId, isAuxConnection) =>
      match find (fun c => (id c =? sourceId)%Z) components with
      | None => Returned None
      | Some source =>
          if negb (power (state source)) then Returned None
          else
            let wireResistance :=
              if loadingError then
                let hiWire := if isAuxConnection then auxHiConn else hiConn in
                let loWire := if isAuxConnection then auxLoConn else loConn in
                let rHi := num_or (wireResistanceOf hiWire) (lit 0.05) in
                let rLo := num_or (wireResistanceOf loWire) (lit 0.05) in
                (rHi + rLo)%num
              else lit 0 in
            let measured : outcome num :=
              let measuredValue := value (state source) in
              if loadingError && output (state source) then
                match mode (state source) with
                | None => TypeError
                | Some mode =>
                    if str_includes "Voltage" mode then
                      let rMeter := lit 10000000 in
                      Returned (measuredValue * (rMeter / (rMeter + wireResistance)))%num
                    else if String.eqb mode "Resistance" then
                      Returned (measuredValue + wireResistance)%num
                    else if str_includes "Current" mode then
                      if (wireResistance >? lit 1)%num
                      then Returned (measuredValue * lit 0.9995)%num
                      else Returned measuredValue
                    else Returned measuredValue
                end
              else Returned measuredValue in
            match measured with
            | TypeError => TypeError
            | Returned measuredValue =>
                if (String.eqb (type source) "fluke5500a"
                    || String.eqb (type source) "fluke5522a")
                   && output (state source) then
                  Returned (Some
                    {| cv_value := measuredValue;
                       cv_unit := if isAuxConnection then "A" else unit (state source);
                       cv_mode := mode (state source);
                       cv_mappedMode :=
                         Some match mode (state source) with
                              | Some m =>
                                  match lookup modeMapping m with
                                  | Some mm => mm
                                  | None => "DC V"
                                  end
                              | None => "DC V"
                              end;
                       cv_frequency := Some (num_or (frequency (state source)) (lit 1000));
                       cv_active := true;
                       cv_wireResistance := Some wireResistance |})
                else if String.eqb (type source) "sma100a" && rfOn (state source) then
                  Returned (Some
                    {| cv_value := level (state source);
                       cv_unit := "dBm";
                       cv_mode := None;
                       cv_mappedMode := None;
                       cv_frequency := None;
                       cv_active := true;
                       cv_wireResistance := None |})
                else Returned None
            end
      end
  end.

(** [connectedValue?.active] *)
Definition isActive (connectedValue : option (connectedValue num)) : bool :=
  match connectedValue with
  | Some cv => cv_active cv
  | None => false
  end.

(** The display's base value; [None] is [undefined]. *)
Definition baseValue (connectedValue : option (connectedValue num)) : option num :=
  match connectedValue with
  | Some cv =>
      if str_is (mode (state component)) "Hz" && cv_active cv then
        if str_is (cv_mode cv) "AC Voltage" || str_is (cv_mode cv) "AC Current"
        then cv_frequency cv
        else Some (lit 0)
      else if cv_active cv then Some (cv_value cv)
      else Some (value (state component))
  | None => Some (value (state component))
  end.

Definition displayUnit (connectedValue : option (connectedValue num)) : string :=
  let dial := mode (state component) in
  let dialUnit :=
    if str_is dial "DC V" || str_is dial "AC V" then "V"
    else if str_is dial "DC A" || str_is dial "AC A" then "A"
    else if str_is dial "Ω" then "Ω" else "F" in
  if str_is dial "Hz" then "Hz"
  else match connectedValue with
       | Some cv => if cv_active cv then cv_unit cv else dialUnit
       | None => dialUnit
       end.

Definition getTolerance (connectedValue : option (connectedValue num)) : num :=
  let effectiveMode :=
    match connectedValue with
    | Some cv =>
        if cv_active cv then
          match cv_mappedMode cv with
          | Some mm => if String.eqb mm "" then mode (state component) else Some mm
          | None => mode (state component)
          end
        else mode (state component)
    | None => mode (state component)
    end in
  let tolerance :=
    num_or match effectiveMode with
           | Some m => lookup (cfg_tolerance config) m
           | None => None
           end (lit 0.01) in
  scaleByCompliance (complianceStatus (state component)) tolerance.

Definition shouldFluctuate (connectedValue : option (connectedValue num)) : bool :=
  (uncertaintyMode || resolutionUncertainty errorSimulation)
  && isActive connectedValue && power (state component).

(** One run of the scheduler's callback on the values the ref holds: the
    value it publishes and the delay until its next run. *)
Definition updateFluctuation (currentBase tolerance : num) : Rand (num * num) :=
  fun k =>
    let maxVariation := (num_abs currentBase * (tolerance / lit 100))%num in
    let randomOffset := ((random k - lit 0.5) * lit 2 * maxVariation)%num in
    let nextDelay := (lit 1000 + random (S k) * lit 1000)%num in
    ((currentBase + randomOffset, nextDelay)%num, S (S k)).

Definition displayValue (fluctuatingValue : option num) (baseValue : option num)
  : option num :=
  if uncertaintyMode || resolutionUncertainty errorSimulation then
    match fluctuatingValue with
    | Some v => Some v
    | None => baseValue
    end
  else baseValue.

End Device.
End Multimeter.

(** ** The Fluke 117: [Fluke117.jsx] *)

Module Fluke117.
Section Device.
Context {num : Type} `{JSNumber num}.

Variable connections : list (connection num).
Variable components : list (component num).
Variable component : component num.
Variable uncertaintyMode : bool.
Variable errorSimulation : errorFlags.
Variable config : deviceConfig num.
Variable random : nat -> num.

Definition MODE_MAPPING : list (string * string) :=
  [("DC Voltage", "DC V"); ("AC Voltage", "AC V"); ("DC Current", "DC mA");
   ("AC Current", "AC mA"); ("Resistance", "Ω"); ("Frequency", "Hz")].

Definition getConnectedValue : option (connectedValue num) :=
  let loadingError := loadingError errorSimulation in
  let hiConn := findWire connections (id component) "hi" in
  let loConn := findWire connections (id component) "lo" in
  let auxHiConn := findWire connections (id component) "aux_hi" in
  let auxLoConn := findWire connections (id component) "aux_lo" in
  let circuit :=
    match sameSource hiConn loConn with
    | Some sourceId => Some (sourceId, false)
    | None =>
        match sameSource auxHiConn auxLoConn with
        | Some sourceId => Some (sourceId, true)
        | None => None
        end
    end in
  match circuit with
  | None => None
  | Some (sourceId, isAux) =>
      match find (fun c => (id c =? sourceId)%Z) components with
      | None => None
      | Some source =>
          if negb (power (state source)) then None
          else
            let wireResistance :=
              if loadingError then
                let hiW := if isAux then auxHiConn else hiConn in
                let loW := if isAux then auxLoConn else loConn in
                (num_or (wireResistanceOf hiW) (lit 0.05)
                 + num_or (wireResistanceOf loW) (lit 0.05))%num
              else lit 0 in
            let measuredValue := value (state source) in
            let measuredValue :=
              if loadingError && output (state source) then
                let mode := mode (state source) in
                if match mode with
                   | Some m => str_includes "Voltage" m
                   | None => false
                   end
                then (measuredValue * (lit 10000000 / (lit 10000000 + wireResistance)))%num
                else if str_is mode "Resistance" then (measuredValue + wireResistance)%num
                else measuredValue
              else measuredValue in
            if (String.eqb (type source) "fluke5500a"
                || String.eqb (type source) "fluke5522a")
               && output (state source) then
              Some {| cv_value := measuredValue;
                      cv_unit := if isAux then "mA" else unit (state source);
                      cv_mode := mode (state source);
                      cv_mappedMode :=
                        Some match mode (state source) with
                             | Some m =>
                                 match lookup MODE_MAPPING m with
                                 | Some mm => mm
                                 | None => "DC V"
                                 end
                             | None => "DC V"
                             end;
                      cv_frequency := Some (num_or (frequency (state source)) (lit 1000));
                      cv_active := true;
                      cv_wireResistance := None |}
            else None
      end
  end.

Definition baseValue (connectedValue : option (connectedValue num)) : option num :=
  match connectedValue with
  | Some cv =>
      if str_is (mode (state component)) "Hz" && cv_active cv then
        if match cv_mode cv with
           | Some m => includes ["AC Voltage"; "AC Current"] m
           | None => false
           end
        then cv_frequency cv
        else Some (lit 0)
      else if cv_active cv then Some (cv_value cv)
      else Some (value (state component))
  | None => Some (value (state component))
  end.

Definition getTolerance (connectedValue : option (connectedValue num)) : num :=
  let effectiveMode :=
    match connectedValue with
    | Some cv =>
        if cv_active cv then
          match cv_mappedMode cv with
          | Some mm => if String.eqb mm "" then mode (state component) else Some mm
          | None => mode (state component)
          end
        else mode (state component)
    | None => mode (state component)
    end in
  let tol :=
    num_or match effectiveMode with
           | Some m => lookup (cfg_tolerance config) m
           | None => None
           end (lit 0.5) in
  scaleByCompliance (complianceStatus (state component)) tol.

(** One run of [tick] on the values the ref holds *)
Definition tick (bv tol : num) : Rand (num * num) :=
  fun k =>
    let maxVar := (num_abs bv * (tol / lit 100))%num in
    let offset := ((random k - lit 0.5) * lit 2 * maxVar)%num in
    ((bv + offset, lit 1000 + random (S k) * lit 1000)%num, S (S k)).

End Device.
End Fluke117.

(** ** The shared hook: [useUncertaintyMode.js] *)

Module UseUncertaintyMode.
Section Hook.
Context {num : Type} `{JSNumber num}.

Variable baseValue : num.
Variable tolerance : num.
Variable complianceStatus : option string.
Variable random : nat -> num.

Definition getEffectiveTolerance : num :=
  scaleByCompliance complianceStatus tolerance.

(** One run of the interval's callback: the value it publishes *)
Definition updateFluctuation : Rand num :=
  fun k =>
    let effectiveTolerance := getEffectiveTolerance in
    let maxVariation := (num_abs baseValue * (effectiveTolerance / lit 100))%num in
    let randomOffset := ((random k - lit 0.5) * lit 2 * maxVariation)%num in
    let minNoise :=
      let n := (num_abs baseValue * lit 0.0001)%num in
      if truthy n then n else lit 0.0001 in
    let totalOffset := (randomOffset + (random (S k) - lit 0.5) * minNoise)%num in
    ((baseValue + totalOffset)%num, S (S k)).

End Hook.
End UseUncertaintyMode.

(** ** The device packages of the bench used below, as the sources give them *)

Section Catalog.
Context {num : Type} `{JSNumber num}.

(** [Multimeter/index.js] *)
Definition multimeterConfig : deviceConfig num := {|
  cfg_type := "multimeter";
  cfg_role := "uuc";
  cfg_tolerance :=
    [("DC V", lit 0.015); ("AC V", lit 0.06); ("DC A", lit 0.05);
     ("AC A", lit 0.15); ("Ω", lit 0.04); ("F", lit 1); ("Hz", lit 0.005)];
  cfg_initialState :=
    Some {| power := true; output := false; rfOn := false; mode := Some "DC V";
            value := lit 0; unit := "V"; frequency := None; level := lit 0;
            complianceStatus := None |}
|}.

(** [Fluke117/index.js] *)
Definition fluke117Config : deviceConfig num := {|
  cfg_type := "fluke117";
  cfg_role := "uuc";
  cfg_tolerance :=
    [("DC V", lit 0.5); ("AC V", lit 1); ("DC mA", lit 1); ("AC mA", lit 1.5);
     ("Ω", lit 0.9); ("Hz", lit 0.5); ("Diode", lit 1.5); ("~V", lit 1)];
  cfg_initialState :=
    Some {| power := true; output := false; rfOn := false; mode := Some "DC V";
            value := lit 0; unit := "V"; frequency := None; level := lit 0;
            complianceStatus := None |}
|}.

(** [Fluke5500A/config.js] *)
Definition fluke5500aConfig : deviceConfig num := {|
  cfg_type := "fluke5500a";
  cfg_role := "calibrator";
  cfg_tolerance := [];
  cfg_initialState :=
    Some {| power := true; output := false; rfOn := false;
            mode := Some "DC Voltage"; value := lit 0; unit := "V";
            frequency := Some (lit 1000); level := lit 0;
            complianceStatus := None |}
|}.

(** [Fluke5522A/index.js] *)
Definition fluke5522aConfig : deviceConfig num := {|
  cfg_type := "fluke5522a";
  cfg_role := "calibrator";
  cfg_tolerance := [];
  cfg_initialState :=
    Some {| power := true; output := false; rfOn := false;
            mode := Some "DC Voltage"; value := lit 1; unit := "V";
            frequency := Some (lit 1000); level := lit 0;
            complianceStatus := None |}
|}.

(** [SMA100A/index.js]; its template has no [value], [unit] or [mode]. *)
Definition sma100aConfig : deviceConfig num := {|
  cfg_type := "sma100a";
  cfg_role := "calibrator";
  cfg_tolerance := [];
  cfg_initialState :=
    Some {| power := true; output := false; rfOn := false; mode := None;
            value := lit 0; unit := ""; frequency := Some (lit 6);
            level := lit 15; complianceStatus := None |}
|}.

Definition benchDevices : list (deviceConfig num) :=
  [sma100aConfig; fluke5500aConfig; fluke5522aConfig; multimeterConfig; fluke117Config].

End Catalog.

(** ** Observations on the store *)

Section Observations.
Context {num : Type} `{JSNumber num}.
Variable DEVICES : list (deviceConfig num).
Variable random : nat -> num.

Local Abbreviation action := (@SimulatorContext.action num).
Local Abbreviation simulatorReducer := (SimulatorContext.simulatorReducer DEVICES random).

Definition last_error {A : Type} (l : list A) : option A :=
  nth_error l (List.length l - 1).

(** The id a dispatch hands out: that of the component [ADD_COMPONENT] appended. *)
Definition assignedId (a : action) (after : simState num) : option Z :=
  match a with
  | SimulatorContext.ADD_COMPONENT _ _ _ => option_map id (last_error (components after))
  | _ => None
  end.

(** The ids handed out along a sequence of dispatches, in order *)
Fixpoint assignedIds (st : simState num) (acts : list action) (k : nat) : list Z :=
  match acts with
  | [] => []
  | a :: rest =>
      let (st', k') := simulatorReducer st a k in
      match assignedId a st' with
      | Some i => i :: assignedIds st' rest k'
      | None => assignedIds st' rest k'
      end
  end.

Definition isAddOrRemove (a : action) : bool :=
  match a with
  | SimulatorContext.ADD_COMPONENT _ _ _ | SimulatorContext.REMOVE_COMPONENT _ => true
  | _ => false
  end.

(** Some component of the store has this id. *)
Definition hasComponent (st : simState num) (i : Z) : Prop :=
  exists c, In c (components st) /\ id c = i.

(** The registry declares this role for the device type. *)
Definition hasRole (ty role : string) : Prop :=
  exists d, In d DEVICES /\ cfg_type d = ty /\ cfg_role d = role.

(** The store already holds a wire with this [(from, to, polarity)] triple. *)
Definition wired (st : simState num) (f t : Z) (pol : string) : Prop :=
  exists c, In c (connections st) /\ from c = f /\ to c = t /\ polarity c = pol.

(** [conn.wireProperties?.type === 'standard'] *)
Definition isStandardWire (c : connection num) : bool :=
  match wireProperties c with
  | Some w => String.eqb (wtype w) "standard"
  | None => false
  end.

(** Neither [clear()] nor [loadSnapshot] *)
Definition noReset (a : action) : bool :=
  match a with
  | SimulatorContext.CLEAR_ALL | SimulatorContext.LOAD_PROJECT _ _ => false
  | _ => true
  end.

End Observations.

(** ** Observations on a measuring device's wiring *)

Section Wiring.
Context {num : Type} `{JSNumber num}.
Variable connections : list (connection num).
Variable sink : Z.

(** The first wire of polarity [p] into the sink is [h], the first of
    polarity [s] is [l], and both come from the same source. *)
Definition completePair (p s : string) (h l : connection num) : Prop :=
  findWire connections sink p = Some h
  /\ findWire connections sink s = Some l
  /\ from h = from l.

(** A wire of the pair is missing, or the two come from different sources. *)
Definition noPair (p s : string) : Prop :=
  findWire connections sink p = None
  \/ findWire connections sink s = None
  \/ exists h l, findWire connections sink p = Some h
                 /\ findWire connections sink s = Some l
                 /\ from h <> from l.

(** The pair of wires a device reads through: the HI/LO pair, or, when that
    pair is not complete, the AUX_HI/AUX_LO pair ([isAux]). *)
Definition terminalWires (h l : connection num) (isAux : bool) : Prop :=
  (isAux = false /\ completePair "hi" "lo" h l)
  \/ (isAux = true /\ noPair "hi" "lo" /\ completePair "aux_hi" "aux_lo" h l).

End Wiring.

(** The resistance the devices take for a wire they read through:
    [wire?.wireProperties?.resistance || 0.05] *)
Definition wireOhms {num : Type} `{JSNumber num} (wire : connection num) : num :=
  num_or (wireResistanceOf (Some wire)) (lit 0.05).

(** ['fluke5500a'] or ['fluke5522a']: the sources read as calibrators *)
Definition isFlukeCalibrator (ty : string) : bool :=
  String.eqb ty "fluke5500a" || String.eqb ty "fluke5522a".

(** What a reading a device reports rests on: the pair of wires read
    through, both into the device and from one source; that source, found in
    the store and powered; and, for a calibrator source, the unit reported. *)
Section Resolved.
Context {num : Type} `{JSNumber num}.
Variable connections : list (connection num).
Variable components : list (component num).
Variable device : component num.

Definition restsOn (unitOf : bool -> component num -> string) (cv : connectedValue num) : Prop :=
  exists hiWire loWire isAux source,
    terminalWires connections (id device) hiWire loWire isAux
    /\ In hiWire connections /\ In loWire connections
    /\ to hiWire = id device /\ to loWire = id device
    /\ polarity hiWire = (if isAux then "aux_hi" else "hi")
    /\ polarity loWire = (if isAux then "aux_lo" else "lo")
    /\ from hiWire = from loWire
    /\ find (fun c => (id c =? from hiWire)%Z) components = Some source
    /\ In source components /\ id source = from hiWire
    /\ power (state source) = true
    /\ (isFlukeCalibrator (type source) = true -> cv_unit cv = unitOf isAux source).

End Resolved.

(** A device with its compliance status cleared: its tolerance is the mode
    tolerance. *)
Definition unrated {num : Type} (device : component num) : component num :=
  SimulatorContext.with_state device
    (SimulatorContext.with_complianceStatus (state device) None).

(** ** A bench assembled through the store

    A Fluke 5500A (id 0) and a digital multimeter (id 1) are placed, the
    calibrator is programmed and switched to operate, a HI and a LO wire are
    validated and added, and the loading-error flag is switched on. *)

Section Bench.
Context {num : Type} `{JSNumber num}.

Definition noDraw : nat -> num := fun _ => lit 0.

Definition program (m : string) (u : string) (v : num) : statePatch num :=
  {| p_power := None; p_output := Some true; p_rfOn := None;
     p_mode := Some (Some m); p_value := Some v; p_unit := Some u;
     p_frequency := None; p_level := None; p_complianceStatus := None |}.

Definition placed : simState num :=
  fst (SimulatorContext.dispatchAll benchDevices noDraw SimulatorContext.initialState
         [SimulatorContext.ADD_COMPONENT "fluke5500a" (lit 100) (lit 100);
          SimulatorContext.ADD_COMPONENT "multimeter" (lit 400) (lit 100)] 0%nat).

Definition wiredBench (m u : string) (v : num) : simState num :=
  let s1 := fst (SimulatorContext.simulatorReducer benchDevices noDraw placed
                   (SimulatorContext.UPDATE_DEVICE_STATE 0 (program m u v)) 0%nat) in
  let s2 := fst (fst (SimulatorContext.addConnection benchDevices noDraw s1 0 1 "hi" 0%nat)) in
  let s3 := fst (fst (SimulatorContext.addConnection benchDevices noDraw s2 0 1 "lo" 0%nat)) in
  fst (SimulatorContext.simulatorReducer benchDevices noDraw s3
         (SimulatorContext.TOGGLE_ERROR_SIMULATION "loadingError") 0%nat).

(** 10.000 V DC through two standard wires *)
Definition voltageBench : simState num := wiredBench "DC Voltage" "V" (lit 10).

(** 1000 ohm through two wires toggled to bad *)
Definition resistanceBench : simState num :=
  fst (SimulatorContext.dispatchAll benchDevices noDraw
         (wiredBench "Resistance" "Ω" (lit 1000))
         [SimulatorContext.TOGGLE_CONNECTION_WIRE_TYPE 0;
          SimulatorContext.TOGGLE_CONNECTION_WIRE_TYPE 1] 0%nat).

(** The multimeter's [handleModeChange]: [setState({ mode, value: 0 })] *)
Definition dial (m : string) : statePatch num :=
  {| p_power := None; p_output := None; p_rfOn := None;
     p_mode := Some (Some m); p_value := Some (lit 0); p_unit := None;
     p_frequency := None; p_level := None; p_complianceStatus := None |}.

(** The multimeter's dial turned to Hz on a wired bench *)
Definition hzBench (m u : string) (v : num) : simState num :=
  fst (SimulatorContext.simulatorReducer benchDevices noDraw (wiredBench m u v)
         (SimulatorContext.UPDATE_DEVICE_STATE 1 (dial "Hz")) 0%nat).

(** A wired bench after [loadSnapshot] of the same components with two wires
    whose resistance field is [r] *)
Definition loadedBench (m u : string) (v r : num) : simState num :=
  fst (SimulatorContext.simulatorReducer benchDevices noDraw (wiredBench m u v)
         (SimulatorContext.LOAD_PROJECT
            (components (wiredBench m u v))
            [{| from := 0; to := 1; polarity := "hi";
                wireProperties := Some {| wtype := "standard"; resistance := r |} |};
             {| from := 0; to := 1; polarity := "lo";
                wireProperties := Some {| wtype := "standard"; resistance := r |} |}])
         0%nat).

(** The calibrator's [handleEnter] with a frequency line: the new frequency *)
Definition retune (f : num) : statePatch num :=
  {| p_power := None; p_output := None; p_rfOn := None;
     p_mode := None; p_value := None; p_unit := None;
     p_frequency := Some (Some f); p_level := None; p_complianceStatus := None |}.

(** 5 V AC programmed at 0 Hz, the multimeter's dial on Hz *)
Definition zeroHzBench : simState num :=
  fst (SimulatorContext.simulatorReducer benchDevices noDraw
         (hzBench "AC Voltage" "V" (lit 5))
         (SimulatorContext.UPDATE_DEVICE_STATE 0 (retune (lit 0))) 0%nat).

(** The component of a bench with the given id; the multimeter's template
    when there is none. *)
Definition deviceOf (st : simState num) (i : Z) : component num :=
  match SimulatorContext.getComponent st i with
  | Some c => c
  | None => {| id := i; type := "multimeter"; x := lit 0; y := lit 0;
               state := SimulatorContext.getInitialState benchDevices "multimeter" |}
  end.

Definition multimeterReading (st : simState num) : outcome (option (connectedValue num)) :=
  Multimeter.getConnectedValue (connections st) (components st) (deviceOf st 1%Z)
                               (errorSimulation st).

Definition multimeterBase (st : simState num) : option num :=
  match multimeterReading st with
  | Returned cv => Multimeter.baseValue (deviceOf st 1%Z) cv
  | TypeError => None
  end.

(** The wires and the calibrator of the benches above *)
Definition benchWire (pol kind : string) (r : num) : connection num :=
  {| from := 0; to := 1; polarity := pol;
     wireProperties := Some {| wtype := kind; resistance := r |} |}.

End Bench.

(** ** Draws and samples used below *)

(** [Math.random] returning 0.5, and 0.999, at every call *)
Definition half : nat -> Q := fun _ => 0.5.
Definition nearOne : nat -> Q := fun _ => 0.999.

(** [Math.random] returning 0, and the largest binary64 value below 1, at
    every call *)
Definition lowest : nat -> float := fun _ => lit 0.
Definition highest : nat -> float := fun _ => PrimFloat.next_down (lit 1).

(** The sample the shared hook publishes for base 100 and tolerance 1 when
    both of its draws are 0.999 *)
Definition hookSample : Q :=
  fst (UseUncertaintyMode.updateFluctuation 100 1 None nearOne 0%nat).

(** The store after loading an empty project *)
Definition emptyLoad : simState Q :=
  fst (SimulatorContext.simulatorReducer benchDevices half SimulatorContext.initialState
         (SimulatorContext.LOAD_PROJECT [] []) 0%nat).

(** The placed bench with global uncertainty mode switched on *)
Definition uncertainBench : simState Q :=
  fst (SimulatorContext.simulatorReducer benchDevices half placed
         SimulatorContext.TOGGLE_UNCERTAINTY_MODE 0%nat).

(** * The rest of the engine's surface *)

(** ** The registry's lookups by type: [deviceRegistry.js]

    [DEVICES] is an object keyed by device type; it is read here as the list
    of its values, and [DEVICES[type]] as the first package of that type. *)

Module DeviceRegistry.
Section Registry.
Context {num : Type}.
Variable DEVICES : list (deviceConfig num).

Definition getDeviceConfig (type : string) : option (deviceConfig num) :=
  find (fun d => String.eqb (cfg_type d) type) DEVICES.

(** [config && config.role === 'calibrator'], as a truth value *)
Definition isCalibrator (type : string) : bool :=
  match getDeviceConfig type with
  | Some config => String.eqb (cfg_role config) "calibrator"
  | None => false
  end.

Definition isUUC (type : string) : bool :=
  match getDeviceConfig type with
  | Some config => String.eqb (cfg_role config) "uuc"
  | None => false
  end.

End Registry.
End DeviceRegistry.

(** ** The provider's interface: the callbacks [useSimulator] hands out *)

Module Provider.
Section Callbacks.
Context {num : Type} `{JSNumber num}.
Variable DEVICES : list (deviceConfig num).
Variable random : nat -> num.

Inductive call :=
| addComponent (type : string) (x y : num)
| removeComponent (id : Z)
| updateComponentPosition (id : Z) (x y : num)
| updateDeviceState (id : Z) (newState : statePatch num)
| addAlert (type title : string) (message : alertText)
| dismissAlert (id : Z)
| addConnection (from to : Z) (polarity : string)
| removeConnection (index : nat)
| setConnectionStart (point : startPoint)
| clearConnectionStart
| clearAll
| loadProject (components : list (component num)) (connections : list (connection num))
| toggleUncertaintyMode
| toggleErrorSimulation (errorType : string)
| toggleConnectionWireType (index : nat).

Definition dispatch (st : simState num) (a : SimulatorContext.action) : Rand (simState num) :=
  SimulatorContext.simulatorReducer DEVICES random st a.

Definition perform (st : simState num) (c : call) : Rand (simState num) :=
  match c with
  | addComponent ty px py => dispatch st (SimulatorContext.ADD_COMPONENT ty px py)
  | removeComponent i => dispatch st (SimulatorContext.REMOVE_COMPONENT i)
  | updateComponentPosition i px py =>
      dispatch st (SimulatorContext.UPDATE_COMPONENT_POSITION i px py)
  | updateDeviceState i newState =>
      dispatch st (SimulatorContext.UPDATE_DEVICE_STATE i newState)
  | addAlert ty title msg => SimulatorContext.addAlert DEVICES random st ty title msg
  | dismissAlert i => dispatch st (SimulatorContext.DISMISS_ALERT i)
  | addConnection f t pol =>
      r <- SimulatorContext.addConnection DEVICES random st f t pol ;; ret (fst r)
  | removeConnection index => dispatch st (SimulatorContext.REMOVE_CONNECTION index)
  | setConnectionStart point => dispatch st (SimulatorContext.SET_CONNECTION_START point)
  | clearConnectionStart => dispatch st SimulatorContext.CLEAR_CONNECTION_START
  | clearAll => dispatch st SimulatorContext.CLEAR_ALL
  | loadProject cs conns => dispatch st (SimulatorContext.LOAD_PROJECT cs conns)
  | toggleUncertaintyMode => dispatch st SimulatorContext.TOGGLE_UNCERTAINTY_MODE
  | toggleErrorSimulation errorType =>
      dispatch st (SimulatorContext.TOGGLE_ERROR_SIMULATION errorType)
  | toggleConnectionWireType index =>
      dispatch st (SimulatorContext.TOGGLE_CONNECTION_WIRE_TYPE index)
  end.

(** A sequence of calls *)
Fixpoint performAll (st : simState num) (cs : list call) : Rand (simState num) :=
  match cs with
  | [] => ret st
  | c :: rest => st' <- perform st c ;; performAll st' rest
  end.

End Callbacks.
End Provider.

(** ** A terminal of a device: [ConnectionPoint.jsx] *)

Module ConnectionPoint.
Section Point.
Context {num : Type} `{JSNumber num}.
Variable DEVICES : list (deviceConfig num).
Variable random : nat -> num.

(** [handleClick] of the point with props [type], [componentId], [polarity] *)
Definition handleClick (st : simState num) (type : string) (componentId : Z)
    (polarity : string) : Rand (simState num) :=
  match connectionStartPoint st with
  | None =>
      if String.eqb type "output" then
        Provider.perform DEVICES random st
          (Provider.setConnectionStart
             {| sp_componentId := componentId; sp_type := type; sp_polarity := polarity |})
      else ret st
  | Some start =>
      if String.eqb type "input" then
        if negb (String.eqb (sp_polarity start) polarity) then
          Provider.perform DEVICES random st Provider.clearConnectionStart
        else
          st1 <- (if negb (sp_componentId start =? componentId)%Z then
                    Provider.perform DEVICES random st
                      (Provider.addConnection (sp_componentId start) componentId polarity)
                  else ret st) ;;
          Provider.perform DEVICES random st1 Provider.clearConnectionStart
      else if String.eqb type "output" then
        Provider.perform DEVICES random st Provider.clearConnectionStart
      else ret st
  end.

(** A click, as the props of the point clicked *)
Record click := mkClick {
  ck_type : string;
  ck_componentId : Z;
  ck_polarity : string
}.

Fixpoint clickAll (st : simState num) (clicks : list click) : Rand (simState num) :=
  match clicks with
  | [] => ret st
  | c :: rest =>
      st' <- handleClick st (ck_type c) (ck_componentId c) (ck_polarity c) ;;
      clickAll st' rest
  end.

End Point.
End ConnectionPoint.

(** ** Clicking a wire, and Escape: [Canvas.jsx] *)

Module Canvas.
Section Wires.
Context {num : Type} `{JSNumber num}.
Variable DEVICES : list (deviceConfig num).
Variable random : nat -> num.

(** [handleWireClick]; [confirmed] is the answer to [window.confirm]. *)
Definition handleWireClick (st : simState num) (confirmed : bool) (index : nat)
  : Rand (simState num) :=
  if loadingError (errorSimulation st) then
    Provider.perform DEVICES random st (Provider.toggleConnectionWireType index)
  else if confirmed then
    Provider.perform DEVICES random st (Provider.removeConnection index)
  else ret st.

(** [handleKeyDown] *)
Definition handleKeyDown (st : simState num) (key : string) : Rand (simState num) :=
  match connectionStartPoint st with
  | Some _ =>
      if String.eqb key "Escape"
      then Provider.perform DEVICES random st Provider.clearConnectionStart
      else ret st
  | None => ret st
  end.

End Wires.
End Canvas.

(** ** Observations on the store, continued *)

Section StoreInvariants.
Context {num : Type} `{JSNumber num}.
Variable DEVICES : list (deviceConfig num).

(** Every component's id is below the id counter. *)
Definition idsBelowCounter (st : simState num) : Prop :=
  Forall (fun c => id c < componentIdCounter st)%Z (components st).

(** Every alert's id is below the alert counter, and the ids increase
    along the list. *)
Definition alertsInOrder (st : simState num) : Prop :=
  Forall (fun a => alertId a < alertIdCounter st)%Z (alerts st)
  /\ StronglySorted Z.lt (map alertId (alerts st)).

(** Every wire goes from a component whose registered role is calibrator to
    one whose registered role is uuc, both present in the store. *)
Definition wellWired (st : simState num) : Prop :=
  Forall (fun conn =>
            exists f t,
              In f (components st) /\ In t (components st)
              /\ id f = from conn /\ id t = to conn
              /\ hasRole DEVICES (type f) "calibrator"
              /\ hasRole DEVICES (type t) "uuc")
         (connections st).

(** The [(from, to, polarity)] triple of a wire *)
Definition triple (conn : connection num) : Z * Z * string :=
  (from conn, to conn, polarity conn).

Definition isLoadAction (a : @SimulatorContext.action num) : bool :=
  match a with
  | SimulatorContext.LOAD_PROJECT _ _ => true
  | _ => false
  end.

Definition isLoadCall (c : @Provider.call num) : bool :=
  match c with
  | Provider.loadProject _ _ => true
  | _ => false
  end.

(** A call that is not [addConnection] with an empty polarity *)
Definition namesPolarity (c : @Provider.call num) : bool :=
  match c with
  | Provider.addConnection _ _ pol => negb (String.eqb pol "")
  | _ => true
  end.

(** A wire as [toggleWireKind] leaves it *)
Definition canonicalWire (conn : connection num) : Prop :=
  wireProperties conn = Some {| wtype := "standard"; resistance := lit 0.05 |}
  \/ wireProperties conn = Some {| wtype := "bad"; resistance := lit 5 |}.

End StoreInvariants.

(** ** A session on the bench, as calls on the provider *)

Section Session.
Context {num : Type} `{JSNumber num}.

(** The pair [(id, type)] of a component *)
Definition identity (c : component num) : Z * string := (id c, type c).

(** The wire [ADD_CONNECTION] appends *)
Definition newWire (f t : Z) (pol : string) : connection num :=
  {| from := f; to := t; polarity := str_or pol "hi";
     wireProperties := Some {| wtype := "standard"; resistance := lit 0.05 |} |}.

(** A wire after [TOGGLE_CONNECTION_WIRE_TYPE] on its index *)
Definition toggled (conn : connection num) : connection num :=
  SimulatorContext.with_wireProperties conn
    {| wtype := if isStandardWire conn then "bad" else "standard";
       resistance := if isStandardWire conn then lit 5 else lit 0.05 |}.

(** Two devices are placed and wired HI and LO; a wire in the wrong
    direction is asked for; the loading-error flag is switched on and the
    first wire is toggled. *)
Definition benchCalls : list (@Provider.call num) :=
  [Provider.addComponent "fluke5500a" (lit 100) (lit 100);
   Provider.addComponent "multimeter" (lit 400) (lit 100);
   Provider.addConnection 0 1 "hi";
   Provider.addConnection 0 1 "lo";
   Provider.addConnection 1 0 "hi";
   Provider.toggleErrorSimulation "loadingError";
   Provider.toggleConnectionWireType 0].

Definition session : simState num :=
  fst (Provider.performAll benchDevices noDraw SimulatorContext.initialState benchCalls 0%nat).

End Session.


(** ** The Fluke 117's dial and terminal panel: [Fluke117.jsx] *)

(** [Array.prototype.findIndex]: the index of the first match, or [-1] *)
Fixpoint findIndex {A : Type} (p : A -> bool) (l : list A) : Z :=
  match l with
  | [] => (-1)%Z
  | a :: rest =>
      if p a then 0%Z
      else let i := findIndex p rest in if (i <? 0)%Z then (-1)%Z else (i + 1)%Z
  end.

(** [l[i]] at an integer index; [None] is [undefined]. *)
Definition at_index {A : Type} (l : list A) (i : Z) : option A :=
  if (i <? 0)%Z then None else nth_error l (Z.to_nat i).

Module Fluke117Panel.

Record position := mkPosition {
  key : string;
  label : string;
  punit : string;
  angle : Z
}.

Definition DIAL_POSITIONS : list position :=
  [ {| key := "OFF"; label := "OFF"; punit := ""; angle := -135 |};
    {| key := "~V"; label := "LoZ"; punit := "V"; angle := -90 |};
    {| key := "AC V"; label := "ACV"; punit := "V"; angle := -45 |};
    {| key := "DC V"; label := "DCV"; punit := "V"; angle := 0 |};
    {| key := "DC mA"; label := "mADC"; punit := "mA"; angle := 45 |};
    {| key := "AC mA"; label := "mAAC"; punit := "mA"; angle := 90 |};
    {| key := "Diode"; label := "⫠"; punit := "V"; angle := 135 |};
    {| key := "Ω"; label := "Ω"; punit := "Ω"; angle := 180 |};
    {| key := "Hz"; label := "Hz"; punit := "Hz"; angle := -180 |} ].

(** The terminals the panel renders, as [(type, polarity)] *)
Definition terminals : list (string * string) :=
  [("input", "aux_hi"); ("input", "lo"); ("input", "hi")].

Section Panel.
Context {num : Type} `{JSNumber num}.
Variable component : component num.

(** [setState(newState)] *)
Definition setState (newState : statePatch num) : @Provider.call num :=
  Provider.updateDeviceState (id component) newState.

Definition dialIdx : Z :=
  Z.max 0 (findIndex (fun p => str_is (mode (state component)) (key p)) DIAL_POSITIONS).

(** The object [rotateDial] and [handleLabelClick] pass to [setState] *)
Definition turnTo (pos : position) : statePatch num :=
  {| p_power := Some (negb (String.eqb (key pos) "OFF"));
     p_output := None; p_rfOn := None;
     p_mode := Some (Some (key pos));
     p_value := Some (lit 0);
     p_unit := Some (punit pos);
     p_frequency := None; p_level := None; p_complianceStatus := None |}.

(** [rotateDial(dir)]: the call it makes; reading [pos.key] of a position
    that is not there throws. *)
Definition rotateDial (dir : Z) : outcome (@Provider.call num) :=
  let length := Z.of_nat (List.length DIAL_POSITIONS) in
  let next := Z.rem (dialIdx + dir + length) length in
  match at_index DIAL_POSITIONS next with
  | Some pos => Returned (setState (turnTo pos))
  | None => TypeError
  end.

(** [handleLabelClick(posKey)]: the call it makes, if any *)
Definition handleLabelClick (posKey : string) : option (@Provider.call num) :=
  match find (fun p => String.eqb (key p) posKey) DIAL_POSITIONS with
  | Some pos => Some (setState (turnTo pos))
  | None => None
  end.

(** [DIAL_POSITIONS[dialIdx].angle] *)
Definition knobAngle : outcome Z :=
  match at_index DIAL_POSITIONS dialIdx with
  | Some pos => Returned (angle pos)
  | None => TypeError
  end.

End Panel.
End Fluke117Panel.

(** ** Observations on the panel and on what is asked of the provider *)

Section PanelObservations.
Context {num : Type} `{JSNumber num}.

(** A wire into component [d] is asked for on one of these polarities, and
    no project is loaded. *)
Definition onTerminals (polarities : list string) (d : Z) (c : @Provider.call num) : bool :=
  match c with
  | Provider.addConnection _ t pol => negb (t =? d)%Z || includes polarities pol
  | Provider.loadProject _ _ => false
  | _ => true
  end.

(** The polarities of the input terminals of a panel *)
Definition inputPolarities (terminals : list (string * string)) : list string :=
  map snd (filter (fun t => String.eqb (fst t) "input") terminals).

(** The component after a call on the provider that updates it *)
Definition updated (c : component num) (call : @Provider.call num) : component num :=
  match call with
  | Provider.updateDeviceState i newState =>
      if (id c =? i)%Z
      then SimulatorContext.with_state c (SimulatorContext.mergeState (state c) newState)
      else c
  | _ => c
  end.

(** The component after [rotateDial(dir)]; unchanged when the call throws. *)
Definition rotated (dir : Z) (c : component num) : component num :=
  match Fluke117Panel.rotateDial c dir with
  | Returned call => updated c call
  | TypeError => c
  end.

End PanelObservations.


(** ** Further benches *)

Section MoreBenches.
Context {num : Type} `{JSNumber num}.

(** A Fluke 5500A (id 0) programmed to 10 V DC and a Fluke 117 (id 1),
    wired HI and LO *)
Definition fluke117Calls : list (@Provider.call num) :=
  [Provider.addComponent "fluke5500a" (lit 100) (lit 100);
   Provider.addComponent "fluke117" (lit 400) (lit 100);
   Provider.updateDeviceState 0 (program "DC Voltage" "V" (lit 10));
   Provider.addConnection 0 1 "hi";
   Provider.addConnection 0 1 "lo"].

Definition fluke117Bench : simState num :=
  fst (Provider.performAll benchDevices noDraw SimulatorContext.initialState
         fluke117Calls 0%nat).

(** 2 A DC with the loading-error flag on, the HI wire toggled to bad *)
Definition currentBench : simState num :=
  fst (SimulatorContext.simulatorReducer benchDevices noDraw
         (wiredBench "DC Current" "A" (lit 2))
         (SimulatorContext.TOGGLE_CONNECTION_WIRE_TYPE 0) 0%nat).

(** A patch that clears the mode field *)
Definition unmode : statePatch num :=
  {| p_power := None; p_output := None; p_rfOn := None;
     p_mode := Some None; p_value := None; p_unit := None;
     p_frequency := None; p_level := None; p_complianceStatus := None |}.

(** The 10 V bench with the calibrator's mode cleared *)
Definition modelessBench : simState num :=
  fst (SimulatorContext.simulatorReducer benchDevices noDraw voltageBench
         (SimulatorContext.UPDATE_DEVICE_STATE 0 unmode) 0%nat).

End MoreBenches.


(** ** The Keysight U3606: [U3606A.jsx] *)

Module U3606A.

Record position := mkPosition {
  pid : string;
  plabel : string;
  ptype : option string;
  punit : string;
  pangle : Z
}.

Definition DIAL_POSITIONS : list position :=
  [ {| pid := "OFF"; plabel := "OFF"; ptype := None; punit := ""; pangle := -135 |};
    {| pid := "DCV"; plabel := "V"; ptype := Some "dc"; punit := "V"; pangle := -105 |};
    {| pid := "ACV"; plabel := "V~"; ptype := Some "ac"; punit := "V"; pangle := -75 |};
    {| pid := "DCI"; plabel := "I"; ptype := Some "dc"; punit := "A"; pangle := -45 |};
    {| pid := "ACI"; plabel := "I~"; ptype := Some "ac"; punit := "A"; pangle := -15 |};
    {| pid := "OHM2"; plabel := "Ω 2W"; ptype := None; punit := "Ω"; pangle := 15 |};
    {| pid := "OHM4"; plabel := "Ω 4W"; ptype := None; punit := "Ω"; pangle := 45 |};
    {| pid := "FREQ"; plabel := "Hz"; ptype := None; punit := "Hz"; pangle := 75 |};
    {| pid := "CAP"; plabel := "CAP"; ptype := None; punit := "F"; pangle := 105 |};
    {| pid := "DIODE"; plabel := "◄|"; ptype := None; punit := "V"; pangle := 135 |} ].

(** The terminals the panel renders, as [(type, polarity)] *)
Definition terminals : list (string * string) :=
  [("input", "force_hi"); ("input", "force_lo");
   ("input", "hi"); ("input", "lo"); ("input", "aux_hi"); ("input", "aux_lo")].

Section Device.
Context {num : Type} `{JSNumber num}.

Variable connections : list (connection num).
Variable components : list (component num).
Variable component : component num.
Variable config : deviceConfig num.

(** The component's own [dialIndex], kept with [useState(1)] *)
Variable dialIndex : Z.

Definition setState (newState : statePatch num) : @Provider.call num :=
  Provider.updateDeviceState (id component) newState.

Definition isPowerOn : bool := negb (dialIndex =? 0)%Z.

(** [rotateDial(direction)]: the new dial index and the call it makes *)
Definition rotateDial (direction : string) : outcome (Z * @Provider.call num) :=
  let newIndex :=
    if String.eqb direction "cw"
    then Z.min (dialIndex + 1) (Z.of_nat (List.length DIAL_POSITIONS) - 1)
    else Z.max (dialIndex - 1) 0 in
  match at_index DIAL_POSITIONS newIndex with
  | Some pos =>
      Returned (newIndex,
                setState {| p_power := Some (negb (newIndex =? 0)%Z);
                            p_output := None; p_rfOn := None;
                            p_mode := Some (Some (pid pos));
                            p_value := Some (lit 0);
                            p_unit := Some (punit pos);
                            p_frequency := None; p_level := None;
                            p_complianceStatus := None |})
  | None => TypeError
  end.

(** The object returned is [{ value, unit, active }]. *)
Definition getConnectedValue : option (connectedValue num) :=
  let hiConn := findWire connections (id component) "hi" in
  let loConn := findWire connections (id component) "lo" in
  let auxHiConn := findWire connections (id component) "aux_hi" in
  let auxLoConn := findWire connections (id component) "aux_lo" in
  let circuit :=
    match sameSource hiConn loConn with
    | Some sourceId => Some (sourceId, false)
    | None =>
        match sameSource auxHiConn auxLoConn with
        | Some sourceId => Some (sourceId, true)
        | None => None
        end
    end in
  match circuit with
  | None => None
  | Some (sourceId, isAuxConnection) =>
      match find (fun c => (id c =? sourceId)%Z) components with
      | None => None
      | Some source =>
          if negb (power (state source)) then None
          else if String.eqb (type source) "fluke5500a" && output (state source) then
            Some {| cv_value := value (state source);
                    cv_unit := if isAuxConnection then "A" else unit (state source);
                    cv_mode := None; cv_mappedMode := None; cv_frequency := None;
                    cv_active := true; cv_wireResistance := None |}
          else if String.eqb (type source) "sma100a" && rfOn (state source) then
            Some {| cv_value := level (state source);
                    cv_unit := "dBm";
                    cv_mode := None; cv_mappedMode := None; cv_frequency := None;
                    cv_active := true; cv_wireResistance := None |}
          else None
      end
  end.

Definition baseValue (connectedValue : option (connectedValue num)) : num :=
  match connectedValue with
  | Some cv => if cv_active cv then cv_value cv else value (state component)
  | None => value (state component)
  end.

(** [DIAL_POSITIONS[dialIndex]] *)
Definition currentPos : option position := at_index DIAL_POSITIONS dialIndex.

(** [config.tolerance?.[currentPos.id] || 0.01] *)
Definition tolerance : outcome num :=
  match currentPos with
  | Some pos => Returned (num_or (lookup (cfg_tolerance config) (pid pos)) (lit 0.01))
  | None => TypeError
  end.

(** The [isActive] argument it hands to the shared hook *)
Definition hookActive (connectedValue : option (connectedValue num)) : bool :=
  match connectedValue with
  | Some cv => cv_active cv && isPowerOn
  | None => false
  end.

End Device.

Section Turns.
Context {num : Type} `{JSNumber num}.
Variable component : component num.

(** The dial index after a sequence of [rotateDial] *)
Fixpoint turns (dialIndex : Z) (directions : list string) : outcome Z :=
  match directions with
  | [] => Returned dialIndex
  | direction :: rest =>
      match rotateDial component dialIndex direction with
      | Returned (newIndex, _) => turns newIndex rest
      | TypeError => TypeError
      end
  end.

End Turns.
End U3606A.

(** [U3606A/index.js] *)
Definition u3606aConfig {num : Type} `{JSNumber num} : deviceConfig num := {|
  cfg_type := "u3606a";
  cfg_role := "uuc";
  cfg_tolerance :=
    [("DCV", lit 0.0035); ("ACV", lit 0.06); ("DCA", lit 0.05);
     ("ACA", lit 0.1); ("OHM", lit 0.01); ("FREQ", lit 0.005)];
  cfg_initialState :=
    Some {| power := true; output := false; rfOn := false; mode := Some "DCV";
            value := lit 0; unit := "V"; frequency := None; level := lit 0;
            complianceStatus := None |}
|}.


(** ** The clamp meter: [ClampMeter.jsx] *)

Module ClampMeter.

Record position := mkPosition {
  pid : string;
  plabel : string;
  ptype : option string;
  punit : string;
  picon : string
}.

Definition DIAL_POSITIONS : list position :=
  [ {| pid := "OFF"; plabel := "OFF"; ptype := None; punit := ""; picon := "" |};
    {| pid := "AC_AMP"; plabel := "A AC"; ptype := Some "clamp"; punit := "A";
       picon := "A~" |};
    {| pid := "DC_AMP"; plabel := "A DC"; ptype := Some "clamp"; punit := "A";
       picon := "A⎓" |};
    {| pid := "ACDC_AMP"; plabel := "A AC+DC"; ptype := Some "clamp"; punit := "A";
       picon := "A~⎓" |};
    {| pid := "IFLEX"; plabel := "iFlex"; ptype := Some "iflex"; punit := "A";
       picon := "⟲" |};
    {| pid := "AC_VOLT"; plabel := "V AC"; ptype := Some "probe"; punit := "V";
       picon := "V~" |};
    {| pid := "DC_VOLT"; plabel := "V DC"; ptype := Some "probe"; punit := "V";
       picon := "V⎓" |};
    {| pid := "MV_DC"; plabel := "mV DC"; ptype := Some "probe"; punit := "mV";
       picon := "mV" |};
    {| pid := "OHM"; plabel := "Ω"; ptype := Some "probe"; punit := "Ω"; picon := "Ω" |};
    {| pid := "CONTINUITY"; plabel := "))))"; ptype := Some "probe"; punit := "Ω";
       picon := ")))" |};
    {| pid := "DIODE"; plabel := "◄|"; ptype := Some "probe"; punit := "V";
       picon := "◄|" |};
    {| pid := "HZ"; plabel := "Hz"; ptype := Some "probe"; punit := "Hz"; picon := "Hz" |} ].

(** The terminals the panel renders, as [(type, polarity)] *)
Definition terminals : list (string * string) :=
  [("input", "clamp"); ("input", "lo"); ("input", "ground"); ("input", "hi");
   ("input", "iflex")].

Section Device.
Context {num : Type} `{JSNumber num}.

Variable connections : list (connection num).
Variable components : list (component num).
Variable component : component num.

(** The component's own [dialIndex], kept with [useState] *)
Variable dialIndex : Z.

(** [DIAL_POSITIONS[dialIndex]] *)
Definition currentPosition : option position := at_index DIAL_POSITIONS dialIndex.

(** The object returned is [{ value, unit, active }]. *)
Definition getConnectedValue : outcome (option (connectedValue num)) :=
  match currentPosition with
  | None => TypeError
  | Some pos =>
      let reading (v : num) (u : string) :=
        {| cv_value := v; cv_unit := u;
           cv_mode := None; cv_mappedMode := None; cv_frequency := None;
           cv_active := true; cv_wireResistance := None |} in
      let clamped :=
        if str_is (ptype pos) "clamp" || str_is (ptype pos) "iflex" then
          match findWire connections (id component) "clamp" with
          | Some clampConn =>
              match find (fun c => (id c =? from clampConn)%Z) components with
              | Some source =>
                  if power (state source) && output (state source)
                  then Some (reading (num_or (Some (value (state source))) (lit 0)) "A")
                  else None
              | None => None
              end
          | None => None
          end
        else None in
      match clamped with
      | Some r => Returned (Some r)
      | None =>
          let hiConn := findWire connections (id component) "hi" in
          let loConn := findWire connections (id component) "lo" in
          match sameSource hiConn loConn with
          | Some sourceId =>
              match find (fun c => (id c =? sourceId)%Z) components with
              | Some source =>
                  if power (state source)
                     && (String.eqb (type source) "fluke5500a" && output (state source))
                  then Returned (Some (reading (value (state source)) (unit (state source))))
                  else Returned None
              | None => Returned None
              end
          | None => Returned None
          end
      end
  end.

End Device.
End ClampMeter.

(** ** The terminals of the panels *)

(** The polarities of the output terminals the panels render: HI, LO, AUX
    HI, AUX LO and GUARD ([Fluke5500A.jsx]), HI and LO ([Fluke5522A.jsx]), a
    terminal of the default polarity ([SMA100A.jsx], [FPC1500.jsx]), MAIN and
    MARKER ([OscilloscopeCalibrator.jsx]) and FIBER ([LightSource.jsx]). *)
Definition outputPolarities : list string :=
  ["hi"; "lo"; "aux_hi"; "aux_lo"; "guard"; "main"; "marker"; "fiber"].

Section PanelWiring.
Context {num : Type} `{JSNumber num}.

(** A click on a terminal some panel renders: an input, or an output of one
    of the polarities above *)
Definition onPanel (c : ConnectionPoint.click) : bool :=
  String.eqb (ConnectionPoint.ck_type c) "input"
  || (String.eqb (ConnectionPoint.ck_type c) "output"
      && includes outputPolarities (ConnectionPoint.ck_polarity c)).

(** Every wire, and the pending connection if there is one, has the
    polarity of an output terminal. *)
Definition panelWired (st : simState num) : Prop :=
  Forall (fun w => In (polarity w) outputPolarities) (connections st)
  /\ match connectionStartPoint st with
     | Some start => In (sp_polarity start) outputPolarities
     | None => True
     end.

(** A call of a device or of the page: not [addConnection], which only a
    terminal makes, not [setConnectionStart], and no load of a project *)
Definition isDeviceCall (c : @Provider.call num) : bool :=
  match c with
  | Provider.addConnection _ _ _ | Provider.setConnectionStart _
  | Provider.loadProject _ _ => false
  | _ => true
  end.

(** A call a terminal makes *)
Definition isTerminalCall (c : @Provider.call num) : bool :=
  match c with
  | Provider.addConnection _ _ _ | Provider.setConnectionStart _
  | Provider.clearConnectionStart => true
  | _ => false
  end.

End PanelWiring.

(** * Properties *)

Section StoreProperties.
Context {num : Type} `{JSNumber num}.
Variable DEVICES : list (deviceConfig num).
Variable random : nat -> num.

Local Abbreviation action := (@SimulatorContext.action num).
Local Abbreviation simulatorReducer := (SimulatorContext.simulatorReducer DEVICES random).
Local Abbreviation assigned := (assignedIds DEVICES random).

Lemma mapM_length {A B : Type} (f : A -> Rand B) (l : list A) (k : nat) :
  List.length (fst (mapM f l k)) = List.length l.
Proof.
  revert k; induction l as [|a l IH]; intros k; simpl; [reflexivity|].
  unfold bind. destruct (f a k) as [b k1].
  specialize (IH k1). destruct (mapM f l k1) as [bs k2]. simpl in *.
  now rewrite IH.
Qed.

Lemma last_error_app {A : Type} (l : list A) (a : A) :
  last_error (l ++ [a]) = Some a.
Proof.
  unfold last_error. rewrite length_app. simpl.
  replace (List.length l + 1 - 1)%nat with (List.length l) by lia.
  rewrite nth_error_app2 by lia. now rewrite Nat.sub_diag.
Qed.

(** What one dispatch does to the id counter *)
Lemma reducer_counter (st : simState num) (a : action) (k : nat) :
  noReset a = true ->
  componentIdCounter (fst (simulatorReducer st a k)) =
  match a with
  | SimulatorContext.ADD_COMPONENT _ _ _ => (componentIdCounter st + 1)%Z
  | _ => componentIdCounter st
  end.
Proof.
  destruct a; simpl; intros Hn; try discriminate; try reflexivity.
  - unfold bind.
    destruct (uncertaintyMode st && includes (SimulatorContext.getUUCTypes DEVICES) type0);
      reflexivity.
  - unfold bind.
    destruct (mapM _ (components st) k); reflexivity.
Qed.

Lemma reducer_assigned (st : simState num) (a : action) (k : nat) :
  assignedId a (fst (simulatorReducer st a k)) =
  match a with
  | SimulatorContext.ADD_COMPONENT _ _ _ => Some (componentIdCounter st)
  | _ => None
  end.
Proof.
  destruct a; try reflexivity.
  simpl. unfold bind.
  destruct (uncertaintyMode st && includes (SimulatorContext.getUUCTypes DEVICES) type0);
    simpl; [destruct (SimulatorContext.randomStatus random k)|];
    simpl; now rewrite last_error_app.
Qed.

Lemma assignedIds_add (st : simState num) ty px py (rest : list action) (k : nat) :
  assigned st (SimulatorContext.ADD_COMPONENT ty px py :: rest) k =
  componentIdCounter st ::
    assigned (fst (simulatorReducer st (SimulatorContext.ADD_COMPONENT ty px py) k)) rest
                (snd (simulatorReducer st (SimulatorContext.ADD_COMPONENT ty px py) k)).
Proof.
  pose proof (reducer_assigned st (SimulatorContext.ADD_COMPONENT ty px py) k) as Hi.
  cbn [assignedIds].
  destruct (simulatorReducer st (SimulatorContext.ADD_COMPONENT ty px py) k) as [st' k'].
  cbn [fst snd] in *. now rewrite Hi.
Qed.

(** Along a sequence without reset every id handed out is at least the
    counter the sequence started from, and the ids increase. *)
Lemma assignedIds_sorted (acts : list action) :
  forall (st : simState num) (k : nat),
    forallb noReset acts = true ->
    Forall (fun i => componentIdCounter st <= i)%Z (assigned st acts k)
    /\ StronglySorted Z.lt (assigned st acts k).
Proof.
  induction acts as [|a acts IH]; intros st k Hall; simpl.
  - split; constructor.
  - simpl in Hall. apply andb_true_iff in Hall as [Ha Hrest].
    pose proof (reducer_counter st a k Ha) as Hc.
    pose proof (reducer_assigned st a k) as Hi.
    destruct (simulatorReducer st a k) as [st' k']. simpl in Hc, Hi.
    destruct (IH st' k' Hrest) as [Hge Hsorted].
    rewrite Hi.
    assert (Hmono : Forall (fun i => componentIdCounter st <= i)%Z (assigned st' acts k')).
    { eapply Forall_impl; [|exact Hge]. intros i Hle. simpl in Hle.
      destruct a; rewrite Hc in Hle; lia. }
    destruct a; try (split; assumption).
    split.
    + constructor; [lia | assumption].
    + constructor; [assumption|].
      eapply Forall_impl; [|exact Hge]. intros i Hle. simpl in Hle. rewrite Hc in Hle. lia.
Qed.

Lemma StronglySorted_lt_NoDup (l : list Z) :
  StronglySorted Z.lt l -> NoDup l.
Proof.
  induction 1 as [|a l Hs IH Hall]; constructor; [|assumption].
  intros Hin. rewrite Forall_forall in Hall. specialize (Hall a Hin). lia.
Qed.

Lemma isAddOrRemove_noReset (acts : list action) :
  forallb isAddOrRemove acts = true -> forallb noReset acts = true.
Proof.
  induction acts as [|a acts IH]; simpl; [reflexivity|].
  intros Hall. apply andb_true_iff in Hall as [Ha Hrest].
  rewrite (IH Hrest), andb_true_r. now destruct a.
Qed.

Lemma Math_max0_spec (l : list Z) :
  (0 <= Math_max0 l)%Z
  /\ Forall (fun i => i <= Math_max0 l)%Z l
  /\ (Math_max0 l = 0%Z \/ In (Math_max0 l) l).
Proof.
  induction l as [|a l (Hnn & Hall & Hin)]; simpl.
  - repeat split; [lia | constructor | now left].
  - repeat split.
    + lia.
    + constructor; [lia|]. eapply Forall_impl; [|exact Hall]. simpl; intros; lia.
    + destruct (Z.max_spec a (Math_max0 l)) as [[_ ->]|[_ ->]].
      * destruct Hin as [->|Hin]; [now left | right; now right].
      * right; now left.
Qed.

(** *** Lists *)

Lemma includes_In (l : list string) (s : string) :
  includes l s = true <-> In s l.
Proof.
  unfold includes. rewrite existsb_exists. split.
  - intros (x & Hin & Heq). apply String.eqb_eq in Heq. now subst.
  - intros Hin. exists s. split; [assumption | apply String.eqb_refl].
Qed.

Lemma mapi_from_length {A B : Type} (f : A -> nat -> B) (l : list A) :
  forall i, List.length (mapi_from i f l) = List.length l.
Proof. induction l as [|a l IH]; intros i; simpl; [reflexivity | now rewrite IH]. Qed.

Lemma nth_error_mapi_from {A B : Type} (f : A -> nat -> B) (l : list A) :
  forall i j, nth_error (mapi_from i f l) j = option_map (fun a => f a (i + j)%nat) (nth_error l j).
Proof.
  induction l as [|a l IH]; intros i [|j]; simpl; try reflexivity.
  - now rewrite Nat.add_0_r.
  - rewrite IH. now replace (S i + j)%nat with (i + S j)%nat by lia.
Qed.

Lemma mapM_ret {A : Type} (f : A -> Rand A) (l : list A) (k : nat) :
  (forall a, f a = ret a) -> mapM f l k = (l, k).
Proof.
  intros Hf. induction l as [|a l IH]; simpl; [reflexivity|].
  unfold bind. rewrite Hf. unfold ret at 1. now rewrite IH.
Qed.

Lemma mapM_nth_error {A B : Type} (R : A -> B -> Prop) (f : A -> Rand B) :
  (forall a k, R a (fst (f a k))) ->
  forall (l : list A) (k j : nat) (a : A),
    nth_error l j = Some a ->
    exists b, nth_error (fst (mapM f l k)) j = Some b /\ R a b.
Proof.
  intros Hf. induction l as [|a0 l IH]; intros k j a Hj.
  - now destruct j.
  - simpl. unfold bind. pose proof (Hf a0 k) as Ha0.
    destruct (f a0 k) as [b0 k1]. specialize (IH k1).
    destruct (mapM f l k1) as [bs k2]. simpl in *.
    destruct j as [|j]; simpl in *.
    + injection Hj as <-. now exists b0.
    + exact (IH j a Hj).
Qed.

(** *** The registry's role queries *)

Lemma getCalibratorTypes_hasRole (ty : string) :
  includes (SimulatorContext.getCalibratorTypes DEVICES) ty = true
  <-> hasRole DEVICES ty "calibrator".
Proof.
  rewrite includes_In. unfold SimulatorContext.getCalibratorTypes, hasRole.
  rewrite in_map_iff. split.
  - intros (d & Hty & Hin). apply filter_In in Hin as [Hin Hrole].
    apply String.eqb_eq in Hrole. now exists d.
  - intros (d & Hin & Hty & Hrole). exists d. split; [assumption|].
    apply filter_In. split; [assumption | now apply String.eqb_eq].
Qed.

Lemma getUUCTypes_hasRole (ty : string) :
  includes (SimulatorContext.getUUCTypes DEVICES) ty = true
  <-> hasRole DEVICES ty "uuc".
Proof.
  rewrite includes_In. unfold SimulatorContext.getUUCTypes, hasRole.
  rewrite in_map_iff. split.
  - intros (d & Hty & Hin). apply filter_In in Hin as [Hin Hrole].
    apply String.eqb_eq in Hrole. now exists d.
  - intros (d & Hin & Hty & Hrole). exists d. split; [assumption|].
    apply filter_In. split; [assumption | now apply String.eqb_eq].
Qed.

Lemma getComponent_None (st : simState num) (i : Z) :
  SimulatorContext.getComponent st i = None <-> ~ hasComponent st i.
Proof.
  unfold SimulatorContext.getComponent, hasComponent. split.
  - intros Hnone (c & Hin & Hid).
    pose proof (find_none _ _ Hnone c Hin) as Hne. simpl in Hne.
    apply Z.eqb_neq in Hne. contradiction.
  - intros Hno. destruct (find _ _) as [c|] eqn:Hfind; [|reflexivity].
    apply find_some in Hfind as [Hin Hid]. apply Z.eqb_eq in Hid.
    exfalso. apply Hno. now exists c.
Qed.

Lemma getComponent_Some (st : simState num) (i : Z) (c : component num) :
  SimulatorContext.getComponent st i = Some c -> In c (components st) /\ id c = i.
Proof.
  unfold SimulatorContext.getComponent. intros Hfind.
  apply find_some in Hfind as [Hin Hid]. now apply Z.eqb_eq in Hid.
Qed.

Lemma find_triple_wired (st : simState num) (f t : Z) (pol : string) :
  find (fun c => (from c =? f)%Z && (to c =? t)%Z && String.eqb (polarity c) pol)
       (connections st) = None
  <-> ~ wired st f t pol.
Proof.
  unfold wired. split.
  - intros Hnone (c & Hin & Hf & Ht & Hp).
    pose proof (find_none _ _ Hnone c Hin) as Hne. simpl in Hne.
    subst. now rewrite !Z.eqb_refl, String.eqb_refl in Hne.
  - intros Hno. destruct (find _ _) as [c|] eqn:Hfind; [|reflexivity].
    apply find_some in Hfind as [Hin Hc].
    apply andb_true_iff in Hc as [Hc Hp]. apply andb_true_iff in Hc as [Hf Ht].
    apply Z.eqb_eq in Hf, Ht. apply String.eqb_eq in Hp.
    exfalso. apply Hno. now exists c.
Qed.

(** *** Validation of a proposed wire *)

(** C3.  [checkConnectionCompatibility] applies four rules in order: both ids
    exist (else DEVICE_NOT_FOUND), the from component's role is calibrator
    (else UNSUPPORTED_SOURCE_ROLE), the to component's role is uuc (else
    UNSUPPORTED_SINK_ROLE), no connection already has the same
    (from, to, polarity) triple (else DUPLICATE_POLARITY); otherwise the wire
    is accepted.  [addConnection] returns that verdict, leaves the
    connections list as it is on a failure, and appends the wire (standard,
    0.05 ohm) on success; in particular a fresh calibrator-to-uuc hi wire is
    accepted and stored. *)
Theorem C3_validation_rules (st : simState num) (fromId toId : Z) (pol : string) :
  let verdict := SimulatorContext.checkConnectionCompatibility DEVICES st fromId toId pol in
  ((~ hasComponent st fromId \/ ~ hasComponent st toId) ->
     verdict = {| valid := false; cmessage := DEVICE_NOT_FOUND |})
  /\ (hasComponent st fromId -> hasComponent st toId ->
      exists f t,
        SimulatorContext.getComponent st fromId = Some f
        /\ SimulatorContext.getComponent st toId = Some t
        /\ (~ hasRole DEVICES (type f) "calibrator" ->
              verdict = {| valid := false; cmessage := UNSUPPORTED_SOURCE_ROLE |})
        /\ (hasRole DEVICES (type f) "calibrator" ->
            ~ hasRole DEVICES (type t) "uuc" ->
              verdict = {| valid := false; cmessage := UNSUPPORTED_SINK_ROLE |})
        /\ (hasRole DEVICES (type f) "calibrator" ->
            hasRole DEVICES (type t) "uuc" ->
            wired st fromId toId pol ->
              verdict = {| valid := false;
                           cmessage := DUPLICATE_POLARITY
                                         (if String.eqb pol "hi" then "HI" else "LO") |})
        /\ (hasRole DEVICES (type f) "calibrator" ->
            hasRole DEVICES (type t) "uuc" ->
            ~ wired st fromId toId pol ->
              verdict = {| valid := true; cmessage := CONNECT_OK |}))
  /\ (forall k : nat,
        snd (fst (SimulatorContext.addConnection DEVICES random st fromId toId pol k)) = verdict)
  /\ (forall k : nat,
        valid verdict = false ->
        connections (fst (fst (SimulatorContext.addConnection DEVICES random st fromId toId pol k)))
        = connections st)
  /\ (forall k : nat,
        valid verdict = true ->
        connections (fst (fst (SimulatorContext.addConnection DEVICES random st fromId toId pol k)))
        = (connections st
           ++ [{| from := fromId; to := toId; polarity := str_or pol "hi";
                  wireProperties :=
                    Some {| wtype := "standard"; resistance := lit 0.05 |} |}])%list).
Proof.
  intros verdict. subst verdict.
  split; [|split; [|split; [|split]]].
  - unfold SimulatorContext.checkConnectionCompatibility.
    fold (SimulatorContext.getComponent st fromId).
    fold (SimulatorContext.getComponent st toId).
    intros [Hno|Hno]; apply getComponent_None in Hno; rewrite Hno;
      [reflexivity | now destruct (SimulatorContext.getComponent st fromId)].
  - intros Hf Ht.
    destruct (SimulatorContext.getComponent st fromId) as [f|] eqn:Ef;
      [|apply getComponent_None in Ef; contradiction].
    destruct (SimulatorContext.getComponent st toId) as [t|] eqn:Et;
      [|apply getComponent_None in Et; contradiction].
    exists f, t. split; [reflexivity|]. split; [reflexivity|].
    unfold SimulatorContext.checkConnectionCompatibility.
    fold (SimulatorContext.getComponent st fromId).
    fold (SimulatorContext.getComponent st toId).
    rewrite Ef, Et.
    pose proof (getCalibratorTypes_hasRole (type f)) as Hcal.
    pose proof (getUUCTypes_hasRole (type t)) as Huuc.
    pose proof (find_triple_wired st fromId toId pol) as Hw.
    destruct (includes (SimulatorContext.getCalibratorTypes DEVICES) (type f));
      destruct (includes (SimulatorContext.getUUCTypes DEVICES) (type t));
      destruct (find _ (connections st)) as [dup|]; simpl;
      repeat split; intros; try reflexivity;
      try (exfalso; intuition congruence).
  - intros k. unfold SimulatorContext.addConnection.
    now destruct (valid _).
  - intros k Hv. unfold SimulatorContext.addConnection. now rewrite Hv.
  - intros k Hv. unfold SimulatorContext.addConnection. now rewrite Hv.
Qed.

(** *** Toggling a wire's kind *)

(** C9.  [toggleWireKind] on an index changes only that connection's
    [wireProperties]: a standard wire becomes bad with resistance 5.0, any
    other becomes standard with resistance 0.05.  The connection keeps its
    from, to and polarity, every other connection and every other field of
    the store is unchanged, and no random value is drawn. *)
Theorem C9_toggle_wire_frame (st : simState num) (index k : nat) :
  let st' := fst (simulatorReducer st (SimulatorContext.TOGGLE_CONNECTION_WIRE_TYPE index) k) in
  List.length (connections st') = List.length (connections st)
  /\ (forall j, j <> index -> nth_error (connections st') j = nth_error (connections st) j)
  /\ (forall c, nth_error (connections st) index = Some c ->
        exists c',
          nth_error (connections st') index = Some c'
          /\ from c' = from c /\ to c' = to c /\ polarity c' = polarity c
          /\ wireProperties c' =
             Some (if isStandardWire c
                   then {| wtype := "bad"; resistance := lit 5 |}
                   else {| wtype := "standard"; resistance := lit 0.05 |}))
  /\ SimulatorContext.with_connections st' (connections st) = st
  /\ snd (simulatorReducer st (SimulatorContext.TOGGLE_CONNECTION_WIRE_TYPE index) k) = k.
Proof.
  simpl. split; [|split; [|split; [|split]]].
  - apply mapi_from_length.
  - intros j Hj. rewrite nth_error_mapi_from. simpl.
    destruct (nth_error (connections st) j) as [c|]; [|reflexivity].
    simpl. apply Nat.eqb_neq in Hj. now rewrite Hj.
  - intros c Hc. rewrite nth_error_mapi_from, Hc. simpl.
    rewrite Nat.eqb_refl. simpl. eexists. split; [reflexivity|].
    repeat split. unfold isStandardWire.
    destruct (wireProperties c) as [w|]; [|reflexivity].
    now destruct (String.eqb (wtype w) "standard").
  - now destruct st.
  - reflexivity.
Qed.

(** *** Ids *)



End StoreProperties.

(** *** Compliance tagging

    [Math.random] returns values in [0, 1); the draws are read as exact
    rationals. *)

Section ComplianceTagger.
Variable DEVICES : list (deviceConfig Q).
Variable random : nat -> Q.
Hypothesis random_range : forall n, 0 <= random n < 1.

Local Abbreviation simulatorReducer := (SimulatorContext.simulatorReducer DEVICES random).

Lemma randomIndex_range (r : Q) :
  0 <= r < 1 -> (0 <= Qfloor (r * 3) < 3)%Z.
Proof.
  intros [Hlo Hhi].
  pose proof (Qfloor_le (r * 3)) as Hle.
  pose proof (Qlt_floor (r * 3)) as Hlt.
  split.
  - assert (Hz : inject_Z 0 < inject_Z (Qfloor (r * 3) + 1)).
    { eapply Qle_lt_trans; [|exact Hlt]. change (inject_Z 0) with 0. nra. }
    rewrite <- Zlt_Qlt in Hz. lia.
  - rewrite Zlt_Qlt. eapply Qle_lt_trans; [exact Hle|].
    change (inject_Z 3) with 3. nra.
Qed.

Lemma randomStatus_drawn (k : nat) :
  exists s, SimulatorContext.randomStatus random k = (Some s, S k)
            /\ In s SimulatorContext.COMPLIANCE_STATUSES.
Proof.
  unfold SimulatorContext.randomStatus, SimulatorContext.Math_random, bind, ret.
  cbn [num_floor num_mul lit Q_JSNumber].
  pose proof (randomIndex_range (random k) (random_range k)) as Hr.
  assert (Hcase : Qfloor (random k * 3) = 0%Z \/ Qfloor (random k * 3) = 1%Z
                  \/ Qfloor (random k * 3) = 2%Z) by lia.
  destruct Hcase as [-> | [-> | ->]]; simpl; eexists; (split; [reflexivity|]);
    simpl; auto.
Qed.


End ComplianceTagger.


(** ** Circuit resolution and the measurement transform *)

Section Circuit.
Context {num : Type} `{JSNumber num}.
Variable connections : list (connection num).
Variable sink : Z.

Lemma findWire_Some (p : string) (w : connection num) :
  findWire connections sink p = Some w ->
  In w connections /\ to w = sink /\ polarity w = p.
Proof.
  unfold findWire. intros Hf. apply find_some in Hf as [Hin Hw].
  apply andb_true_iff in Hw as [Hto Hp].
  apply Z.eqb_eq in Hto. apply String.eqb_eq in Hp. auto.
Qed.

Lemma sameSource_complete (p s : string) (h l : connection num) :
  completePair connections sink p s h l ->
  sameSource (findWire connections sink p) (findWire connections sink s) = Some (from h).
Proof.
  intros (Hh & Hl & Heq). rewrite Hh, Hl. unfold sameSource.
  now rewrite Heq, Z.eqb_refl.
Qed.

Lemma sameSource_noPair (p s : string) :
  noPair connections sink p s ->
  sameSource (findWire connections sink p) (findWire connections sink s) = None.
Proof.
  intros [Hp | [Hs | (h & l & Hh & Hl & Hne)]].
  - now rewrite Hp.
  - rewrite Hs. now destruct (findWire connections sink p).
  - rewrite Hh, Hl. unfold sameSource.
    apply Z.eqb_neq in Hne. now rewrite Hne.
Qed.

Lemma sameSource_Some (p s : string) (i : Z) :
  sameSource (findWire connections sink p) (findWire connections sink s) = Some i ->
  exists h l, completePair connections sink p s h l /\ i = from h.
Proof.
  unfold completePair.
  destruct (findWire connections sink p) as [h|]; [|discriminate].
  destruct (findWire connections sink s) as [l|]; [|discriminate].
  unfold sameSource. destruct (from h =? from l)%Z eqn:E; [|discriminate].
  intros [= <-]. apply Z.eqb_eq in E. now exists h, l.
Qed.

Lemma sameSource_None (p s : string) :
  sameSource (findWire connections sink p) (findWire connections sink s) = None ->
  noPair connections sink p s.
Proof.
  unfold noPair.
  destruct (findWire connections sink p) as [h|]; [|now left].
  destruct (findWire connections sink s) as [l|]; [|right; now left].
  unfold sameSource. destruct (from h =? from l)%Z eqn:E; [discriminate|].
  intros _. apply Z.eqb_neq in E. right; right. now exists h, l.
Qed.

(** The pair the devices select, as their code computes it *)
Lemma terminalWires_selected (h l : connection num) (isAux : bool) :
  terminalWires connections sink h l isAux ->
  match sameSource (findWire connections sink "hi") (findWire connections sink "lo") with
  | Some sourceId => Some (sourceId, false)
  | None =>
      match sameSource (findWire connections sink "aux_hi")
                       (findWire connections sink "aux_lo") with
      | Some sourceId => Some (sourceId, true)
      | None => None
      end
  end = Some (from h, isAux)
  /\ (if isAux then findWire connections sink "aux_hi" else findWire connections sink "hi")
     = Some h
  /\ (if isAux then findWire connections sink "aux_lo" else findWire connections sink "lo")
     = Some l.
Proof.
  intros [(-> & Hc) | (-> & Hno & Hc)].
  - rewrite (sameSource_complete _ _ _ _ Hc). destruct Hc as (Hh & Hl & _). auto.
  - rewrite (sameSource_noPair _ _ Hno), (sameSource_complete _ _ _ _ Hc).
    destruct Hc as (Hh & Hl & _). auto.
Qed.

End Circuit.

(** What a wire counts for: its resistance field when it carries one that is
    not zero, and 0.05 otherwise. *)
Lemma wireOhms_cases {num : Type} `{JSNumber num} (wire : connection num) :
  (forall r, wireResistanceOf (Some wire) = Some r -> truthy r = true -> wireOhms wire = r)
  /\ (forall r, wireResistanceOf (Some wire) = Some r -> truthy r = false ->
      wireOhms wire = lit 0.05)
  /\ (wireProperties wire = None -> wireOhms wire = lit 0.05).
Proof.
  unfold wireOhms, num_or. repeat split.
  - now intros r -> ->.
  - now intros r -> ->.
  - cbn [wireResistanceOf]. now intros ->.
Qed.

(** Case analysis on the tests of a conditional in the goal *)
Ltac split_ifs :=
  repeat match goal with
         | |- context [if ?b then _ else _] => destruct b eqn:?
         end.

Section Transform.
Context {num : Type} `{JSNumber num}.
Variable connections : list (connection num).
Variable components : list (component num).
Variable device : component num.
Variable errorSimulation : errorFlags.

(** A resolved circuit: the wires read through, and the powered calibrator,
    switched to operate, they come from. *)
Variable hiWire loWire : connection num.
Variable isAux : bool.
Variable source : component num.
Hypothesis wires : terminalWires connections (id device) hiWire loWire isAux.
Hypothesis found : find (fun c => (id c =? from hiWire)%Z) components = Some source.
Hypothesis powered : power (state source) = true.
Hypothesis operating : output (state source) = true.
Hypothesis calibrator : isFlukeCalibrator (type source) = true.

Local Abbreviation wireResistance := (wireOhms hiWire + wireOhms loWire)%num.

Lemma multimeter_reading (m : string) :
  mode (state source) = Some m ->
  Multimeter.getConnectedValue connections components device errorSimulation =
  Returned (Some
    {| cv_value :=
         if loadingError errorSimulation then
           if str_includes "Voltage" m then
             (value (state source) * (lit 10000000 / (lit 10000000 + wireResistance)))%num
           else if String.eqb m "Resistance" then
             (value (state source) + wireResistance)%num
           else if str_includes "Current" m then
             if (wireResistance >? lit 1)%num
             then (value (state source) * lit 0.9995)%num
             else value (state source)
           else value (state source)
         else value (state source);
       cv_unit := if isAux then "A" else unit (state source);
       cv_mode := Some m;
       cv_mappedMode :=
         Some match lookup Multimeter.modeMapping m with
              | Some mm => mm
              | None => "DC V"
              end;
       cv_frequency := Some (num_or (frequency (state source)) (lit 1000));
       cv_active := true;
       cv_wireResistance :=
         Some (if loadingError errorSimulation then wireResistance else lit 0) |}).
Proof.
  intros Hmode. unfold Multimeter.getConnectedValue. cbv zeta.
  destruct (terminalWires_selected _ _ _ _ _ wires) as (Hc & Hh & Hl).
  rewrite Hc. cbv iota beta. rewrite found, powered. cbn [negb].
  rewrite Hh, Hl, operating, Hmode. fold (wireOhms hiWire) (wireOhms loWire).
  unfold isFlukeCalibrator in calibrator. rewrite calibrator. cbn [andb].
  destruct (loadingError errorSimulation); cbn [andb]; split_ifs; reflexivity.
Qed.

(** With the loading-error flag off the multimeter does not look at the
    source's mode at all. *)
Lemma multimeter_reading_unloaded :
  loadingError errorSimulation = false ->
  exists cv,
    Multimeter.getConnectedValue connections components device errorSimulation
    = Returned (Some cv)
    /\ cv_value cv = value (state source)
    /\ cv_unit cv = (if isAux then "A" else unit (state source))
    /\ cv_active cv = true.
Proof.
  intros Hoff. unfold Multimeter.getConnectedValue. cbv zeta.
  destruct (terminalWires_selected _ _ _ _ _ wires) as (Hc & Hh & Hl).
  rewrite Hc. cbv iota beta. rewrite found, powered. cbn [negb].
  rewrite Hoff, operating.
  unfold isFlukeCalibrator in calibrator. rewrite calibrator. cbn [andb].
  eexists. split; [reflexivity|]. auto.
Qed.

Lemma fluke117_reading :
  Fluke117.getConnectedValue connections components device errorSimulation =
  Some
    {| cv_value :=
         if loadingError errorSimulation then
           if match mode (state source) with
              | Some m => str_includes "Voltage" m
              | None => false
              end
           then (value (state source) * (lit 10000000 / (lit 10000000 + wireResistance)))%num
           else if str_is (mode (state source)) "Resistance" then
             (value (state source) + wireResistance)%num
           else value (state source)
         else value (state source);
       cv_unit := if isAux then "mA" else unit (state source);
       cv_mode := mode (state source);
       cv_mappedMode :=
         Some match mode (state source) with
              | Some m =>
                  match lookup Fluke117.MODE_MAPPING m with
                  | Some mm => mm
                  | None => "DC V"
                  end
              | None => "DC V"
              end;
       cv_frequency := Some (num_or (frequency (state source)) (lit 1000));
       cv_active := true;
       cv_wireResistance := None |}.
Proof.
  unfold Fluke117.getConnectedValue. cbv zeta.
  destruct (terminalWires_selected _ _ _ _ _ wires) as (Hc & Hh & Hl).
  rewrite Hc. cbv iota beta. rewrite found, powered. cbn [negb].
  rewrite Hh, Hl, operating. fold (wireOhms hiWire) (wireOhms loWire).
  unfold isFlukeCalibrator in calibrator. rewrite calibrator. cbn [andb].
  destruct (loadingError errorSimulation); cbn [andb]; split_ifs; reflexivity.
Qed.

End Transform.

(** *** Loading error *)



(** *** The Hz dial *)


(** *** Circuit resolution *)

Section Resolution.
Context {num : Type} `{JSNumber num}.
Variable connections : list (connection num).
Variable components : list (component num).
Variable device : component num.
Variable errorSimulation : errorFlags.

Lemma selected_terminalWires (sourceId : Z) (isAux : bool) :
  match sameSource (findWire connections (id device) "hi")
                   (findWire connections (id device) "lo") with
  | Some sourceId => Some (sourceId, false)
  | None =>
      match sameSource (findWire connections (id device) "aux_hi")
                       (findWire connections (id device) "aux_lo") with
      | Some sourceId => Some (sourceId, true)
      | None => None
      end
  end = Some (sourceId, isAux) ->
  exists h l,
    terminalWires connections (id device) h l isAux /\ sourceId = from h
    /\ findWire connections (id device) (if isAux then "aux_hi" else "hi") = Some h
    /\ findWire connections (id device) (if isAux then "aux_lo" else "lo") = Some l
    /\ from h = from l.
Proof.
  destruct (sameSource (findWire connections (id device) "hi") _) as [i|] eqn:Ep.
  - intros [= <- <-]. apply sameSource_Some in Ep as (h & l & Hc & ->).
    exists h, l. pose proof Hc as (Hh & Hl & Heq).
    repeat split; try assumption. left. now split.
  - apply sameSource_None in Ep.
    destruct (sameSource (findWire connections (id device) "aux_hi") _) as [i|] eqn:Ea;
      [|discriminate].
    intros [= <- <-]. apply sameSource_Some in Ea as (h & l & Hc & ->).
    exists h, l. pose proof Hc as (Hh & Hl & Heq).
    repeat split; try assumption. right. now repeat split.
Qed.

Lemma no_terminalWires :
  noPair connections (id device) "hi" "lo" ->
  noPair connections (id device) "aux_hi" "aux_lo" ->
  match sameSource (findWire connections (id device) "hi")
                   (findWire connections (id device) "lo") with
  | Some sourceId => Some (sourceId, false)
  | None =>
      match sameSource (findWire connections (id device) "aux_hi")
                       (findWire connections (id device) "aux_lo") with
      | Some sourceId => Some (sourceId, true)
      | None => None
      end
  end = None.
Proof.
  intros Hp Ha. now rewrite (sameSource_noPair _ _ _ _ Hp), (sameSource_noPair _ _ _ _ Ha).
Qed.

Lemma restsOn_intro (unitOf : bool -> component num -> string)
      (cv : connectedValue num) (h l : connection num) (isAux : bool)
      (source : component num) :
  terminalWires connections (id device) h l isAux ->
  findWire connections (id device) (if isAux then "aux_hi" else "hi") = Some h ->
  findWire connections (id device) (if isAux then "aux_lo" else "lo") = Some l ->
  from h = from l ->
  find (fun c => (id c =? from h)%Z) components = Some source ->
  power (state source) = true ->
  (isFlukeCalibrator (type source) = true -> cv_unit cv = unitOf isAux source) ->
  restsOn connections components device unitOf cv.
Proof.
  intros Hw Hh Hl Heq Hfind Hpow Hunit.
  apply findWire_Some in Hh as (Hhin & Hhto & Hhp).
  apply findWire_Some in Hl as (Hlin & Hlto & Hlp).
  pose proof (find_some _ _ Hfind) as [Hsin Hsid]. apply Z.eqb_eq in Hsid.
  exists h, l, isAux, source.
  repeat split; try assumption; now destruct isAux.
Qed.

Lemma multimeter_rests (cv : connectedValue num) :
  Multimeter.getConnectedValue connections components device errorSimulation
  = Returned (Some cv) ->
  restsOn connections components device (fun isAux source => if isAux then "A" else unit (state source)) cv.
Proof.
  unfold Multimeter.getConnectedValue. cbv zeta.
  pose proof selected_terminalWires as Hsel.
  destruct (match sameSource _ _ with Some _ => _ | None => _ end) as [[sid isAux]|];
    [|discriminate].
  destruct (Hsel sid isAux eq_refl) as (h & l & Hw & -> & Hh & Hl & Heq). clear Hsel.
  destruct (find _ components) as [source|] eqn:Hfind; [|discriminate].
  destruct (power (state source)) eqn:Hpow; [|discriminate]. cbn [negb].
  intros Hret.
  apply (restsOn_intro _ cv h l isAux source Hw Hh Hl Heq Hfind Hpow).
  intros Hfl. unfold isFlukeCalibrator in Hfl. rewrite Hfl in Hret. cbn [andb] in Hret.
  assert (Hsma : String.eqb (type source) "sma100a" = false).
  { apply orb_true_iff in Hfl as [Ht | Ht]; apply String.eqb_eq in Ht; now rewrite Ht. }
  rewrite Hsma in Hret. cbn [andb] in Hret.
  destruct (if loadingError errorSimulation && output (state source) then _ else _);
    [|discriminate].
  destruct (output (state source)); [|discriminate].
  now injection Hret as <-.
Qed.

Lemma fluke117_rests (cv : connectedValue num) :
  Fluke117.getConnectedValue connections components device errorSimulation = Some cv ->
  restsOn connections components device (fun isAux source => if isAux then "mA" else unit (state source)) cv.
Proof.
  unfold Fluke117.getConnectedValue. cbv zeta.
  pose proof selected_terminalWires as Hsel.
  destruct (match sameSource _ _ with Some _ => _ | None => _ end) as [[sid isAux]|];
    [|discriminate].
  destruct (Hsel sid isAux eq_refl) as (h & l & Hw & -> & Hh & Hl & Heq). clear Hsel.
  destruct (find _ components) as [source|] eqn:Hfind; [|discriminate].
  destruct (power (state source)) eqn:Hpow; [|discriminate]. cbn [negb].
  intros Hret.
  apply (restsOn_intro _ cv h l isAux source Hw Hh Hl Heq Hfind Hpow).
  intros Hfl. unfold isFlukeCalibrator in Hfl. rewrite Hfl in Hret. cbn [andb] in Hret.
  destruct (output (state source)); [|discriminate].
  now injection Hret as <-.
Qed.

End Resolution.


(** *** Fluctuation samples

    The bounds are proved on the exact-rational reading of the code, with
    [Math.random] in [0, 1). *)

Section Fluctuation.
Variable random : nat -> Q.
Hypothesis random_range : forall n, 0 <= random n < 1.

Lemma scaled_offset_bound (r amplitude : Q) :
  0 <= r < 1 -> 0 <= amplitude ->
  Qabs ((r - 0.5) * 2 * amplitude) <= amplitude.
Proof.
  intros [Hlo Hhi] Hamp. apply Qabs_Qle_condition. split; nra.
Qed.

Lemma amplitude_nonneg (b t : Q) :
  0 <= t -> 0 <= Qabs b * (t / 100).
Proof.
  intros Ht. apply Qmult_le_0_compat; [apply Qabs_nonneg|].
  unfold Qdiv. apply Qmult_le_0_compat; [assumption|]. now compute.
Qed.

Lemma num_or_nonneg (o : option Q) (d : Q) :
  0 <= d -> (forall q, o = Some q -> 0 <= q) -> 0 <= num_or o d.
Proof.
  intros Hd Ho. unfold num_or. destruct o as [q|]; [|assumption].
  destruct (truthy q); [now apply Ho | assumption].
Qed.

Lemma lookup_nonneg (table : list (string * Q)) (key : string) (q : Q) :
  Forall (fun e => 0 <= snd e) table -> lookup table key = Some q -> 0 <= q.
Proof.
  induction 1 as [|[k v] table Hv _ IH]; simpl; [discriminate|].
  destruct (String.eqb k key); [now intros [= <-] | assumption].
Qed.

Lemma scaleByCompliance_nonneg (status : option string) (t : Q) :
  0 <= t -> 0 <= scaleByCompliance status t.
Proof.
  intros Ht. unfold scaleByCompliance.
  destruct status as [s|]; [|assumption].
  cbn [num_mul lit Q_JSNumber].
  destruct (String.eqb s "out_of_tolerance"); [nra|].
  destruct (String.eqb s "non_compliance"); [nra | assumption].
Qed.

Lemma scaleByCompliance_cases (status : option string) (t : Q) :
  (status = Some "out_of_tolerance" -> scaleByCompliance status t = t * 10)
  /\ (status = Some "non_compliance" -> scaleByCompliance status t = t * 3)
  /\ (status <> Some "out_of_tolerance" -> status <> Some "non_compliance" ->
      scaleByCompliance status t = t).
Proof.
  unfold scaleByCompliance. repeat split.
  - now intros ->.
  - now intros ->.
  - intros Ho Hn. destruct status as [s|]; [|reflexivity].
    destruct (String.eqb s "out_of_tolerance") eqn:Eo.
    + apply String.eqb_eq in Eo. now subst.
    + destruct (String.eqb s "non_compliance") eqn:En; [|reflexivity].
      apply String.eqb_eq in En. now subst.
Qed.

Lemma multimeter_tolerance_nonneg (device : component Q) (config : deviceConfig Q)
      (cv : option (connectedValue Q)) :
  Forall (fun e => 0 <= snd e) (cfg_tolerance config) ->
  0 <= Multimeter.getTolerance device config cv.
Proof.
  intros Hcfg. unfold Multimeter.getTolerance. cbv zeta.
  apply scaleByCompliance_nonneg, num_or_nonneg; [cbn; lra|].
  intros q. destruct (match cv with Some _ => _ | None => _ end) as [m|]; [|discriminate].
  now apply lookup_nonneg.
Qed.

Lemma fluke117_tolerance_nonneg (device : component Q) (config : deviceConfig Q)
      (cv : option (connectedValue Q)) :
  Forall (fun e => 0 <= snd e) (cfg_tolerance config) ->
  0 <= Fluke117.getTolerance device config cv.
Proof.
  intros Hcfg. unfold Fluke117.getTolerance. cbv zeta.
  apply scaleByCompliance_nonneg, num_or_nonneg; [cbn; lra|].
  intros q. destruct (match cv with Some _ => _ | None => _ end) as [m|]; [|discriminate].
  now apply lookup_nonneg.
Qed.

Ltac q_ops := cbn [num_add num_sub num_mul num_div num_abs lit truthy Q_JSNumber].


End Fluctuation.

(** In binary64, at the two extreme draws, the multimeter's sample for base
    100 and tolerance 1 is 99 and 101, and the index of the compliance status
    drawn is 0 and 2. *)
Remark binary64_extreme_draws :
  fst (fst (Multimeter.updateFluctuation lowest (lit 100) (lit 1) 0%nat)) = lit 99
  /\ fst (fst (Multimeter.updateFluctuation highest (lit 100) (lit 1) 0%nat)) = lit 101
  /\ fst (SimulatorContext.randomStatus lowest 0%nat) = Some "compliance"
  /\ fst (SimulatorContext.randomStatus highest 0%nat) = Some "out_of_tolerance".
Proof. repeat split; vm_compute; reflexivity. Qed.

(** * The properties at work on the bench *)

Lemma half_range : forall n, 0 <= half n < 1.
Proof. intros n. unfold half. split; lra. Defined.




Lemma C3_witness :
  SimulatorContext.checkConnectionCompatibility (num := Q) benchDevices placed 0 1 "hi"
  = {| valid := true; cmessage := CONNECT_OK |}
  /\ connections (fst (fst (SimulatorContext.addConnection benchDevices half placed 0 1 "hi" 0%nat)))
     = [benchWire "hi" "standard" 0.05]
  /\ SimulatorContext.checkConnectionCompatibility (num := Q) benchDevices placed 1 0 "hi"
     = {| valid := false; cmessage := UNSUPPORTED_SOURCE_ROLE |}
  /\ SimulatorContext.checkConnectionCompatibility (num := Q) benchDevices voltageBench 0 1 "hi"
     = {| valid := false; cmessage := DUPLICATE_POLARITY "HI" |}.
Proof.
  destruct (C3_validation_rules (num := Q) benchDevices half placed 0 1 "hi")
    as (_ & Hrules & _ & _ & Hadd).
  assert (Hfrom : hasComponent (num := Q) placed 0).
  { exists (deviceOf placed 0%Z). split; [left; reflexivity | reflexivity]. }
  assert (Hto : hasComponent (num := Q) placed 1).
  { exists (deviceOf placed 1%Z). split; [right; left; reflexivity | reflexivity]. }
  destruct (Hrules Hfrom Hto) as (f & t & Hf & Ht & _ & _ & _ & Hok).
  injection Hf as <-. injection Ht as <-.
  assert (Hverdict : SimulatorContext.checkConnectionCompatibility (num := Q)
                       benchDevices placed 0 1 "hi"
                     = {| valid := true; cmessage := CONNECT_OK |}).
  { apply Hok.
    - exists fluke5500aConfig. split; [right; left; reflexivity | split; reflexivity].
    - exists multimeterConfig.
      split; [right; right; right; left; reflexivity | split; reflexivity].
    - intros (c & Hin & _). exact Hin. }
  split; [exact Hverdict|]. split.
  - rewrite (Hadd 0%nat); [reflexivity | now rewrite Hverdict].
  - split; reflexivity.
Defined.










Lemma C9_witness :
  exists c' : connection Q,
    nth_error
      (connections (fst (SimulatorContext.simulatorReducer benchDevices half voltageBench
                           (SimulatorContext.TOGGLE_CONNECTION_WIRE_TYPE 0) 0%nat))) 0
    = Some c'
    /\ from c' = 0%Z /\ to c' = 1%Z /\ polarity c' = "hi"
    /\ wireProperties c' = Some {| wtype := "bad"; resistance := 5 |}.
Proof.
  assert (Hwire0 : nth_error (connections (num := Q) voltageBench) 0
                   = Some (benchWire "hi" "standard" 0.05)) by reflexivity.
  destruct (proj1 (proj2 (proj2 (C9_toggle_wire_frame (num := Q) benchDevices half
                                   voltageBench 0%nat 0%nat)))
              (benchWire "hi" "standard" 0.05) Hwire0)
    as (c' & Hc' & Hfrom & Hto & Hpol & Hwire).
  exists c'. repeat split; assumption.
Defined.


(** * Further properties of the engine *)

Section StoreInvariantProofs.
Context {num : Type} `{JSNumber num}.
Variable DEVICES : list (deviceConfig num).
Variable random : nat -> num.

Local Abbreviation action := (@SimulatorContext.action num).
Local Abbreviation simulatorReducer := (SimulatorContext.simulatorReducer DEVICES random).
Local Abbreviation dispatchAll := (SimulatorContext.dispatchAll DEVICES random).

(** *** Component ids *)

Lemma mapM_map {A B C : Type} (g : A -> C) (g' : B -> C) (f : A -> Rand B) :
  (forall a k, g' (fst (f a k)) = g a) ->
  forall (l : list A) (k : nat), map g' (fst (mapM f l k)) = map g l.
Proof.
  intros Hf. induction l as [|a l IH]; intros k; [reflexivity|].
  simpl. unfold bind. pose proof (Hf a k) as Ha.
  destruct (f a k) as [b k1]. specialize (IH k1).
  destruct (mapM f l k1) as [bs k2]. simpl in *. now rewrite Ha, IH.
Qed.

(** The ids and types of the components after a toggle of uncertainty mode *)
Lemma toggle_keeps_identity (st : simState num) (k : nat) :
  map (fun c => (id c, type c))
      (components (fst (simulatorReducer st SimulatorContext.TOGGLE_UNCERTAINTY_MODE k)))
  = map (fun c => (id c, type c)) (components st).
Proof.
  unfold SimulatorContext.simulatorReducer, bind.
  match goal with |- context [mapM ?g (components st) k] => set (f := g) end.
  pose proof (mapM_map (fun c : component num => (id c, type c))
                       (fun c : component num => (id c, type c)) f) as Hmap.
  assert (Hf : forall a k0, (fun c : component num => (id c, type c)) (fst (f a k0))
                            = (fun c : component num => (id c, type c)) a).
  { intros a k0. subst f. cbv beta.
    destruct (includes (SimulatorContext.getUUCTypes DEVICES) (type a)
              && negb (uncertaintyMode st)); [|reflexivity].
    unfold bind. destruct (SimulatorContext.randomStatus random k0). reflexivity. }
  specialize (Hmap Hf (components st) k).
  destruct (mapM f (components st) k) as [cs k']. exact Hmap.
Qed.

Lemma map_fst_pairs {A B C : Type} (f : A -> B) (g : A -> C) (l l' : list A) :
  map (fun a => (f a, g a)) l' = map (fun a => (f a, g a)) l ->
  map f l' = map f l /\ map g l' = map g l.
Proof.
  revert l'. induction l as [|a l IH]; intros [|a' l']; simpl; try discriminate.
  - auto.
  - intros [= Hf Hg Hrest]. destruct (IH l' Hrest) as [-> ->]. now rewrite Hf, Hg.
Qed.

Lemma Forall_map_iff {A B : Type} (f : A -> B) (P : B -> Prop) (l : list A) :
  Forall P (map f l) <-> Forall (fun a => P (f a)) l.
Proof. apply Forall_map. Qed.

Lemma NoDup_map_filter {A B : Type} (g : A -> B) (p : A -> bool) (l : list A) :
  NoDup (map g l) -> NoDup (map g (filter p l)).
Proof.
  induction l as [|a l IH]; simpl; [auto|].
  intros Hnd. inversion Hnd as [|? ? Hnotin Hrest]; subst.
  destruct (p a); simpl; [|auto].
  constructor; [|auto].
  intros Hin. apply Hnotin. apply in_map_iff in Hin as (b & Hb & Hin).
  apply filter_In in Hin as [Hin _]. apply in_map_iff. now exists b.
Qed.

(** What a dispatch does to the list of component ids *)
Lemma reducer_component_ids (st : simState num) (a : action) (k : nat) :
  let st' := fst (simulatorReducer st a k) in
  match a with
  | SimulatorContext.ADD_COMPONENT _ _ _ =>
      map id (components st') = (map id (components st) ++ [componentIdCounter st])%list
      /\ componentIdCounter st' = (componentIdCounter st + 1)%Z
  | SimulatorContext.REMOVE_COMPONENT rid =>
      map id (components st')
      = map id (filter (fun c => negb (id c =? rid)%Z) (components st))
      /\ componentIdCounter st' = componentIdCounter st
  | SimulatorContext.CLEAR_ALL =>
      components st' = [] /\ componentIdCounter st' = 0%Z
  | SimulatorContext.LOAD_PROJECT cs _ =>
      components st' = cs /\ componentIdCounter st' = (Math_max0 (map id cs) + 1)%Z
  | _ =>
      map id (components st') = map id (components st)
      /\ componentIdCounter st' = componentIdCounter st
  end.
Proof.
  destruct a as [ty px py | rid | cid px py | cid patch | cf ct pol | index | rid | point
                 | | | cs conns | aty title msg | aid | | errorType | index];
    cbv zeta; try (split; reflexivity).
  - (* ADD_COMPONENT *)
    unfold SimulatorContext.simulatorReducer, bind.
    destruct (uncertaintyMode st && includes (SimulatorContext.getUUCTypes DEVICES) ty);
      [destruct (SimulatorContext.randomStatus random k)|];
      cbn; rewrite map_app; split; reflexivity.
  - (* UPDATE_COMPONENT_POSITION *)
    cbn. split; [|reflexivity]. rewrite map_map. apply map_ext.
    intros c. now destruct (id c =? cid)%Z.
  - (* UPDATE_DEVICE_STATE *)
    cbn. split; [|reflexivity]. rewrite map_map. apply map_ext.
    intros c. now destruct (id c =? cid)%Z.
  - (* TOGGLE_UNCERTAINTY_MODE *)
    split.
    + apply (map_fst_pairs id type), toggle_keeps_identity.
    + unfold SimulatorContext.simulatorReducer, bind.
      destruct (mapM _ (components st) k). reflexivity.
Qed.

Lemma reducer_idsBelowCounter (st : simState num) (a : action) (k : nat) :
  idsBelowCounter st -> idsBelowCounter (fst (simulatorReducer st a k)).
Proof.
  unfold idsBelowCounter. intros Hinv.
  pose proof (reducer_component_ids st a k) as Hids. cbv zeta in Hids.
  assert (Hinv' : Forall (fun i => i < componentIdCounter st)%Z (map id (components st)))
    by (apply Forall_map; exact Hinv).
  apply (Forall_map id (fun i => i < _)%Z).
  destruct a as [ty px py | rid | cid px py | cid patch | cf ct pol | index | rid | point
                 | | | cs conns | aty title msg | aid | | errorType | index];
    destruct Hids as [Hc Hn]; rewrite ?Hc, ?Hn; try assumption.
  - apply Forall_app. split.
    + eapply Forall_impl; [|exact Hinv']. cbv beta. intros; lia.
    + constructor; [lia | constructor].
  - apply Forall_map, Forall_forall. intros c Hin.
    apply filter_In in Hin as [Hin _].
    rewrite Forall_forall in Hinv. now apply Hinv.
  - constructor.
  - destruct (Math_max0_spec (map id cs)) as (_ & Hall & _).
    eapply Forall_impl; [|exact Hall]. cbv beta. intros; lia.
Qed.

Lemma reducer_distinct_ids (st : simState num) (a : action) (k : nat) :
  isLoadAction a = false ->
  idsBelowCounter st ->
  NoDup (map id (components st)) ->
  NoDup (map id (components (fst (simulatorReducer st a k)))).
Proof.
  intros Hload Hbelow Hnd.
  pose proof (reducer_component_ids st a k) as Hids. cbv zeta in Hids.
  destruct a as [ty px py | rid | cid px py | cid patch | cf ct pol | index | rid | point
                 | | | cs conns | aty title msg | aid | | errorType | index];
    try discriminate; destruct Hids as [Hc Hn]; rewrite ?Hc; try assumption.
  - apply NoDup_app; [assumption | repeat constructor; now intros [] |].
    intros i Hin [Heq | []]. subst i.
    unfold idsBelowCounter in Hbelow. rewrite Forall_forall in Hbelow.
    apply in_map_iff in Hin as (c & Hidc & Hin). specialize (Hbelow c Hin).
    cbv beta in Hbelow. lia.
  - now apply NoDup_map_filter.
  - constructor.
Qed.

Lemma dispatchAll_invariants (acts : list action) :
  forall (st : simState num) (k : nat),
    idsBelowCounter st ->
    idsBelowCounter (fst (dispatchAll st acts k))
    /\ (existsb isLoadAction acts = false ->
        NoDup (map id (components st)) ->
        NoDup (map id (components (fst (dispatchAll st acts k))))).
Proof.
  induction acts as [|a acts IH]; intros st k Hbelow; simpl.
  - auto.
  - unfold bind.
    pose proof (reducer_idsBelowCounter st a k Hbelow) as Hb.
    pose proof (reducer_distinct_ids st a k) as Hd.
    destruct (simulatorReducer st a k) as [st' k']. simpl in Hb, Hd.
    destruct (IH st' k' Hb) as [Hb' Hd']. split; [assumption|].
    intros Hno Hnd. apply orb_false_iff in Hno as [Ha Hrest].
    apply Hd'; [assumption|]. now apply Hd.
Qed.


End StoreInvariantProofs.

Section ProviderProofs.
Context {num : Type} `{JSNumber num}.
Variable DEVICES : list (deviceConfig num).
Variable random : nat -> num.

Local Abbreviation simulatorReducer := (SimulatorContext.simulatorReducer DEVICES random).
Local Abbreviation perform := (Provider.perform DEVICES random).
Local Abbreviation performAll := (Provider.performAll DEVICES random).
Local Abbreviation checkConnectionCompatibility :=
  (SimulatorContext.checkConnectionCompatibility DEVICES).

(** *** Lists with indices *)

Lemma filteri_from_In {A : Type} (f : A -> nat -> bool) (l : list A) :
  forall i x, In x (filteri_from i f l) -> In x l.
Proof.
  induction l as [|a l IH]; intros i x; simpl; [auto|].
  destruct (f a i); simpl; [intros [->|Hin]; [now left | right; eauto] | right; eauto].
Qed.

Lemma NoDup_map_filteri {A B : Type} (g : A -> B) (f : A -> nat -> bool) (l : list A) :
  forall i, NoDup (map g l) -> NoDup (map g (filteri_from i f l)).
Proof.
  induction l as [|a l IH]; intros i; simpl; [auto|].
  intros Hnd. inversion Hnd as [|? ? Hnotin Hrest]; subst.
  destruct (f a i); simpl; [|auto].
  constructor; [|auto].
  intros Hin. apply Hnotin. apply in_map_iff in Hin as (b & Hb & Hin).
  apply filteri_from_In in Hin. apply in_map_iff. now exists b.
Qed.

Lemma map_mapi_from {A B : Type} (g : A -> B) (f : A -> nat -> A) (l : list A) :
  (forall a j, g (f a j) = g a) -> forall i, map g (mapi_from i f l) = map g l.
Proof.
  intros Hf. induction l as [|a l IH]; intros i; simpl; [reflexivity|].
  now rewrite Hf, IH.
Qed.

Lemma filteri_from_keep {A : Type} (l : list A) :
  forall m j, (j < m)%nat -> filteri_from m (fun _ j0 => negb (j0 =? j)%nat) l = l.
Proof.
  induction l as [|c l IHl]; intros m j Hlt; simpl; [reflexivity|].
  destruct (m =? j)%nat eqn:E; [apply Nat.eqb_eq in E; lia|]. simpl.
  f_equal. apply IHl. lia.
Qed.

Lemma filteri_from_remove {A : Type} (l : list A) :
  forall i n,
    filteri_from i (fun _ j => negb (j =? i + n)%nat) l = (firstn n l ++ skipn (S n) l)%list.
Proof.
  induction l as [|a l IH]; intros i n.
  - now destruct n.
  - cbn [filteri_from]. destruct n as [|n].
    + rewrite Nat.add_0_r, Nat.eqb_refl. cbn [negb firstn skipn app].
      apply filteri_from_keep. lia.
    + destruct (i =? i + S n)%nat eqn:E; [apply Nat.eqb_eq in E; lia|].
      cbn [negb firstn skipn app]. f_equal.
      replace (i + S n)%nat with (S i + n)%nat by lia. apply IH.
Qed.

(** *** What a validated [addConnection] does to the store *)

Lemma perform_addConnection (st : simState num) (f t : Z) (pol : string) (k : nat) :
  let verdict := checkConnectionCompatibility st f t pol in
  let st' := fst (perform st (Provider.addConnection f t pol) k) in
  components st' = components st
  /\ connections st'
     = (if valid verdict then (connections st ++ [newWire f t pol])%list else connections st)
  /\ componentIdCounter st' = componentIdCounter st
  /\ connectionStartPoint st'
     = (if valid verdict then None else connectionStartPoint st)
  /\ uncertaintyMode st' = uncertaintyMode st
  /\ errorSimulation st' = errorSimulation st
  /\ alertIdCounter st' = (alertIdCounter st + 1)%Z
  /\ map alertId (alerts st') = (map alertId (alerts st) ++ [alertIdCounter st])%list.
Proof.
  cbv zeta. unfold Provider.perform, SimulatorContext.addConnection.
  destruct (valid (checkConnectionCompatibility st f t pol));
    cbn; rewrite map_app; repeat split; reflexivity.
Qed.


Lemma In_mapi_from {A B : Type} (f : A -> nat -> B) (l : list A) :
  forall i x, In x (mapi_from i f l) -> exists a j, In a l /\ x = f a j.
Proof.
  induction l as [|a l IH]; intros i x; simpl; [intros []|].
  intros [<- | Hin].
  - exists a, i. auto.
  - destruct (IH _ _ Hin) as (b & j & Hb & ->). exists b, j. auto.
Qed.

Lemma mapi_from_ext {A B : Type} (f g : A -> nat -> B) (l : list A) :
  (forall a j, f a j = g a j) -> forall i, mapi_from i f l = mapi_from i g l.
Proof.
  intros Hfg. induction l as [|a l IH]; intros i; simpl; [reflexivity|].
  now rewrite Hfg, IH.
Qed.

(** The wires of the store after a call *)
Lemma perform_connections (st : simState num) (c : Provider.call) (k : nat) :
  connections (fst (perform st c k))
  = match c with
    | Provider.removeComponent rid =>
        filter (fun conn => negb (from conn =? rid)%Z && negb (to conn =? rid)%Z)
               (connections st)
    | Provider.addConnection f t pol =>
        if valid (checkConnectionCompatibility st f t pol)
        then (connections st ++ [newWire f t pol])%list
        else connections st
    | Provider.removeConnection index =>
        filteri_from 0 (fun _ i => negb (i =? index)%nat) (connections st)
    | Provider.clearAll => []
    | Provider.loadProject _ conns => conns
    | Provider.toggleConnectionWireType index =>
        mapi_from 0 (fun conn i => if (i =? index)%nat then toggled conn else conn)
                  (connections st)
    | _ => connections st
    end.
Proof.
  destruct c as [ty px py | rid | cid px py | cid patch | aty title msg | aid | f t pol
                 | index | point | | | cs conns | | errorType | index];
    try reflexivity.
  - unfold Provider.perform, Provider.dispatch, SimulatorContext.simulatorReducer, bind.
    destruct (uncertaintyMode st && includes (SimulatorContext.getUUCTypes DEVICES) ty);
      [destruct (SimulatorContext.randomStatus random k)|]; reflexivity.
  - apply perform_addConnection.
  - unfold Provider.perform, Provider.dispatch, SimulatorContext.simulatorReducer, bind.
    destruct (mapM _ (components st) k). reflexivity.
  - cbn. apply mapi_from_ext. intros conn i. unfold toggled, isStandardWire.
    now destruct (i =? index)%nat.
Qed.

(** The ids and types of the components of the store after a call *)
Lemma perform_identities (st : simState num) (c : Provider.call) (k : nat) :
  map identity (components (fst (perform st c k)))
  = match c with
    | Provider.addComponent ty _ _ =>
        (map identity (components st) ++ [(componentIdCounter st, ty)])%list
    | Provider.removeComponent rid =>
        map identity (filter (fun c => negb (id c =? rid)%Z) (components st))
    | Provider.clearAll => []
    | Provider.loadProject cs _ => map identity cs
    | _ => map identity (components st)
    end.
Proof.
  destruct c as [ty px py | rid | cid px py | cid patch | aty title msg | aid | f t pol
                 | index | point | | | cs conns | | errorType | index];
    try reflexivity.
  - unfold Provider.perform, Provider.dispatch, SimulatorContext.simulatorReducer, bind.
    destruct (uncertaintyMode st && includes (SimulatorContext.getUUCTypes DEVICES) ty);
      [destruct (SimulatorContext.randomStatus random k)|];
      cbn; now rewrite map_app.
  - cbn. rewrite map_map. apply map_ext. intros c. now destruct (id c =? cid)%Z.
  - cbn. rewrite map_map. apply map_ext. intros c. now destruct (id c =? cid)%Z.
  - f_equal. apply perform_addConnection.
  - apply (toggle_keeps_identity DEVICES random).
Qed.

End ProviderProofs.

Section WiringProofs.
Context {num : Type} `{JSNumber num}.
Variable DEVICES : list (deviceConfig num).
Variable random : nat -> num.

Local Abbreviation simulatorReducer := (SimulatorContext.simulatorReducer DEVICES random).
Local Abbreviation perform := (Provider.perform DEVICES random).
Local Abbreviation performAll := (Provider.performAll DEVICES random).
Local Abbreviation checkConnectionCompatibility :=
  (SimulatorContext.checkConnectionCompatibility DEVICES).

(** *** Removing a component *)

(** X2.  [removeComponent] takes out every component with the id and every
    wire from or to it, and nothing else: the other components and wires stay,
    in order; afterwards the id is not found, it is not connected and its
    output is not active, and a reading any multimeter or Fluke 117 reports
    rests on wires and a source that were there before and are not the
    removed one.  The wires are those [REMOVE_CONNECTIONS_FOR_COMPONENT]
    leaves.  A pending connection start is not cancelled, and the id counter
    is not moved. *)
Theorem remove_component_cascade (st : simState num) (rid : Z) (k : nat) :
  let st' := fst (simulatorReducer st (SimulatorContext.REMOVE_COMPONENT rid) k) in
  components st' = filter (fun c => negb (id c =? rid)%Z) (components st)
  /\ (forall c, In c (components st') <-> In c (components st) /\ id c <> rid)
  /\ (forall w, In w (connections st')
                <-> In w (connections st) /\ from w <> rid /\ to w <> rid)
  /\ connections st'
     = connections (fst (simulatorReducer st
                           (SimulatorContext.REMOVE_CONNECTIONS_FOR_COMPONENT rid) k))
  /\ SimulatorContext.getComponent st' rid = None
  /\ SimulatorContext.isComponentConnected st' rid = false
  /\ SimulatorContext.isOutputActive st' rid = false
  /\ (forall device es cv,
         Multimeter.getConnectedValue (connections st') (components st') device es
         = Returned (Some cv)
         \/ Fluke117.getConnectedValue (connections st') (components st') device es
            = Some cv ->
         exists hiWire loWire source,
           In hiWire (connections st) /\ In loWire (connections st)
           /\ In source (components st)
           /\ from hiWire = id source /\ from loWire = id source
           /\ to hiWire = id device /\ to loWire = id device
           /\ id source <> rid /\ id device <> rid)
  /\ connectionStartPoint st' = connectionStartPoint st
  /\ componentIdCounter st' = componentIdCounter st
  /\ alerts st' = alerts st.
Proof.
  cbn zeta. cbn [SimulatorContext.simulatorReducer ret fst].
  set (st' := SimulatorContext.with_connections _ _).
  assert (Hcomp : forall c, In c (components st') <-> In c (components st) /\ id c <> rid).
  { intros c. subst st'. cbn [components SimulatorContext.with_connections
                               SimulatorContext.with_components].
    rewrite filter_In, negb_true_iff, Z.eqb_neq. reflexivity. }
  assert (Hconn : forall w, In w (connections st')
                            <-> In w (connections st) /\ from w <> rid /\ to w <> rid).
  { intros w. subst st'. cbn [connections SimulatorContext.with_connections].
    rewrite filter_In, andb_true_iff, !negb_true_iff, !Z.eqb_neq. reflexivity. }
  assert (Hnone : SimulatorContext.getComponent st' rid = None).
  { apply getComponent_None. intros (c & Hin & Hid). apply Hcomp in Hin. tauto. }
  split; [reflexivity|]. split; [exact Hcomp|]. split; [exact Hconn|].
  split; [reflexivity|]. split; [exact Hnone|]. split; [|split; [|split]].
  - unfold SimulatorContext.isComponentConnected.
    destruct (existsb _ (connections st')) eqn:E; [|reflexivity].
    apply existsb_exists in E as (w & Hin & Hw). apply Hconn in Hin.
    apply orb_true_iff in Hw as [Hw | Hw]; apply Z.eqb_eq in Hw; tauto.
  - unfold SimulatorContext.isOutputActive.
    unfold SimulatorContext.getComponent in Hnone. now rewrite Hnone.
  - intros device es cv Hread.
    assert (Hrests : exists unitOf,
               restsOn (connections st') (components st') device unitOf cv).
    { destruct Hread as [Hm | Hf].
      - eexists. exact (multimeter_rests _ _ _ _ _ Hm).
      - eexists. exact (fluke117_rests _ _ _ _ _ Hf). }
    destruct Hrests as (unitOf & h & l & isAux & source & _ & Hh & Hl & Hth & Htl
                        & _ & _ & Heq & _ & Hs & Hid & _).
    apply Hconn in Hh, Hl. apply Hcomp in Hs.
    exists h, l, source. intuition congruence.
  - repeat split.
Qed.

(** *** Wires and roles *)

Lemma wellWired_pairs (st : simState num) :
  wellWired DEVICES st
  <-> Forall (fun conn =>
                exists tf tt,
                  In (from conn, tf) (map identity (components st))
                  /\ In (to conn, tt) (map identity (components st))
                  /\ hasRole DEVICES tf "calibrator" /\ hasRole DEVICES tt "uuc")
             (connections st).
Proof.
  unfold wellWired. split; apply Forall_impl; intros conn.
  - intros (f & t & Hf & Ht & Hidf & Hidt & Hrf & Hrt).
    exists (type f), (type t). rewrite <- Hidf, <- Hidt.
    split; [exact (in_map identity _ _ Hf)|].
    split; [exact (in_map identity _ _ Ht)|]. auto.
  - intros (tf & tt & Hf & Ht & Hrf & Hrt).
    apply in_map_iff in Hf as (f & [= Hidf Htf] & Hf).
    apply in_map_iff in Ht as (t & [= Hidt Htt] & Ht).
    exists f, t. subst. auto 10.
Qed.

Lemma wellWired_transfer (st st' : simState num) :
  incl (map identity (components st)) (map identity (components st')) ->
  (forall w', In w' (connections st') ->
              exists w, In w (connections st) /\ from w' = from w /\ to w' = to w) ->
  wellWired DEVICES st -> wellWired DEVICES st'.
Proof.
  intros Hincl Hwires Hw. apply wellWired_pairs in Hw. apply wellWired_pairs.
  rewrite Forall_forall in *. intros w' Hin'.
  destruct (Hwires w' Hin') as (w & Hin & -> & ->).
  destruct (Hw w Hin) as (tf & tt & Hf & Ht & Hr).
  exists tf, tt. auto.
Qed.

Lemma validated_roles (st : simState num) (f t : Z) (pol : string) :
  valid (checkConnectionCompatibility st f t pol) = true ->
  exists cf ct,
    SimulatorContext.getComponent st f = Some cf
    /\ SimulatorContext.getComponent st t = Some ct
    /\ hasRole DEVICES (type cf) "calibrator" /\ hasRole DEVICES (type ct) "uuc"
    /\ find (fun c => (from c =? f)%Z && (to c =? t)%Z && String.eqb (polarity c) pol)
            (connections st) = None.
Proof.
  unfold SimulatorContext.checkConnectionCompatibility, SimulatorContext.getComponent.
  cbv zeta.
  destruct (find _ (components st)) as [cf|]; [|discriminate].
  destruct (find (fun c => (id c =? t)%Z) (components st)) as [ct|]; [|discriminate].
  destruct (includes (SimulatorContext.getCalibratorTypes DEVICES) (type cf)) eqn:Ecal;
    [|discriminate].
  destruct (includes (SimulatorContext.getUUCTypes DEVICES) (type ct)) eqn:Euuc;
    [|discriminate].
  cbn [negb]. destruct (find _ (connections st)); [discriminate|].
  intros _. exists cf, ct.
  apply getCalibratorTypes_hasRole in Ecal. apply getUUCTypes_hasRole in Euuc. auto.
Qed.

Lemma perform_wellWired (st : simState num) (c : Provider.call) (k : nat) :
  isLoadCall c = false ->
  wellWired DEVICES st -> wellWired DEVICES (fst (perform st c k)).
Proof.
  intros Hload Hw.
  pose proof (perform_connections DEVICES random st c k) as Hconn.
  pose proof (perform_identities DEVICES random st c k) as Hids.
  assert (Hsame : forall st' : simState num,
             map identity (components st') = map identity (components st) ->
             connections st' = connections st -> wellWired DEVICES st').
  { intros st' Hi Hc. apply (wellWired_transfer st); [now rewrite Hi| |assumption].
    rewrite Hc. intros w Hin. now exists w. }
  destruct c as [ty px py | rid | cid px py | cid patch | aty title msg | aid | f t pol
                 | index | point | | | cs conns | | errorType | index];
    try discriminate; try (now apply Hsame).
  - (* addComponent *)
    apply (wellWired_transfer st); [| |assumption].
    + rewrite Hids. now apply incl_appl.
    + rewrite Hconn. intros w Hin. now exists w.
  - (* removeComponent *)
    apply wellWired_pairs in Hw. apply wellWired_pairs. rewrite Hconn, Hids.
    rewrite Forall_forall in *. intros w Hin.
    apply filter_In in Hin as [Hin Hne].
    apply andb_true_iff in Hne as [Hnf Hnt].
    destruct (Hw w Hin) as (tf & tt & Hf & Ht & Hr).
    exists tf, tt. split; [|split; [|assumption]].
    + apply in_map_iff in Hf as (cf & [= Hidf Htf] & Hf).
      apply in_map_iff. exists cf. split; [unfold identity; congruence|].
      apply filter_In. split; [assumption | now rewrite Hidf].
    + apply in_map_iff in Ht as (ct & [= Hidt Htt] & Ht).
      apply in_map_iff. exists ct. split; [unfold identity; congruence|].
      apply filter_In. split; [assumption | now rewrite Hidt].
  - (* addConnection *)
    destruct (valid (checkConnectionCompatibility st f t pol)) eqn:Hv;
      [|now apply Hsame].
    apply validated_roles in Hv as (cf & ct & Hf & Ht & Hrf & Hrt & _).
    apply getComponent_Some in Hf as [Hf Hidf]. apply getComponent_Some in Ht as [Ht Hidt].
    apply wellWired_pairs in Hw. apply wellWired_pairs. rewrite Hconn, Hids.
    apply Forall_app. split; [assumption|]. constructor; [|constructor].
    exists (type cf), (type ct). cbn [from to newWire].
    rewrite <- Hidf, <- Hidt.
    split; [exact (in_map identity _ _ Hf)|].
    split; [exact (in_map identity _ _ Ht)|]. auto.
  - (* removeConnection *)
    apply (wellWired_transfer st); [now rewrite Hids| |assumption].
    rewrite Hconn. intros w Hin. apply filteri_from_In in Hin. now exists w.
  - (* clearAll *)
    unfold wellWired. rewrite Hconn. constructor.
  - (* toggleConnectionWireType *)
    apply (wellWired_transfer st); [now rewrite Hids| |assumption].
    rewrite Hconn. intros w' Hin. apply In_mapi_from in Hin as (w & j & Hin & ->).
    exists w. split; [assumption|]. now destruct (j =? index)%nat.
Qed.

(** X3.  As long as no project is loaded, every wire in the store goes from
    a component that is present and whose type the registry lists as a
    calibrator to a component that is present and whose type the registry
    lists as a unit under calibration: the provider's calls, in any order
    and with any arguments, never leave a wire to or from a component that
    was removed, nor one whose direction the validator would refuse. *)
Theorem wires_respect_roles (calls : list Provider.call) (k : nat) :
  existsb isLoadCall calls = false ->
  wellWired DEVICES (fst (performAll SimulatorContext.initialState calls k)).
Proof.
  assert (Hgen : forall (cs : list Provider.call) (st : simState num) (k0 : nat),
             existsb isLoadCall cs = false ->
             wellWired DEVICES st -> wellWired DEVICES (fst (performAll st cs k0))).
  { induction cs as [|c cs IH]; intros st k0 Hno Hw; [exact Hw|].
    cbn [existsb] in Hno. apply orb_false_iff in Hno as [Hc Hrest].
    cbn [Provider.performAll]. unfold bind.
    pose proof (perform_wellWired st c k0 Hc Hw) as Hw'.
    destruct (perform st c k0) as [st' k']. now apply IH. }
  intros Hno. apply Hgen; [assumption | constructor].
Qed.

End WiringProofs.

Section TripleProofs.
Context {num : Type} `{JSNumber num}.
Variable DEVICES : list (deviceConfig num).
Variable random : nat -> num.

Local Abbreviation simulatorReducer := (SimulatorContext.simulatorReducer DEVICES random).
Local Abbreviation perform := (Provider.perform DEVICES random).
Local Abbreviation performAll := (Provider.performAll DEVICES random).
Local Abbreviation checkConnectionCompatibility :=
  (SimulatorContext.checkConnectionCompatibility DEVICES).

(** *** One wire per terminal pair and polarity *)

Lemma perform_triples (st : simState num) (c : Provider.call) (k : nat) :
  isLoadCall c = false -> namesPolarity c = true ->
  NoDup (map triple (connections st)) ->
  NoDup (map triple (connections (fst (perform st c k)))).
Proof.
  intros Hload Hpol Hnd.
  rewrite (perform_connections DEVICES random st c k).
  destruct c as [ty px py | rid | cid px py | cid patch | aty title msg | aid | f t pol
                 | index | point | | | cs conns | | errorType | index];
    try discriminate; try assumption.
  - now apply NoDup_map_filter.
  - destruct (valid (checkConnectionCompatibility st f t pol)) eqn:Hv; [|assumption].
    apply (validated_roles DEVICES) in Hv as (_ & _ & _ & _ & _ & _ & Hfresh).
    cbn [namesPolarity] in Hpol. apply negb_true_iff, String.eqb_neq in Hpol.
    rewrite map_app. apply NoDup_app; [assumption | repeat constructor; now intros [] |].
    intros tr Hin [<- | []].
    apply in_map_iff in Hin as (w & Hw & Hin).
    pose proof (find_none _ _ Hfresh w Hin) as Hne. cbv beta in Hne.
    unfold triple, newWire in Hw. cbn [from to polarity] in Hw.
    injection Hw as Hf Ht Hp.
    assert (Hsame : str_or pol "hi" = pol) by (destruct pol; [contradiction | reflexivity]).
    rewrite Hsame in Hp.
    now rewrite Hf, Ht, Hp, !Z.eqb_refl, String.eqb_refl in Hne.
  - now apply NoDup_map_filteri.
  - constructor.
  - rewrite map_mapi_from; [assumption|].
    intros w j. now destruct (j =? index)%nat.
Qed.

(** X4.  As long as no project is loaded and no wire is asked for with an
    empty polarity, no two wires in the store have the same [from], [to] and
    polarity: a source terminal and a sink terminal are joined by at most one
    wire per polarity, whatever was added, removed or toggled in between. *)
Theorem one_wire_per_polarity (calls : list Provider.call) (k : nat) :
  existsb isLoadCall calls = false ->
  forallb namesPolarity calls = true ->
  NoDup (map triple (connections (fst (performAll SimulatorContext.initialState calls k)))).
Proof.
  assert (Hgen : forall (st : simState num) (k0 : nat),
             existsb isLoadCall calls = false ->
             forallb namesPolarity calls = true ->
             NoDup (map triple (connections st)) ->
             NoDup (map triple (connections (fst (performAll st calls k0))))).
  { induction calls as [|c rest IH]; intros st k0 Hno Hpol Hnd; [exact Hnd|].
    cbn [existsb] in Hno. apply orb_false_iff in Hno as [Hc Hrest].
    cbn [forallb] in Hpol. apply andb_true_iff in Hpol as [Hp Hprest].
    cbn [Provider.performAll]. unfold bind.
    pose proof (perform_triples st c k0 Hc Hp Hnd) as Hnd'.
    destruct (perform st c k0) as [st' k']. now apply IH. }
  intros Hno Hpol. apply Hgen; [assumption | assumption | constructor].
Qed.

(** X5.  The duplicate check compares the polarity as it was given, while
    the wire is stored with an empty polarity replaced by ["hi"]: when a HI
    wire already joins two components, asking for the same wire again is
    refused as a duplicate, but asking for it with an empty polarity, where
    the validator accepts that, stores a second HI wire between the two. *)
Theorem empty_polarity_stores_second_hi (st : simState num) (f t : Z) (k : nat) :
  wired st f t "hi" ->
  valid (checkConnectionCompatibility st f t "") = true ->
  let st' := fst (perform st (Provider.addConnection f t "") k) in
  checkConnectionCompatibility st f t "hi"
  = {| valid := false; cmessage := DUPLICATE_POLARITY "HI" |}
  /\ connections st' = (connections st ++ [newWire f t "hi"])%list
  /\ ~ NoDup (map triple (connections st')).
Proof.
  intros Hw Hempty. cbv zeta. split; [|split].
  - pose proof (validated_roles DEVICES st f t "" Hempty)
      as (cf & ct & Hf & Ht & Hrf & Hrt & _).
    apply (getCalibratorTypes_hasRole DEVICES) in Hrf.
    apply (getUUCTypes_hasRole DEVICES) in Hrt.
    unfold SimulatorContext.getComponent in Hf, Ht.
    unfold SimulatorContext.checkConnectionCompatibility. cbv zeta.
    rewrite Hf, Ht, Hrf, Hrt. cbn [negb].
    destruct (find _ (connections st)) as [w|] eqn:Hfind; [reflexivity|].
    apply find_triple_wired in Hfind. contradiction.
  - now rewrite (perform_connections DEVICES random st (Provider.addConnection f t "") k),
      Hempty.
  - rewrite (perform_connections DEVICES random st (Provider.addConnection f t "") k),
      Hempty, map_app.
    intros Hnd. destruct Hw as (w & Hin & Hf & Ht & Hp).
    apply NoDup_remove_2 with (l := map triple (connections st)) (l' := []) in Hnd.
    apply Hnd. rewrite app_nil_r. apply in_map_iff. exists w.
    split; [|assumption]. unfold triple, newWire. cbn [from to polarity str_or]. congruence.
Qed.

(** *** Wire kinds *)

Lemma canonicalWire_toggled (w : connection num) :
  canonicalWire (toggled w).
Proof.
  unfold canonicalWire, toggled. cbn [wireProperties SimulatorContext.with_wireProperties].
  destruct (isStandardWire w); auto.
Qed.

Lemma perform_canonical (st : simState num) (c : Provider.call) (k : nat) :
  isLoadCall c = false ->
  Forall canonicalWire (connections st) ->
  Forall canonicalWire (connections (fst (perform st c k))).
Proof.
  intros Hload Hall.
  rewrite (perform_connections DEVICES random st c k).
  destruct c as [ty px py | rid | cid px py | cid patch | aty title msg | aid | f t pol
                 | index | point | | | cs conns | | errorType | index];
    try discriminate; try assumption.
  - rewrite Forall_forall in *. intros w Hin. apply filter_In in Hin as [Hin _]. auto.
  - destruct (valid _); [|assumption].
    apply Forall_app. split; [assumption|]. constructor; [|constructor]. now left.
  - rewrite Forall_forall in *. intros w Hin. apply filteri_from_In in Hin. auto.
  - constructor.
  - rewrite Forall_forall in *. intros w' Hin.
    apply In_mapi_from in Hin as (w & j & Hin & ->).
    destruct (j =? index)%nat; [apply canonicalWire_toggled | auto].
Qed.

Lemma toggled_twice (w : connection num) :
  canonicalWire w -> toggled (toggled w) = w.
Proof.
  intros [Hw | Hw]; destruct w as [f t p wp]; cbn in Hw; subst wp; reflexivity.
Qed.

Lemma mapi_from_twice {A : Type} (g : A -> A) (index : nat) (l : list A) :
  Forall (fun a => g (g a) = a) l ->
  forall i,
    mapi_from i (fun a j => if (j =? index)%nat then g a else a)
      (mapi_from i (fun a j => if (j =? index)%nat then g a else a) l) = l.
Proof.
  induction 1 as [|a l Ha Hall IH]; intros i; simpl; [reflexivity|].
  rewrite IH. destruct (i =? index)%nat; now rewrite ?Ha.
Qed.

(** X6.  As long as no project is loaded, every wire in the store is either
    a standard wire of 0.05 ohm or a bad wire of 5 ohm, so that toggling the
    kind of a wire twice gives back the store's wires as they were. *)
Theorem wire_kind_is_a_switch (calls : list Provider.call) (k : nat) :
  existsb isLoadCall calls = false ->
  let st := fst (performAll SimulatorContext.initialState calls k) in
  Forall canonicalWire (connections st)
  /\ (forall index k1 k2,
         connections
           (fst (perform (fst (perform st (Provider.toggleConnectionWireType index) k1))
                         (Provider.toggleConnectionWireType index) k2))
         = connections st).
Proof.
  intros Hno. cbv zeta.
  assert (Hcanon : forall (cs : list Provider.call) (st : simState num) (k0 : nat),
             existsb isLoadCall cs = false ->
             Forall canonicalWire (connections st) ->
             Forall canonicalWire (connections (fst (performAll st cs k0)))).
  { induction cs as [|c rest IH]; intros st k0 Hn Hall; [exact Hall|].
    cbn [existsb] in Hn. apply orb_false_iff in Hn as [Hc Hrest].
    cbn [Provider.performAll]. unfold bind.
    pose proof (perform_canonical st c k0 Hc Hall) as Hall'.
    destruct (perform st c k0) as [st' k']. now apply IH. }
  specialize (Hcanon calls SimulatorContext.initialState k Hno (Forall_nil _)).
  set (st := fst (performAll SimulatorContext.initialState calls k)) in *. clearbody st.
  split; [exact Hcanon|].
  intros index k1 k2.
  rewrite !(perform_connections DEVICES random).
  apply mapi_from_twice. eapply Forall_impl; [|exact Hcanon].
  intros w Hw. now apply toggled_twice.
Qed.

(** X7.  Each of the three error flags is a plain switch: toggling a flag
    changes that flag only, toggling it twice gives back the store as it
    was, and a name that is none of the three changes nothing. *)
Theorem error_flags_are_switches (st : simState num) (errorType : string) (k1 k2 : nat) :
  let st' := fst (simulatorReducer st (SimulatorContext.TOGGLE_ERROR_SIMULATION errorType) k1) in
  fst (simulatorReducer st' (SimulatorContext.TOGGLE_ERROR_SIMULATION errorType) k2) = st
  /\ SimulatorContext.with_errorSimulation st' (errorSimulation st) = st
  /\ loadingError (errorSimulation st')
     = xorb (String.eqb errorType "loadingError") (loadingError (errorSimulation st))
  /\ resolutionUncertainty (errorSimulation st')
     = xorb (String.eqb errorType "resolutionUncertainty")
            (resolutionUncertainty (errorSimulation st))
  /\ instrumentError (errorSimulation st')
     = xorb (String.eqb errorType "instrumentError") (instrumentError (errorSimulation st)).
Proof.
  cbv zeta. destruct st as [cs conns n sp al an um [le ru ie]].
  cbn. unfold SimulatorContext.with_errorSimulation, SimulatorContext.toggleFlag. cbn.
  destruct (String.eqb errorType "loadingError") eqn:E1.
  { apply String.eqb_eq in E1. subst errorType. cbn.
    rewrite negb_involutive. repeat split. }
  destruct (String.eqb errorType "resolutionUncertainty") eqn:E2.
  { apply String.eqb_eq in E2. subst errorType. cbn.
    rewrite negb_involutive. repeat split. }
  destruct (String.eqb errorType "instrumentError") eqn:E3.
  { apply String.eqb_eq in E3. subst errorType. cbn.
    rewrite negb_involutive. repeat split. }
  cbn. repeat split.
Qed.

End TripleProofs.

Section RegistryProofs.
Context {num : Type} `{JSNumber num}.
Variable DEVICES : list (deviceConfig num).
Variable random : nat -> num.

Local Abbreviation simulatorReducer := (SimulatorContext.simulatorReducer DEVICES random).
Local Abbreviation dispatchAll := (SimulatorContext.dispatchAll DEVICES random).
Local Abbreviation perform := (Provider.perform DEVICES random).
Local Abbreviation performAll := (Provider.performAll DEVICES random).
Local Abbreviation checkConnectionCompatibility :=
  (SimulatorContext.checkConnectionCompatibility DEVICES).

(** *** The registry *)

Lemma NoDup_map_injective {A B : Type} (g : A -> B) (l : list A) (a b : A) :
  NoDup (map g l) -> In a l -> In b l -> g a = g b -> a = b.
Proof.
  induction l as [|c l IH]; simpl; [intros _ []|].
  intros Hnd Ha Hb Heq. inversion Hnd as [|? ? Hnotin Hrest]; subst.
  destruct Ha as [<- | Ha], Hb as [<- | Hb]; auto.
  - exfalso. apply Hnotin. rewrite Heq. now apply in_map.
  - exfalso. apply Hnotin. rewrite <- Heq. now apply in_map.
Qed.

Lemma getDeviceConfig_unique (ty : string) (d : deviceConfig num) :
  NoDup (map cfg_type DEVICES) ->
  DeviceRegistry.getDeviceConfig DEVICES ty = Some d <-> In d DEVICES /\ cfg_type d = ty.
Proof.
  intros Hnd. unfold DeviceRegistry.getDeviceConfig. split.
  - intros Hfind. apply find_some in Hfind as [Hin Hty].
    now apply String.eqb_eq in Hty.
  - intros [Hin Hty].
    destruct (find _ DEVICES) as [d'|] eqn:Hfind.
    + apply find_some in Hfind as [Hin' Hty']. apply String.eqb_eq in Hty'.
      f_equal. apply (NoDup_map_injective cfg_type DEVICES); congruence.
    + pose proof (find_none _ _ Hfind d Hin) as Hne. cbv beta in Hne.
      apply String.eqb_neq in Hne. contradiction.
Qed.

Lemma hasRole_unique (ty r1 r2 : string) :
  NoDup (map cfg_type DEVICES) ->
  hasRole DEVICES ty r1 -> hasRole DEVICES ty r2 -> r1 = r2.
Proof.
  intros Hnd (d1 & Hin1 & Hty1 & Hr1) (d2 & Hin2 & Hty2 & Hr2).
  assert (d1 = d2) by (apply (NoDup_map_injective cfg_type DEVICES); congruence).
  congruence.
Qed.

(** X8.  The registry holds one package per device type.  On such a registry
    the two ways the code asks for a role agree: [isCalibrator] and [isUUC],
    which look the type up, say the same as membership in the lists
    [getCalibratorTypes] and [getUUCTypes] the validator filters out; and no
    type is both a calibrator and a unit under calibration. *)
Theorem registry_roles_agree (ty : string) :
  NoDup (map cfg_type DEVICES) ->
  DeviceRegistry.isCalibrator DEVICES ty
  = includes (SimulatorContext.getCalibratorTypes DEVICES) ty
  /\ DeviceRegistry.isUUC DEVICES ty = includes (SimulatorContext.getUUCTypes DEVICES) ty
  /\ DeviceRegistry.isCalibrator DEVICES ty && DeviceRegistry.isUUC DEVICES ty = false
  /\ (DeviceRegistry.getDeviceConfig DEVICES ty = None ->
      DeviceRegistry.isCalibrator DEVICES ty = false
      /\ DeviceRegistry.isUUC DEVICES ty = false).
Proof.
  intros Hnd.
  assert (Hrole : forall role (found : bool),
             found = match DeviceRegistry.getDeviceConfig DEVICES ty with
                     | Some config => String.eqb (cfg_role config) role
                     | None => false
                     end ->
             found = true <-> hasRole DEVICES ty role).
  { intros role found ->. split.
    - destruct (DeviceRegistry.getDeviceConfig DEVICES ty) as [d|] eqn:Hd; [|discriminate].
      intros Hr. apply String.eqb_eq in Hr.
      apply (getDeviceConfig_unique ty d Hnd) in Hd as [Hin Hty]. now exists d.
    - intros (d & Hin & Hty & Hr).
      rewrite (proj2 (getDeviceConfig_unique ty d Hnd) (conj Hin Hty)).
      now apply String.eqb_eq. }
  split; [|split; [|split]].
  - apply eq_true_iff_eq.
    rewrite (Hrole "calibrator" (DeviceRegistry.isCalibrator DEVICES ty) eq_refl).
    symmetry. apply getCalibratorTypes_hasRole.
  - apply eq_true_iff_eq.
    rewrite (Hrole "uuc" (DeviceRegistry.isUUC DEVICES ty) eq_refl).
    symmetry. apply getUUCTypes_hasRole.
  - unfold DeviceRegistry.isCalibrator, DeviceRegistry.isUUC.
    destruct (DeviceRegistry.getDeviceConfig DEVICES ty) as [d|]; [|reflexivity].
    destruct (String.eqb (cfg_role d) "calibrator") eqn:E; [|reflexivity].
    apply String.eqb_eq in E. now rewrite E.
  - unfold DeviceRegistry.isCalibrator, DeviceRegistry.isUUC. now intros ->.
Qed.

(** *** No wire from a component to itself *)

Lemma validated_distinct (st : simState num) (f t : Z) (pol : string) :
  NoDup (map cfg_type DEVICES) ->
  valid (checkConnectionCompatibility st f t pol) = true -> f <> t.
Proof.
  intros Hnd Hv ->.
  apply (validated_roles DEVICES) in Hv as (cf & ct & Hf & Ht & Hrf & Hrt & _).
  rewrite Hf in Ht. injection Ht as <-.
  pose proof (hasRole_unique _ _ _ Hnd Hrf Hrt). discriminate.
Qed.

(** X9.  On a registry with one package per device type the validator
    accepts no wire from a component to itself, whatever the store holds;
    and as long as no project is loaded, no wire in the store starts and
    ends at the same component. *)
Theorem no_wire_to_itself (calls : list Provider.call) (k : nat) :
  NoDup (map cfg_type DEVICES) ->
  existsb isLoadCall calls = false ->
  (forall (st : simState num) (i : Z) (pol : string),
      valid (checkConnectionCompatibility st i i pol) = false)
  /\ Forall (fun w => from w <> to w)
            (connections (fst (performAll SimulatorContext.initialState calls k))).
Proof.
  intros Hnd Hno. split.
  - intros st i pol.
    destruct (valid (checkConnectionCompatibility st i i pol)) eqn:Hv; [|reflexivity].
    now apply validated_distinct in Hv.
  - assert (Hstep : forall (st : simState num) c k0,
               isLoadCall c = false ->
               Forall (fun w => from w <> to w) (connections st) ->
               Forall (fun w => from w <> to w) (connections (fst (perform st c k0)))).
    { intros st c k0 Hload Hall.
      rewrite (perform_connections DEVICES random st c k0).
      destruct c as [ty px py | rid | cid px py | cid patch | aty title msg | aid | f t pol
                     | index | point | | | cs conns | | errorType | index];
        try discriminate; try assumption.
      - rewrite Forall_forall in *. intros w Hin. apply filter_In in Hin as [Hin _]. auto.
      - destruct (valid _) eqn:Hv; [|assumption].
        apply Forall_app. split; [assumption|]. constructor; [|constructor].
        cbn [from to newWire]. now apply validated_distinct in Hv.
      - rewrite Forall_forall in *. intros w Hin. apply filteri_from_In in Hin. auto.
      - constructor.
      - rewrite Forall_forall in *. intros w' Hin.
        apply In_mapi_from in Hin as (w & j & Hin & ->).
        destruct (j =? index)%nat; [cbn [from to toggled SimulatorContext.with_wireProperties]|];
          auto. }
    assert (Hgen : forall cs (st : simState num) k0,
               existsb isLoadCall cs = false ->
               Forall (fun w => from w <> to w) (connections st) ->
               Forall (fun w => from w <> to w) (connections (fst (performAll st cs k0)))).
    { induction cs as [|c rest IH]; intros st k0 Hn Hall; [exact Hall|].
      cbn [existsb] in Hn. apply orb_false_iff in Hn as [Hc Hrest].
      cbn [Provider.performAll]. unfold bind.
      pose proof (Hstep st c k0 Hc Hall) as Hall'.
      destruct (perform st c k0) as [st' k']. now apply IH. }
    apply Hgen; [assumption | constructor].
Qed.

End RegistryProofs.

Section AlertProofs.
Context {num : Type} `{JSNumber num}.
Variable DEVICES : list (deviceConfig num).
Variable random : nat -> num.

Local Abbreviation action := (@SimulatorContext.action num).
Local Abbreviation simulatorReducer := (SimulatorContext.simulatorReducer DEVICES random).
Local Abbreviation dispatchAll := (SimulatorContext.dispatchAll DEVICES random).

(** *** Alerts *)

(** The alerts of the store after a dispatch *)
Lemma reducer_alerts (st : simState num) (a : action) (k : nat) :
  let st' := fst (simulatorReducer st a k) in
  match a with
  | SimulatorContext.ADD_ALERT ty title msg =>
      alerts st' = (alerts st ++ [{| alertType := ty; alertTitle := title;
                                    alertMessage := msg; alertId := alertIdCounter st |}])%list
      /\ alertIdCounter st' = (alertIdCounter st + 1)%Z
  | SimulatorContext.DISMISS_ALERT aid =>
      alerts st' = filter (fun al => negb (alertId al =? aid)%Z) (alerts st)
      /\ alertIdCounter st' = alertIdCounter st
  | SimulatorContext.CLEAR_ALL => alerts st' = [] /\ alertIdCounter st' = 0%Z
  | _ => alerts st' = alerts st /\ alertIdCounter st' = alertIdCounter st
  end.
Proof.
  destruct a as [ty px py | rid | cid px py | cid patch | cf ct pol | index | rid | point
                 | | | cs conns | aty title msg | aid | | errorType | index];
    cbv zeta; try (split; reflexivity).
  - unfold SimulatorContext.simulatorReducer, bind.
    destruct (uncertaintyMode st && includes (SimulatorContext.getUUCTypes DEVICES) ty);
      [destruct (SimulatorContext.randomStatus random k)|]; split; reflexivity.
  - unfold SimulatorContext.simulatorReducer, bind.
    destruct (mapM _ (components st) k). split; reflexivity.
Qed.

Lemma StronglySorted_snoc (l : list Z) (n : Z) :
  StronglySorted Z.lt l -> Forall (fun i => i < n)%Z l -> StronglySorted Z.lt (l ++ [n]).
Proof.
  induction 1 as [|a l Hs IH Hall]; intros Hlt; simpl.
  - repeat constructor.
  - inversion Hlt as [|? ? Ha Hrest]; subst. constructor; [auto|].
    apply Forall_app. split; [assumption | repeat constructor; assumption].
Qed.

Lemma StronglySorted_map_filter {A : Type} (g : A -> Z) (p : A -> bool) (l : list A) :
  StronglySorted Z.lt (map g l) -> StronglySorted Z.lt (map g (filter p l)).
Proof.
  induction l as [|a l IH]; simpl; [auto|].
  intros Hs. inversion Hs as [|? ? Hrest Hall]; subst.
  destruct (p a); simpl; [|auto].
  constructor; [auto|].
  rewrite Forall_forall in *. intros i Hin. apply Hall.
  apply in_map_iff in Hin as (b & <- & Hin). apply filter_In in Hin as [Hin _].
  now apply in_map.
Qed.

Lemma reducer_alertsInOrder (st : simState num) (a : action) (k : nat) :
  alertsInOrder st -> alertsInOrder (fst (simulatorReducer st a k)).
Proof.
  unfold alertsInOrder. intros [Hbelow Hsorted].
  pose proof (reducer_alerts st a k) as Hal. cbv zeta in Hal.
  destruct a as [ty px py | rid | cid px py | cid patch | cf ct pol | index | rid | point
                 | | | cs conns | aty title msg | aid | | errorType | index];
    destruct Hal as [-> ->]; try (split; assumption).
  - split; constructor.
  - split.
    + apply Forall_app. split.
      * eapply Forall_impl; [|exact Hbelow]. cbv beta. intros; lia.
      * constructor; [cbn; lia | constructor].
    + rewrite map_app. apply StronglySorted_snoc; [assumption|].
      apply Forall_map. exact Hbelow.
  - split.
    + rewrite Forall_forall in *. intros al Hin. apply filter_In in Hin as [Hin _]. auto.
    + now apply StronglySorted_map_filter.
Qed.

Lemma filter_keeps {A : Type} (p : A -> bool) (l : list A) :
  Forall (fun a => p a = true) l -> filter p l = l.
Proof.
  induction 1 as [|a l Ha Hall IH]; simpl; [reflexivity|]. now rewrite Ha, IH.
Qed.

(** X10.  Starting from the initial store, after any sequence of dispatches
    the alerts carry pairwise distinct ids, increasing along the list and
    all below the alert counter; so dismissing an alert by its id removes
    that alert and no other, and an alert that is raised and then dismissed
    leaves the list of alerts as it was. *)
Theorem alert_ids_identify (acts : list action) (k : nat) :
  let st := fst (dispatchAll SimulatorContext.initialState acts k) in
  alertsInOrder st
  /\ NoDup (map alertId (alerts st))
  /\ (forall before al after k',
         alerts st = (before ++ al :: after)%list ->
         alerts (fst (simulatorReducer st (SimulatorContext.DISMISS_ALERT (alertId al)) k'))
         = (before ++ after)%list)
  /\ (forall ty title msg k1 k2,
         alerts (fst (simulatorReducer
                        (fst (simulatorReducer st (SimulatorContext.ADD_ALERT ty title msg) k1))
                        (SimulatorContext.DISMISS_ALERT (alertIdCounter st)) k2))
         = alerts st).
Proof.
  cbv zeta.
  assert (Hinv : forall (acts0 : list action) (st : simState num) (k0 : nat),
             alertsInOrder st -> alertsInOrder (fst (dispatchAll st acts0 k0))).
  { induction acts0 as [|a rest IH]; intros st k0 Hst; [exact Hst|].
    cbn [SimulatorContext.dispatchAll]. unfold bind.
    pose proof (reducer_alertsInOrder st a k0 Hst) as Hst'.
    destruct (simulatorReducer st a k0) as [st' k']. now apply IH. }
  assert (Hst : alertsInOrder (fst (dispatchAll SimulatorContext.initialState acts k))).
  { apply Hinv. split; constructor. }
  set (st := fst (dispatchAll SimulatorContext.initialState acts k)) in *. clearbody st.
  pose proof Hst as [Hbelow Hsorted].
  assert (Hnd : NoDup (map alertId (alerts st))) by now apply StronglySorted_lt_NoDup.
  split; [exact Hst|]. split; [exact Hnd|]. split.
  - intros before al after k' Heq.
    cbn [SimulatorContext.simulatorReducer ret fst alerts SimulatorContext.with_alerts].
    rewrite Heq in Hnd |- *. rewrite map_app in Hnd. cbn [map] in Hnd.
    pose proof (NoDup_remove_2 _ _ _ Hnd) as Hnotin.
    rewrite filter_app. cbn [filter]. rewrite Z.eqb_refl. cbn [negb].
    rewrite !filter_keeps; [reflexivity | |];
      apply Forall_forall; intros b Hin; apply negb_true_iff, Z.eqb_neq;
      intros Hid; apply Hnotin, in_or_app;
      [right | left]; rewrite <- Hid; now apply in_map.
  - intros ty title msg k1 k2.
    cbn [SimulatorContext.simulatorReducer ret fst alerts alertIdCounter
         SimulatorContext.with_alerts].
    rewrite filter_app. cbn [filter alertId]. rewrite Z.eqb_refl. cbn [negb].
    rewrite app_nil_r. apply filter_keeps.
    eapply Forall_impl; [|exact Hbelow]. cbv beta. intros al Hlt.
    apply negb_true_iff, Z.eqb_neq. lia.
Qed.

(** *** Updating a device *)

Lemma find_map_same_id (g : component num -> component num) (cid : Z)
      (l : list (component num)) :
  (forall c, id (g c) = id c) ->
  find (fun c => (id c =? cid)%Z) (map g l)
  = option_map g (find (fun c => (id c =? cid)%Z) l).
Proof.
  intros Hg. induction l as [|c l IH]; simpl; [reflexivity|].
  rewrite Hg. now destruct (id c =? cid)%Z.
Qed.

(** X11.  [updateDeviceState] merges the fields given into the state of the
    components with the id and touches nothing else: ids, types and
    positions stay, the other components and the rest of the store are left
    as they are, and the component found under the id afterwards is the one
    found before with the merged state.  An id that no component has changes nothing, and the
    same update applied twice is the update applied once. *)
Theorem update_device_state_frame (st : simState num) (cid : Z) (patch : statePatch num)
    (k1 k2 : nat) :
  let st' := fst (simulatorReducer st (SimulatorContext.UPDATE_DEVICE_STATE cid patch) k1) in
  map identity (components st') = map identity (components st)
  /\ map (fun c => (x c, y c)) (components st') = map (fun c => (x c, y c)) (components st)
  /\ SimulatorContext.with_components st' (components st) = st
  /\ (forall c, In c (components st) -> id c <> cid -> In c (components st'))
  /\ SimulatorContext.getComponent st' cid
     = option_map (fun c => SimulatorContext.with_state c
                              (SimulatorContext.mergeState (state c) patch))
                  (SimulatorContext.getComponent st cid)
  /\ (SimulatorContext.getComponent st cid = None -> st' = st)
  /\ fst (simulatorReducer st' (SimulatorContext.UPDATE_DEVICE_STATE cid patch) k2) = st'.
Proof.
  cbv zeta. cbn [SimulatorContext.simulatorReducer ret fst].
  set (g := fun c : component num =>
              if (id c =? cid)%Z
              then SimulatorContext.with_state c (SimulatorContext.mergeState (state c) patch)
              else c).
  assert (Hid : forall c, id (g c) = id c).
  { intros c. unfold g. now destruct (id c =? cid)%Z. }
  cbn [components SimulatorContext.with_components].
  split; [|split; [|split; [|split; [|split; [|split]]]]].
  - rewrite map_map. apply map_ext. intros c. unfold g, identity.
    now destruct (id c =? cid)%Z.
  - rewrite map_map. apply map_ext. intros c. unfold g. now destruct (id c =? cid)%Z.
  - now destruct st.
  - intros c Hin Hne. apply in_map_iff. exists c. split; [|assumption].
    unfold g. apply Z.eqb_neq in Hne. now rewrite Hne.
  - unfold SimulatorContext.getComponent.
    cbn [components SimulatorContext.with_components].
    rewrite (find_map_same_id g cid _ Hid).
    destruct (find _ (components st)) as [c|] eqn:Hfind; [|reflexivity].
    apply find_some in Hfind as [_ Hc]. cbn [option_map]. unfold g. now rewrite Hc.
  - intros Hnone. unfold SimulatorContext.getComponent in Hnone.
    assert (Hsame : map g (components st) = components st).
    { rewrite <- (map_id (components st)) at 2. apply map_ext_in. intros c Hin.
      pose proof (find_none _ _ Hnone c Hin) as Hne. cbv beta in Hne.
      unfold g. now rewrite Hne. }
    rewrite Hsame. now destruct st.
  - unfold SimulatorContext.with_components at 1. cbn [components connections
      componentIdCounter connectionStartPoint alerts alertIdCounter uncertaintyMode
      errorSimulation SimulatorContext.with_components].
    unfold SimulatorContext.with_components. f_equal.
    rewrite map_map. apply map_ext. intros c. fold (g c). unfold g at 1.
    rewrite Hid. unfold g. destruct (id c =? cid)%Z; [|reflexivity].
    unfold SimulatorContext.with_state. cbn [id type x y state]. f_equal.
    unfold SimulatorContext.mergeState. cbn.
    destruct patch as [pp po pr pm pv pu pf pl pc]. cbn.
    destruct pp, po, pr, pm, pv, pu, pf, pl, pc; reflexivity.
Qed.

End AlertProofs.

Section HandlerProofs.
Context {num : Type} `{JSNumber num}.
Variable DEVICES : list (deviceConfig num).
Variable random : nat -> num.

Local Abbreviation simulatorReducer := (SimulatorContext.simulatorReducer DEVICES random).
Local Abbreviation perform := (Provider.perform DEVICES random).
Local Abbreviation performAll := (Provider.performAll DEVICES random).
Local Abbreviation checkConnectionCompatibility :=
  (SimulatorContext.checkConnectionCompatibility DEVICES).
Local Abbreviation handleClick := (ConnectionPoint.handleClick DEVICES random).
Local Abbreviation clickAll := (ConnectionPoint.clickAll DEVICES random).
Local Abbreviation handleWireClick := (Canvas.handleWireClick DEVICES random).
Local Abbreviation handleKeyDown := (Canvas.handleKeyDown DEVICES random).

(** *** Clicking a wire *)

(** X12.  A click on a wire never touches the components, the flags or the
    pending connection.  With the loading-error flag on it toggles the kind
    of that wire, whatever is answered to the confirmation, and neither adds
    nor removes a wire; with the flag off and the removal confirmed it takes
    out the wire at that index and keeps the others in order; with the flag
    off and the removal declined, and at an index beyond the last wire, the
    wires are left as they are. *)
Theorem wire_click (st : simState num) (confirmed : bool) (index k : nat) :
  let st' := fst (handleWireClick st confirmed index k) in
  SimulatorContext.with_connections st' (connections st) = st
  /\ (loadingError (errorSimulation st) = true ->
      connections st'
      = mapi_from 0 (fun conn i => if (i =? index)%nat then toggled conn else conn)
                  (connections st)
      /\ map triple (connections st') = map triple (connections st))
  /\ (loadingError (errorSimulation st) = false -> confirmed = true ->
      connections st' = (firstn index (connections st) ++ skipn (S index) (connections st))%list)
  /\ (loadingError (errorSimulation st) = false -> confirmed = false -> st' = st)
  /\ ((List.length (connections st) <= index)%nat -> connections st' = connections st).
Proof.
  cbv zeta. unfold Canvas.handleWireClick.
  pose proof (perform_connections DEVICES random st
                (Provider.toggleConnectionWireType index) k) as Htoggle.
  pose proof (perform_connections DEVICES random st
                (Provider.removeConnection index) k) as Hremove.
  cbv iota beta in Htoggle, Hremove.
  pose proof (filteri_from_remove (connections st) 0 index) as Hrem.
  cbn [Nat.add] in Hrem. rewrite Hrem in Hremove. clear Hrem.
  assert (Hfar : (List.length (connections st) <= index)%nat ->
                 (firstn index (connections st) ++ skipn (S index) (connections st))%list
                 = connections st
                 /\ mapi_from 0 (fun conn i => if (i =? index)%nat then toggled conn else conn)
                              (connections st) = connections st).
  { intros Hlen. split.
    - rewrite firstn_all2 by lia. rewrite skipn_all2 by lia. apply app_nil_r.
    - assert (Hgen : forall (l : list (connection num)) i, (i + List.length l <= index)%nat ->
                 mapi_from i (fun conn j => if (j =? index)%nat then toggled conn else conn) l
                 = l).
      { induction l as [|w l IH]; intros i Hi; simpl in *; [reflexivity|].
        destruct (i =? index)%nat eqn:E; [apply Nat.eqb_eq in E; lia|].
        f_equal. apply IH. lia. }
      apply Hgen. simpl. lia. }
  destruct (loadingError (errorSimulation st)) eqn:Hflag.
  - split; [now destruct st|]. split; [|split; [|split]]; try discriminate.
    + intros _. split; [exact Htoggle|]. rewrite Htoggle.
      apply map_mapi_from. intros w j. now destruct (j =? index)%nat.
    + intros Hlen. rewrite Htoggle. now apply Hfar.
  - destruct confirmed.
    + split; [now destruct st|]. split; [discriminate|].
      split; [intros _ _; exact Hremove|]. split; [discriminate|].
      intros Hlen. rewrite Hremove. now apply Hfar.
    + split; [now destruct st|]. split; [discriminate|].
      split; [discriminate|]. split; reflexivity.
Qed.

(** *** Clicking a terminal *)

(** What a click on a terminal does to the store *)
Lemma handleClick_effect (st : simState num) (type : string) (componentId : Z)
    (polarity : string) (k : nat) :
  let st' := fst (handleClick st type componentId polarity k) in
  components st' = components st
  /\ componentIdCounter st' = componentIdCounter st
  /\ uncertaintyMode st' = uncertaintyMode st
  /\ errorSimulation st' = errorSimulation st
  /\ connectionStartPoint st'
     = match connectionStartPoint st with
       | None =>
           if String.eqb type "output"
           then Some {| sp_componentId := componentId; sp_type := type;
                        sp_polarity := polarity |}
           else None
       | Some start =>
           if String.eqb type "input" || String.eqb type "output" then None else Some start
       end
  /\ connections st'
     = match connectionStartPoint st with
       | Some start =>
           if String.eqb type "input" && String.eqb (sp_polarity start) polarity
              && negb (sp_componentId start =? componentId)%Z
              && valid (checkConnectionCompatibility st (sp_componentId start)
                          componentId polarity)
           then (connections st ++ [newWire (sp_componentId start) componentId polarity])%list
           else connections st
       | None => connections st
       end
  /\ exists calls,
       forallb isTerminalCall calls = true
       /\ handleClick st type componentId polarity k = performAll st calls k.
Proof.
  cbv zeta. unfold ConnectionPoint.handleClick.
  destruct (connectionStartPoint st) as [start|] eqn:Hstart.
  - destruct (String.eqb type "input") eqn:Hin.
    + destruct (String.eqb (sp_polarity start) polarity) eqn:Hpol; cbn [negb andb orb].
      * destruct (sp_componentId start =? componentId)%Z eqn:Hsame; cbn [negb andb].
        -- repeat split; try reflexivity.
           exists [Provider.clearConnectionStart]. split; reflexivity.
        -- unfold bind.
           pose proof (perform_addConnection DEVICES random st (sp_componentId start)
                         componentId polarity k) as Hadd. cbv zeta in Hadd.
           destruct Hadd as (Hc & Hw & Hn & _ & Hu & He & _).
           assert (Hcalls : (let (a, k') := perform st (Provider.addConnection
                                 (sp_componentId start) componentId polarity) k in
                             perform a Provider.clearConnectionStart k')
                            = performAll st [Provider.addConnection (sp_componentId start)
                                               componentId polarity;
                                             Provider.clearConnectionStart] k).
           { cbn [Provider.performAll]. unfold bind.
             destruct (perform st _ k) as [s1 k1]. cbn [Provider.perform Provider.dispatch].
             unfold Provider.dispatch. cbn [SimulatorContext.simulatorReducer].
             unfold ret. reflexivity. }
           destruct (perform st (Provider.addConnection (sp_componentId start)
                                   componentId polarity) k) as [s1 k1].
           cbn [fst] in Hc, Hw, Hn, Hu, He. cbn.
           repeat split; try assumption.
           exists [Provider.addConnection (sp_componentId start) componentId polarity;
                   Provider.clearConnectionStart].
           split; [reflexivity | exact Hcalls].
      * repeat split; try reflexivity.
        exists [Provider.clearConnectionStart]. split; reflexivity.
    + cbn [andb orb]. destruct (String.eqb type "output") eqn:Hout.
      * repeat split; try reflexivity.
        exists [Provider.clearConnectionStart]. split; reflexivity.
      * cbn. repeat split; try assumption. exists []. split; reflexivity.
  - destruct (String.eqb type "output") eqn:Hout.
    + repeat split; try reflexivity.
      eexists [Provider.setConnectionStart _]. split; reflexivity.
    + cbn. repeat split; try assumption. exists []. split; reflexivity.
Qed.

Lemma performAll_app (calls1 calls2 : list Provider.call) :
  forall (st : simState num) (k : nat),
    performAll st (calls1 ++ calls2) k
    = performAll (fst (performAll st calls1 k)) calls2 (snd (performAll st calls1 k)).
Proof.
  induction calls1 as [|c calls1 IH]; intros st k; [reflexivity|].
  cbn [app Provider.performAll]. unfold bind.
  destruct (perform st c k) as [st' k']. apply IH.
Qed.

Lemma isTerminalCall_no_load (calls : list (@Provider.call num)) :
  forallb isTerminalCall calls = true -> existsb isLoadCall calls = false.
Proof.
  induction calls as [|c calls IH]; [reflexivity|].
  cbn [forallb existsb]. intros Hall. apply andb_true_iff in Hall as [Hc Hrest].
  rewrite (IH Hrest), orb_false_r. now destruct c.
Qed.

(** X13.  Clicks on terminals act on the store through the provider only:
    any sequence of clicks amounts to a sequence of [setConnectionStart],
    [clearConnectionStart] and validated [addConnection] calls, none of them
    loading a project, and leaves the components as they are.  With no
    connection pending, a click on an output terminal starts one and any
    other click does nothing; with one pending, a click on an input or
    output terminal ends it, and a click on a terminal of any other kind
    does nothing.  A wire is added only by a click on an input terminal of
    the pending polarity on another component than the one the connection
    started from, when the validator accepts the wire; it is then the wire
    from the starting component to the clicked one. *)
Theorem terminal_clicks (st : simState num) (clicks : list ConnectionPoint.click) (k : nat) :
  (exists calls,
      forallb isTerminalCall calls = true
      /\ existsb isLoadCall calls = false
      /\ clickAll st clicks k = performAll st calls k)
  /\ components (fst (clickAll st clicks k)) = components st
  /\ (forall type componentId polarity,
        let st' := fst (handleClick st type componentId polarity k) in
        connectionStartPoint st'
        = match connectionStartPoint st with
          | None =>
              if String.eqb type "output"
              then Some {| sp_componentId := componentId; sp_type := type;
                           sp_polarity := polarity |}
              else None
          | Some start =>
              if String.eqb type "input" || String.eqb type "output"
              then None else Some start
          end
        /\ connections st'
           = match connectionStartPoint st with
             | Some start =>
                 if String.eqb type "input" && String.eqb (sp_polarity start) polarity
                    && negb (sp_componentId start =? componentId)%Z
                    && valid (checkConnectionCompatibility st (sp_componentId start)
                                componentId polarity)
                 then (connections st
                       ++ [newWire (sp_componentId start) componentId polarity])%list
                 else connections st
             | None => connections st
             end).
Proof.
  assert (Hcalls : forall (cs : list ConnectionPoint.click) (s : simState num) (k0 : nat),
             exists calls,
               forallb isTerminalCall calls = true
               /\ clickAll s cs k0 = performAll s calls k0).
  { induction cs as [|c cs IH]; intros s k0.
    - exists []. split; reflexivity.
    - cbn [ConnectionPoint.clickAll]. unfold bind.
      pose proof (handleClick_effect s (ConnectionPoint.ck_type c)
                    (ConnectionPoint.ck_componentId c) (ConnectionPoint.ck_polarity c) k0)
        as Heff.
      cbv zeta in Heff. destruct Heff as (_ & _ & _ & _ & _ & _ & calls1 & Hall1 & ->).
      destruct (IH (fst (performAll s calls1 k0)) (snd (performAll s calls1 k0)))
        as (calls2 & Hall2 & Heq).
      exists (calls1 ++ calls2)%list. split.
      + now rewrite forallb_app, Hall1, Hall2.
      + rewrite performAll_app, <- Heq.
        now destruct (performAll s calls1 k0). }
  assert (Hcomp : forall (cs : list ConnectionPoint.click) (s : simState num) (k0 : nat),
             components (fst (clickAll s cs k0)) = components s).
  { induction cs as [|c cs IH]; intros s k0; [reflexivity|].
    cbn [ConnectionPoint.clickAll]. unfold bind.
    pose proof (handleClick_effect s (ConnectionPoint.ck_type c)
                  (ConnectionPoint.ck_componentId c) (ConnectionPoint.ck_polarity c) k0)
      as Heff.
    cbv zeta in Heff. destruct Heff as (Hc & _).
    destruct (handleClick s _ _ _ k0) as [s' k']. cbn [fst] in Hc.
    now rewrite IH. }
  split; [|split].
  - destruct (Hcalls clicks st k) as (calls & Hall & Heq).
    exists calls. split; [assumption|]. split; [now apply isTerminalCall_no_load | assumption].
  - apply Hcomp.
  - intros type componentId polarity. cbv zeta.
    pose proof (handleClick_effect st type componentId polarity k) as Heff.
    cbv zeta in Heff. destruct Heff as (_ & _ & _ & _ & Hs & Hw & _). now split.
Qed.

(** X14.  Two clicks make a wire: with no connection pending, a click on an
    output terminal of one component followed by a click on an input
    terminal of the same polarity on another component that the validator
    accepts appends the wire between the two, standard and of 0.05 ohm, and
    leaves no connection pending.  Pressing Escape in between cancels the
    pending connection, so that the second click adds nothing. *)
Theorem two_clicks_make_a_wire (st : simState num) (a b : Z) (polarity : string) (k : nat) :
  connectionStartPoint st = None ->
  a <> b ->
  valid (checkConnectionCompatibility st a b polarity) = true ->
  let out := ConnectionPoint.mkClick "output" a polarity in
  let inp := ConnectionPoint.mkClick "input" b polarity in
  let st2 := fst (clickAll st [out; inp] k) in
  let cancelled :=
    fst (handleClick
           (fst (handleKeyDown (fst (handleClick st "output" a polarity k)) "Escape" k))
           "input" b polarity k) in
  connections st2 = (connections st ++ [newWire a b polarity])%list
  /\ connectionStartPoint st2 = None
  /\ components st2 = components st
  /\ connections cancelled = connections st
  /\ connectionStartPoint cancelled = None.
Proof.
  intros Hnone Hab Hv. cbv zeta.
  apply Z.eqb_neq in Hab.
  set (s1 := SimulatorContext.with_connectionStartPoint st
               (Some {| sp_componentId := a; sp_type := "output";
                        sp_polarity := polarity |})).
  assert (H1 : handleClick st "output" a polarity k = (s1, k)).
  { unfold ConnectionPoint.handleClick. now rewrite Hnone. }
  assert (Hcheck : checkConnectionCompatibility s1 a b polarity
                   = checkConnectionCompatibility st a b polarity) by reflexivity.
  cbn [ConnectionPoint.clickAll ConnectionPoint.ck_type ConnectionPoint.ck_componentId
       ConnectionPoint.ck_polarity].
  unfold bind. rewrite H1. cbn [fst].
  pose proof (handleClick_effect s1 "input" b polarity k) as Hclick. cbv zeta in Hclick.
  destruct Hclick as (Hc & _ & _ & _ & Hs & Hw & _).
  cbn [connectionStartPoint s1 SimulatorContext.with_connectionStartPoint
       sp_componentId sp_polarity String.eqb Ascii.eqb Bool.eqb andb orb] in Hs, Hw.
  rewrite String.eqb_refl, Hab, Hcheck, Hv in Hw. cbn [negb andb] in Hw.
  destruct (handleClick s1 "input" b polarity k) as [s2 k2]. cbn [fst ret] in *.
  split; [exact Hw|]. split; [exact Hs|]. split; [exact Hc|].
  unfold Canvas.handleKeyDown.
  cbn [connectionStartPoint s1 SimulatorContext.with_connectionStartPoint
       String.eqb Ascii.eqb Bool.eqb Provider.perform].
  unfold Provider.dispatch. cbn [SimulatorContext.simulatorReducer ret fst].
  unfold ConnectionPoint.handleClick.
  cbn [connectionStartPoint s1 SimulatorContext.with_connectionStartPoint
       String.eqb Ascii.eqb Bool.eqb ret fst].
  split; reflexivity.
Qed.

End HandlerProofs.

Section ReadingProofs.
Context {num : Type} `{JSNumber num}.
Variable connections : list (connection num).
Variable components : list (component num).
Variable device : component num.
Variable errorSimulation : errorFlags.

(** *** When the multimeter throws *)

(** X15.  The multimeter's [getConnectedValue] throws exactly when the
    loading-error flag is on and the circuit resolves to a source that is
    found, powered and switched to operate but has no mode: it then calls
    [includes] on [undefined].  In particular it never throws with the flag
    off, nor on a source that has a mode.  The Fluke 117, which guards the
    mode, reads such a calibrator at its programmed value. *)
Theorem multimeter_throws_iff :
  (Multimeter.getConnectedValue connections components device errorSimulation = TypeError
   <-> loadingError errorSimulation = true
       /\ exists hiWire loWire isAux source,
            terminalWires connections (id device) hiWire loWire isAux
            /\ find (fun c => (id c =? from hiWire)%Z) components = Some source
            /\ power (state source) = true
            /\ output (state source) = true
            /\ mode (state source) = None)
  /\ (forall hiWire loWire isAux source,
         terminalWires connections (id device) hiWire loWire isAux ->
         find (fun c => (id c =? from hiWire)%Z) components = Some source ->
         power (state source) = true ->
         output (state source) = true ->
         mode (state source) = None ->
         isFlukeCalibrator (type source) = true ->
         exists cv,
           Fluke117.getConnectedValue connections components device errorSimulation = Some cv
           /\ cv_value cv = value (state source)).
Proof.
  split; [split|].
  - unfold Multimeter.getConnectedValue. cbv zeta.
    pose proof (selected_terminalWires connections device) as Hsel.
    destruct (match sameSource _ _ with Some _ => _ | None => _ end) as [[sid isAux]|];
      [|discriminate].
    destruct (Hsel sid isAux eq_refl) as (h & l & Hw & -> & _). clear Hsel.
    destruct (find _ components) as [source|] eqn:Hfind; [|discriminate].
    destruct (power (state source)) eqn:Hpow; [|discriminate]. cbn [negb].
    destruct (loadingError errorSimulation) eqn:Hflag; cbn [andb].
    + destruct (output (state source)) eqn:Hout.
      * destruct (mode (state source)) as [m|] eqn:Hmode.
        -- split_ifs; discriminate.
        -- intros _. split; [reflexivity|]. now exists h, l, isAux, source.
      * split_ifs; discriminate.
    + split_ifs; discriminate.
  - intros (Hflag & h & l & isAux & source & Hw & Hfind & Hpow & Hout & Hmode).
    unfold Multimeter.getConnectedValue. cbv zeta.
    destruct (terminalWires_selected _ _ _ _ _ Hw) as (Hc & _ & _).
    rewrite Hc. cbv iota beta. rewrite Hfind, Hpow, Hflag, Hout, Hmode. reflexivity.
  - intros h l isAux source Hw Hfind Hpow Hout Hmode Hcal.
    rewrite (fluke117_reading connections components device errorSimulation
               h l isAux source Hw Hfind Hpow Hout Hcal).
    eexists. split; [reflexivity|]. cbn [cv_value]. rewrite Hmode. cbn [str_is].
    now destruct (loadingError errorSimulation).
Qed.

(** *** What a reading tells about its source *)

(** X16.  A reading the multimeter reports is always marked active and
    comes from a powered source that is either a Fluke calibrator switched
    to operate or an SMA100A with RF on; in the second case the reading is
    the generator's level in dBm, with no mode, frequency or wire
    resistance, whatever the loading-error flag says.  The Fluke 117 reports
    readings of Fluke calibrators only. *)
Theorem readings_come_from_active_sources (cv : connectedValue num) :
  (Multimeter.getConnectedValue connections components device errorSimulation
   = Returned (Some cv) ->
   cv_active cv = true
   /\ exists source,
        In source components /\ power (state source) = true
        /\ ((isFlukeCalibrator (type source) = true /\ output (state source) = true
             /\ cv_mode cv = mode (state source))
            \/ (type source = "sma100a" /\ rfOn (state source) = true
                /\ cv_value cv = level (state source) /\ cv_unit cv = "dBm"
                /\ cv_mode cv = None /\ cv_frequency cv = None
                /\ cv_wireResistance cv = None)))
  /\ (Fluke117.getConnectedValue connections components device errorSimulation = Some cv ->
      cv_active cv = true
      /\ exists source,
           In source components /\ power (state source) = true
           /\ isFlukeCalibrator (type source) = true /\ output (state source) = true
           /\ cv_mode cv = mode (state source)).
Proof.
  split.
  - unfold Multimeter.getConnectedValue. cbv zeta.
    destruct (match sameSource _ _ with Some _ => _ | None => _ end) as [[sid isAux]|];
      [|discriminate].
    destruct (find _ components) as [source|] eqn:Hfind; [|discriminate].
    apply find_some in Hfind as [Hin _].
    destruct (power (state source)) eqn:Hpow; [|discriminate]. cbn [negb].
    destruct (if loadingError errorSimulation && output (state source) then _ else _)
      as [measured|]; [|discriminate].
    fold (isFlukeCalibrator (type source)).
    destruct (isFlukeCalibrator (type source)) eqn:Hcal; cbn [andb].
    + destruct (output (state source)) eqn:Hout.
      * intros [= <-]. split; [reflexivity|]. exists source. auto 10.
      * destruct (String.eqb (type source) "sma100a") eqn:Hsma; cbn [andb];
          [|discriminate].
        apply String.eqb_eq in Hsma. rewrite Hsma in Hcal. discriminate.
    + destruct (String.eqb (type source) "sma100a") eqn:Hsma; cbn [andb]; [|discriminate].
      destruct (rfOn (state source)) eqn:Hrf; [|discriminate].
      apply String.eqb_eq in Hsma.
      intros [= <-]. split; [reflexivity|]. exists source.
      split; [assumption|]. split; [assumption|]. right. auto 10.
  - unfold Fluke117.getConnectedValue. cbv zeta.
    destruct (match sameSource _ _ with Some _ => _ | None => _ end) as [[sid isAux]|];
      [|discriminate].
    destruct (find _ components) as [source|] eqn:Hfind; [|discriminate].
    apply find_some in Hfind as [Hin _].
    destruct (power (state source)) eqn:Hpow; [|discriminate]. cbn [negb].
    fold (isFlukeCalibrator (type source)).
    destruct (isFlukeCalibrator (type source)) eqn:Hcal; cbn [andb]; [|discriminate].
    destruct (output (state source)) eqn:Hout; [|discriminate].
    intros [= <-]. split; [reflexivity|]. exists source. auto 10.
Qed.

End ReadingProofs.

Section ActiveProofs.
Context {num : Type} `{JSNumber num}.

(** *** Wires drawn active *)

Lemma reading_source (connections : list (connection num))
      (components : list (component num)) (device : component num) (es : errorFlags)
      (cv : connectedValue num) :
  Multimeter.getConnectedValue connections components device es = Returned (Some cv)
  \/ Fluke117.getConnectedValue connections components device es = Some cv ->
  exists hiWire loWire isAux source,
    terminalWires connections (id device) hiWire loWire isAux
    /\ In hiWire connections /\ to hiWire = id device
    /\ find (fun c => (id c =? from hiWire)%Z) components = Some source
    /\ power (state source) = true
    /\ ((isFlukeCalibrator (type source) = true /\ output (state source) = true)
        \/ (type source = "sma100a" /\ rfOn (state source) = true)).
Proof.
  intros [Hread | Hread].
  - pose proof (multimeter_rests _ _ _ _ _ Hread)
      as (h & l & isAux & source & Hw & Hh & _ & Hto & _ & _ & _ & _ & Hfind & _ & _ & Hpow & _).
    exists h, l, isAux, source. repeat (split; [assumption|]).
    revert Hread. unfold Multimeter.getConnectedValue. cbv zeta.
    destruct (terminalWires_selected _ _ _ _ _ Hw) as (Hc & _ & _).
    rewrite Hc. cbv iota beta. rewrite Hfind, Hpow. cbn [negb].
    destruct (if loadingError es && output (state source) then _ else _);
      [|discriminate].
    fold (isFlukeCalibrator (type source)).
    destruct (isFlukeCalibrator (type source)); cbn [andb].
    + destruct (output (state source)); [auto|].
      destruct (String.eqb (type source) "sma100a") eqn:Hsma; cbn [andb]; [|discriminate].
      destruct (rfOn (state source)); [|discriminate].
      apply String.eqb_eq in Hsma. auto.
    + destruct (String.eqb (type source) "sma100a") eqn:Hsma; cbn [andb]; [|discriminate].
      destruct (rfOn (state source)); [|discriminate].
      apply String.eqb_eq in Hsma. auto.
  - pose proof (fluke117_rests _ _ _ _ _ Hread)
      as (h & l & isAux & source & Hw & Hh & _ & Hto & _ & _ & _ & _ & Hfind & _ & _ & Hpow & _).
    exists h, l, isAux, source. repeat (split; [assumption|]).
    revert Hread. unfold Fluke117.getConnectedValue. cbv zeta.
    destruct (terminalWires_selected _ _ _ _ _ Hw) as (Hc & _ & _).
    rewrite Hc. cbv iota beta. rewrite Hfind, Hpow. cbn [negb].
    fold (isFlukeCalibrator (type source)).
    destruct (isFlukeCalibrator (type source)); cbn [andb]; [|discriminate].
    destruct (output (state source)); [auto | discriminate].
Qed.

(** X17.  [isOutputActive], by which the canvas draws a wire as live, holds
    of an id exactly when the component found under it is powered and is
    either an SMA100A with RF on or a Fluke 5500A switched to operate.  A
    reading a multimeter or a Fluke 117 reports in the store comes over a
    wire into the device whose source is active in that sense, or is a Fluke
    5522A: the one source the devices read that is never drawn live. *)
Theorem live_wires_and_readings (st : simState num) (device : component num)
    (cv : connectedValue num) :
  (forall i,
      SimulatorContext.isOutputActive st i = true
      <-> exists c,
            SimulatorContext.getComponent st i = Some c
            /\ power (state c) = true
            /\ ((type c = "sma100a" /\ rfOn (state c) = true)
                \/ (type c = "fluke5500a" /\ output (state c) = true)))
  /\ (forall i c,
         SimulatorContext.getComponent st i = Some c -> type c = "fluke5522a" ->
         SimulatorContext.isOutputActive st i = false)
  /\ (Multimeter.getConnectedValue (connections st) (components st) device
        (errorSimulation st) = Returned (Some cv)
      \/ Fluke117.getConnectedValue (connections st) (components st) device
           (errorSimulation st) = Some cv ->
      exists hiWire source,
        In hiWire (connections st) /\ to hiWire = id device
        /\ SimulatorContext.getComponent st (from hiWire) = Some source
        /\ (SimulatorContext.isOutputActive st (from hiWire) = true
            \/ type source = "fluke5522a")).
Proof.
  assert (Hactive : forall i,
             SimulatorContext.isOutputActive st i = true
             <-> exists c,
                   SimulatorContext.getComponent st i = Some c
                   /\ power (state c) = true
                   /\ ((type c = "sma100a" /\ rfOn (state c) = true)
                       \/ (type c = "fluke5500a" /\ output (state c) = true))).
  { intros i. unfold SimulatorContext.isOutputActive, SimulatorContext.getComponent.
    destruct (find _ (components st)) as [c|].
    - destruct (String.eqb (type c) "sma100a") eqn:Hsma.
      + apply String.eqb_eq in Hsma. rewrite andb_true_iff. split.
        * intros [Hp Hr]. exists c. auto.
        * intros (c' & [= <-] & Hp & [[_ Hr] | [Hty _]]); [auto | congruence].
      + apply String.eqb_neq in Hsma.
        destruct (String.eqb (type c) "fluke5500a") eqn:Hfl.
        * apply String.eqb_eq in Hfl. rewrite andb_true_iff. split.
          -- intros [Hp Ho]. exists c. auto.
          -- intros (c' & [= <-] & Hp & [[Hty _] | [_ Ho]]); [contradiction | auto].
        * apply String.eqb_neq in Hfl. split; [discriminate|].
          intros (c' & [= <-] & _ & [[Hty _] | [Hty _]]); contradiction.
    - split; [discriminate|]. now intros (c & Hc & _). }
  split; [exact Hactive|]. split.
  - intros i c Hc Hty. destruct (SimulatorContext.isOutputActive st i) eqn:E; [|reflexivity].
    apply Hactive in E as (c' & Hc' & _ & [[Hty' _] | [Hty' _]]); congruence.
  - intros Hread.
    apply reading_source in Hread
      as (h & l & isAux & source & _ & Hin & Hto & Hfind & Hpow & Hkind).
    exists h, source. split; [assumption|]. split; [assumption|].
    split; [exact Hfind|].
    destruct Hkind as [[Hcal Hout] | [Hsma Hrf]].
    + unfold isFlukeCalibrator in Hcal. apply orb_true_iff in Hcal as [Hty | Hty];
        apply String.eqb_eq in Hty; [left | now right].
      apply Hactive. exists source. auto 10.
    + left. apply Hactive. exists source. auto 10.
Qed.

End ActiveProofs.

Section PanelProofs.
Context {num : Type} `{JSNumber num}.

Local Abbreviation DIAL_POSITIONS := Fluke117Panel.DIAL_POSITIONS.
Local Abbreviation dialIdx := Fluke117Panel.dialIdx.
Local Abbreviation rotateDial := Fluke117Panel.rotateDial.
Local Abbreviation turnTo := (@Fluke117Panel.turnTo num _).

(** *** The Fluke 117's dial *)

Lemma findIndex_range {A : Type} (p : A -> bool) (l : list A) :
  (-1 <= findIndex p l < Z.of_nat (List.length l))%Z.
Proof.
  induction l as [|a l IH]; cbn [findIndex List.length]; [lia|].
  destruct (p a); [lia|]. cbv zeta.
  destruct (findIndex p l <? 0)%Z eqn:E; [lia|]. apply Z.ltb_ge in E. lia.
Qed.

Lemma dialIdx_range (device : component num) : (0 <= dialIdx device < 9)%Z.
Proof.
  unfold Fluke117Panel.dialIdx.
  pose proof (findIndex_range
                (fun p => str_is (mode (state device)) (Fluke117Panel.key p))
                DIAL_POSITIONS) as Hr.
  change (Z.of_nat (List.length DIAL_POSITIONS)) with 9%Z in Hr. lia.
Qed.

Lemma dialIdx_key (device : component num) (m : string) :
  mode (state device) = Some m ->
  In m (map Fluke117Panel.key DIAL_POSITIONS) ->
  option_map Fluke117Panel.key (at_index DIAL_POSITIONS (dialIdx device)) = Some m.
Proof.
  intros Hmode Hin. unfold Fluke117Panel.dialIdx. rewrite Hmode.
  cbn [map DIAL_POSITIONS Fluke117Panel.DIAL_POSITIONS Fluke117Panel.key In] in Hin.
  repeat (destruct Hin as [<- | Hin]; [vm_compute; reflexivity|]).
  destruct Hin.
Qed.

Lemma dialIdx_other (device : component num) :
  (forall m, mode (state device) = Some m -> ~ In m (map Fluke117Panel.key DIAL_POSITIONS)) ->
  dialIdx device = 0%Z.
Proof.
  intros Hno. unfold Fluke117Panel.dialIdx.
  assert (Hall : forall p, In p DIAL_POSITIONS ->
                           str_is (mode (state device)) (Fluke117Panel.key p) = false).
  { intros p Hin. destruct (mode (state device)) as [m|] eqn:Hm; [|reflexivity].
    cbn [str_is]. apply String.eqb_neq. intros ->.
    apply (Hno _ eq_refl). now apply in_map. }
  assert (Hgen : forall l : list Fluke117Panel.position,
             (forall p, In p l -> str_is (mode (state device)) (Fluke117Panel.key p) = false) ->
             findIndex (fun p => str_is (mode (state device)) (Fluke117Panel.key p)) l
             = (-1)%Z).
  { induction l as [|a l IH]; intros Hl; cbn [findIndex]; [reflexivity|].
    rewrite (Hl a (or_introl eq_refl)). cbv zeta.
    rewrite IH by (intros p Hp; apply Hl; now right). reflexivity. }
  now rewrite (Hgen _ Hall).
Qed.

Lemma at_index_dial (i : Z) :
  (0 <= i < 9)%Z -> exists pos, at_index DIAL_POSITIONS i = Some pos /\ In pos DIAL_POSITIONS.
Proof.
  intros Hi. unfold at_index.
  destruct (i <? 0)%Z eqn:E; [apply Z.ltb_lt in E; lia|].
  destruct (nth_error DIAL_POSITIONS (Z.to_nat i)) as [pos|] eqn:Hn.
  - exists pos. split; [reflexivity|]. eapply nth_error_In; eassumption.
  - apply nth_error_None in Hn. cbn [List.length DIAL_POSITIONS
      Fluke117Panel.DIAL_POSITIONS] in Hn. lia.
Qed.

Lemma dialIdx_turned (device : component num) (i : Z) (pos : Fluke117Panel.position) :
  at_index DIAL_POSITIONS i = Some pos ->
  dialIdx (SimulatorContext.with_state device
             (SimulatorContext.mergeState (state device) (turnTo pos))) = i.
Proof.
  unfold at_index. destruct (i <? 0)%Z eqn:E; [discriminate|]. apply Z.ltb_ge in E.
  intros Hn.
  assert (Hi : i = Z.of_nat (Z.to_nat i)) by lia. rewrite Hi. clear Hi.
  unfold Fluke117Panel.dialIdx.
  cbn [state SimulatorContext.with_state SimulatorContext.mergeState mode p_mode
       Fluke117Panel.turnTo].
  revert Hn. generalize (Z.to_nat i) as n. intros n Hn.
  do 9 (destruct n as [|n]; [injection Hn as <-; vm_compute; reflexivity|]).
  now destruct n.
Qed.

(** One turn of the dial by [dir] steps, for [dir] at least [-9] *)
Lemma rotated_spec (device : component num) (dir : Z) :
  (-9 <= dir)%Z ->
  exists pos,
    at_index DIAL_POSITIONS ((dialIdx device + dir + 9) mod 9) = Some pos
    /\ In pos DIAL_POSITIONS
    /\ rotateDial device dir = Returned (Fluke117Panel.setState device (turnTo pos))
    /\ rotated dir device
       = SimulatorContext.with_state device
           (SimulatorContext.mergeState (state device) (turnTo pos))
    /\ dialIdx (rotated dir device) = ((dialIdx device + dir + 9) mod 9)%Z.
Proof.
  intros Hdir. pose proof (dialIdx_range device) as Hr.
  assert (Hmod : (0 <= (dialIdx device + dir + 9) mod 9 < 9)%Z)
    by (apply Z.mod_pos_bound; lia).
  destruct (at_index_dial _ Hmod) as (pos & Hpos & Hin).
  assert (Hrot : rotateDial device dir
                 = Returned (Fluke117Panel.setState device (turnTo pos))).
  { unfold Fluke117Panel.rotateDial. cbv zeta.
    change (Z.of_nat (List.length DIAL_POSITIONS)) with 9%Z.
    rewrite Z.rem_mod_nonneg by lia. now rewrite Hpos. }
  assert (Hrotated : rotated dir device
                     = SimulatorContext.with_state device
                         (SimulatorContext.mergeState (state device) (turnTo pos))).
  { unfold rotated. rewrite Hrot. unfold Fluke117Panel.setState, updated.
    now rewrite Z.eqb_refl. }
  exists pos. repeat (split; [assumption|]).
  rewrite Hrotated. now apply dialIdx_turned.
Qed.

Lemma mode_turned (device : component num) (pos : Fluke117Panel.position) :
  mode (state (SimulatorContext.with_state device
                 (SimulatorContext.mergeState (state device) (turnTo pos))))
  = Some (Fluke117Panel.key pos).
Proof. reflexivity. Qed.

Lemma iter_rotated (device : component num) (n : nat) :
  dialIdx (Nat.iter n (rotated 1) device) = ((dialIdx device + Z.of_nat n) mod 9)%Z.
Proof.
  induction n as [|n IH].
  - cbn [Nat.iter]. rewrite Z.add_0_r. symmetry. apply Z.mod_small, dialIdx_range.
  - change (Nat.iter (S n) (rotated 1) device)
      with (rotated 1 (Nat.iter n (rotated 1) device)).
    destruct (rotated_spec (Nat.iter n (rotated 1) device) 1 ltac:(lia))
      as (pos & _ & _ & _ & _ & Hidx).
    rewrite Hidx, IH.
    replace ((dialIdx device + Z.of_nat n) mod 9 + 1 + 9)%Z
      with ((dialIdx device + Z.of_nat n) mod 9 + 10)%Z by lia.
    rewrite Zplus_mod_idemp_l.
    replace (dialIdx device + Z.of_nat n + 10)%Z
      with (dialIdx device + Z.of_nat (S n) + 1 * 9)%Z by lia.
    now rewrite Z.mod_add by lia.
Qed.

Lemma iter_mode (device : component num) (n : nat) :
  mode (state (Nat.iter (S n) (rotated 1) device))
  = option_map Fluke117Panel.key
      (at_index DIAL_POSITIONS ((dialIdx device + Z.of_nat (S n)) mod 9)).
Proof.
  change (Nat.iter (S n) (rotated 1) device)
    with (rotated 1 (Nat.iter n (rotated 1) device)).
  destruct (rotated_spec (Nat.iter n (rotated 1) device) 1 ltac:(lia))
    as (pos & Hp & _ & _ & Hrp & _).
  rewrite Hrp, mode_turned. rewrite iter_rotated in Hp.
  replace ((dialIdx device + Z.of_nat n) mod 9 + 1 + 9)%Z
    with ((dialIdx device + Z.of_nat n) mod 9 + 10)%Z in Hp by lia.
  rewrite Zplus_mod_idemp_l in Hp.
  replace (dialIdx device + Z.of_nat n + 10)%Z
    with (dialIdx device + Z.of_nat (S n) + 1 * 9)%Z in Hp by lia.
  rewrite Z.mod_add in Hp by lia. now rewrite Hp.
Qed.

(** X18.  The dial of the Fluke 117 always stands on one of its nine
    positions: on the position of the device's mode, and on OFF when the
    mode is none of the dial's, so the knob's angle is always defined.  A
    turn by [dir >= -9] steps (the buttons turn by [1] and [-1]) never
    throws and sets the mode to the position [dir] steps further round the
    dial, the power to on exactly when that position is not OFF, the value
    to zero and the unit to the position's, leaving the rest of the
    component as it is; a turn forth and back, either way, and nine turns
    in one direction give back the mode the dial started from.  A turn far
    enough back to leave the dial throws, and a click on a label that is
    not on the dial does nothing. *)
Theorem fluke117_dial (device : component num) :
  (0 <= dialIdx device < 9)%Z
  /\ (exists pos, at_index DIAL_POSITIONS (dialIdx device) = Some pos
                  /\ Fluke117Panel.knobAngle device = Returned (Fluke117Panel.angle pos)
                  /\ (forall m, mode (state device) = Some m ->
                                In m (map Fluke117Panel.key DIAL_POSITIONS) ->
                                Fluke117Panel.key pos = m)
                  /\ ((forall m, mode (state device) = Some m ->
                                 ~ In m (map Fluke117Panel.key DIAL_POSITIONS)) ->
                      Fluke117Panel.key pos = "OFF"))
  /\ (forall dir, (-9 <= dir)%Z ->
        exists pos,
          at_index DIAL_POSITIONS ((dialIdx device + dir + 9) mod 9) = Some pos
          /\ rotateDial device dir = Returned (Fluke117Panel.setState device (turnTo pos))
          /\ mode (state (rotated dir device)) = Some (Fluke117Panel.key pos)
          /\ power (state (rotated dir device))
             = negb (String.eqb (Fluke117Panel.key pos) "OFF")
          /\ value (state (rotated dir device)) = lit 0
          /\ unit (state (rotated dir device)) = Fluke117Panel.punit pos
          /\ SimulatorContext.with_state (rotated dir device) (state device) = device)
  /\ (forall m, mode (state device) = Some m ->
                In m (map Fluke117Panel.key DIAL_POSITIONS) ->
                mode (state (rotated (-1) (rotated 1 device))) = Some m
                /\ mode (state (rotated 1 (rotated (-1) device))) = Some m
                /\ mode (state (Nat.iter 9 (rotated 1) device)) = Some m)
  /\ (forall dir, (dialIdx device + dir + 9 < 0)%Z ->
                  Z.rem (dialIdx device + dir + 9) 9 <> 0%Z ->
                  rotateDial device dir = TypeError)
  /\ (forall posKey, ~ In posKey (map Fluke117Panel.key DIAL_POSITIONS) ->
                     Fluke117Panel.handleLabelClick device posKey = None)
  /\ (forall pos, In pos DIAL_POSITIONS ->
                  Fluke117Panel.handleLabelClick device (Fluke117Panel.key pos)
                  = Some (Fluke117Panel.setState device (turnTo pos))).
Proof.
  pose proof (dialIdx_range device) as Hr.
  split; [exact Hr|]. split; [|split; [|split; [|split; [|split]]]].
  - destruct (at_index_dial _ Hr) as (pos & Hpos & _). exists pos.
    split; [assumption|]. split; [|split].
    + unfold Fluke117Panel.knobAngle. now rewrite Hpos.
    + intros m Hm Hin. pose proof (dialIdx_key device m Hm Hin) as Hk.
      rewrite Hpos in Hk. now injection Hk.
    + intros Hno. rewrite (dialIdx_other device Hno) in Hpos. now injection Hpos as <-.
  - intros dir Hdir.
    destruct (rotated_spec device dir Hdir) as (pos & Hpos & _ & Hrot & Hrotated & _).
    exists pos. rewrite Hrotated. repeat split; try assumption. now destruct device.
  - intros m Hm Hin.
    assert (Hback : forall d1 d2 : Z, (-9 <= d1)%Z -> (-9 <= d2)%Z ->
               (((dialIdx device + d1 + 9) mod 9 + d2 + 9) mod 9 = dialIdx device)%Z ->
               mode (state (rotated d2 (rotated d1 device))) = Some m).
    { intros d1 d2 H1 H2 Heq.
      destruct (rotated_spec device d1 H1) as (p1 & _ & _ & _ & _ & Hi1).
      destruct (rotated_spec (rotated d1 device) d2 H2) as (p2 & Hp2 & _ & _ & Hr2 & _).
      rewrite Hr2, mode_turned. rewrite Hi1, Heq in Hp2.
      pose proof (dialIdx_key device m Hm Hin) as Hk. rewrite Hp2 in Hk. exact Hk. }
    split; [|split].
    + apply (Hback 1 (-1))%Z; try lia.
      replace ((dialIdx device + 1 + 9) mod 9 + -1 + 9)%Z
        with ((dialIdx device + 1 + 9) mod 9 + 8)%Z by lia.
      rewrite Zplus_mod_idemp_l. replace (dialIdx device + 1 + 9 + 8)%Z
        with (dialIdx device + 2 * 9)%Z by lia.
      rewrite Z.mod_add by lia. now apply Z.mod_small.
    + apply (Hback (-1) 1)%Z; try lia.
      replace ((dialIdx device + -1 + 9) mod 9 + 1 + 9)%Z
        with ((dialIdx device + -1 + 9) mod 9 + 10)%Z by lia.
      rewrite Zplus_mod_idemp_l. replace (dialIdx device + -1 + 9 + 10)%Z
        with (dialIdx device + 2 * 9)%Z by lia.
      rewrite Z.mod_add by lia. now apply Z.mod_small.
    + rewrite (iter_mode device 8). change (Z.of_nat 9) with 9%Z.
      replace (dialIdx device + 9)%Z with (dialIdx device + 1 * 9)%Z by lia.
      rewrite Z.mod_add, Z.mod_small by lia.
      exact (dialIdx_key device m Hm Hin).
  - intros dir Hneg Hrem. unfold Fluke117Panel.rotateDial. cbv zeta.
    change (Z.of_nat (List.length DIAL_POSITIONS)) with 9%Z.
    assert (Hlt : (Z.rem (dialIdx device + dir + 9) 9 < 0)%Z).
    { pose proof (Z.rem_nonpos (dialIdx device + dir + 9) 9 ltac:(lia) ltac:(lia)). lia. }
    unfold at_index. apply Z.ltb_lt in Hlt. now rewrite Hlt.
  - intros posKey Hno. unfold Fluke117Panel.handleLabelClick.
    destruct (find _ DIAL_POSITIONS) as [pos|] eqn:Hfind; [|reflexivity].
    apply find_some in Hfind as [Hin Hk]. apply String.eqb_eq in Hk.
    exfalso. apply Hno. rewrite <- Hk. now apply in_map.
  - intros pos Hin. unfold Fluke117Panel.handleLabelClick.
    cbn [DIAL_POSITIONS Fluke117Panel.DIAL_POSITIONS In] in Hin.
    repeat (destruct Hin as [<- | Hin]; [reflexivity|]). destruct Hin.
Qed.

End PanelProofs.

Section AuxProofs.
Context {num : Type} `{JSNumber num}.
Variable DEVICES : list (deviceConfig num).
Variable random : nat -> num.

Local Abbreviation perform := (Provider.perform DEVICES random).
Local Abbreviation performAll := (Provider.performAll DEVICES random).

(** *** Wires into a panel *)

Lemma perform_onTerminals (polarities : list string) (d : Z) (st : simState num)
      (c : Provider.call) (k : nat) :
  onTerminals polarities d c = true ->
  Forall (fun w => to w = d -> In (polarity w) ("hi" :: polarities)) (connections st) ->
  Forall (fun w => to w = d -> In (polarity w) ("hi" :: polarities))
         (connections (fst (perform st c k))).
Proof.
  intros Hon Hall.
  rewrite (perform_connections DEVICES random st c k).
  destruct c as [ty px py | rid | cid px py | cid patch | aty title msg | aid | f t pol
                 | index | point | | | cs conns | | errorType | index];
    try discriminate; try assumption.
  - rewrite Forall_forall in *. intros w Hin. apply filter_In in Hin as [Hin _]. auto.
  - destruct (valid _); [|assumption].
    apply Forall_app. split; [assumption|]. constructor; [|constructor].
    cbn [to polarity newWire]. intros ->.
    cbn [onTerminals] in Hon. rewrite Z.eqb_refl in Hon. cbn [negb orb] in Hon.
    apply includes_In in Hon.
    destruct pol; [now left | now right].
  - rewrite Forall_forall in *. intros w Hin. apply filteri_from_In in Hin. auto.
  - constructor.
  - rewrite Forall_forall in *. intros w' Hin.
    apply In_mapi_from in Hin as (w & j & Hin & ->).
    destruct (j =? index)%nat; [cbn [to polarity toggled SimulatorContext.with_wireProperties]|];
      auto.
Qed.

Lemma performAll_onTerminals (polarities : list string) (d : Z) (calls : list Provider.call) :
  forall (st : simState num) (k : nat),
    forallb (onTerminals polarities d) calls = true ->
    Forall (fun w => to w = d -> In (polarity w) ("hi" :: polarities)) (connections st) ->
    Forall (fun w => to w = d -> In (polarity w) ("hi" :: polarities))
           (connections (fst (performAll st calls k))).
Proof.
  induction calls as [|c calls IH]; intros st k Hon Hall; [exact Hall|].
  cbn [forallb] in Hon. apply andb_true_iff in Hon as [Hc Hrest].
  cbn [Provider.performAll]. unfold bind.
  pose proof (perform_onTerminals polarities d st c k Hc Hall) as Hall'.
  destruct (perform st c k) as [st' k']. now apply IH.
Qed.


End AuxProofs.

(** *** Loading error on current, and on the other modes *)

Lemma canonical_ohms_Q (w : connection Q) :
  canonicalWire w ->
  wireOhms w = (if isStandardWire w then 0.05 else 5)
  /\ (isStandardWire w = true \/ isStandardWire w = false).
Proof.
  intros [Hw | Hw]; unfold wireOhms, isStandardWire; cbn [wireResistanceOf];
    rewrite Hw; split; try reflexivity; auto.
Qed.

(** X20.  With the loading-error flag on, a calibrator in a current mode
    and switched to operate is read by the multimeter at 0.9995 times its
    programmed value when the two wires read through count for more than
    one ohm together, and at its programmed value otherwise; the Fluke 117
    reads it at its programmed value in either case.  In a mode that is
    neither a voltage, a resistance nor a current both devices read the
    programmed value.  On wires of the two kinds the store makes, the
    multimeter's reading of a current is lowered exactly when one of the two
    wires is a bad one. *)
Theorem current_loading_error :
  (forall (num : Type) (JS : JSNumber num)
          (connections : list (connection num)) (components : list (component num))
          (device : component num) (es : errorFlags)
          (hiWire loWire : connection num) (isAux : bool) (source : component num)
          (m : string),
      terminalWires connections (id device) hiWire loWire isAux ->
      find (fun c => (id c =? from hiWire)%Z) components = Some source ->
      power (state source) = true ->
      output (state source) = true ->
      isFlukeCalibrator (type source) = true ->
      mode (state source) = Some m ->
      loadingError es = true ->
      str_includes "Voltage" m = false ->
      m <> "Resistance" ->
      exists cv cv',
        Multimeter.getConnectedValue connections components device es = Returned (Some cv)
        /\ Fluke117.getConnectedValue connections components device es = Some cv'
        /\ cv_value cv
           = (if str_includes "Current" m
                 && (wireOhms hiWire + wireOhms loWire >? lit 1)%num
              then (value (state source) * lit 0.9995)%num
              else value (state source))
        /\ cv_value cv' = value (state source))
  /\ (forall hiWire loWire : connection Q,
         canonicalWire hiWire -> canonicalWire loWire ->
         (wireOhms hiWire + wireOhms loWire >? lit 1)%num
         = negb (isStandardWire hiWire && isStandardWire loWire)).
Proof.
  split.
  - intros num JS connections components device es hiWire loWire isAux source m
           Hw Hfind Hpow Hout Hcal Hmode Hflag Hvolt Hres.
    rewrite (multimeter_reading connections components device es
               hiWire loWire isAux source Hw Hfind Hpow Hout Hcal m Hmode).
    rewrite (fluke117_reading connections components device es
               hiWire loWire isAux source Hw Hfind Hpow Hout Hcal).
    apply String.eqb_neq in Hres.
    eexists. eexists. split; [reflexivity|]. split; [reflexivity|].
    cbn [cv_value]. rewrite Hflag, Hmode, Hvolt. cbn [str_is]. rewrite Hres.
    split; [|reflexivity].
    destruct (str_includes "Current" m); [|reflexivity].
    now destruct (_ >? _)%num.
  - intros hiWire loWire Hh Hl.
    destruct (canonical_ohms_Q hiWire Hh) as [-> _].
    destruct (canonical_ohms_Q loWire Hl) as [-> _].
    destruct (isStandardWire hiWire), (isStandardWire loWire); reflexivity.
Qed.

(** *** The tolerance of a reading *)

Section ToleranceProofs.
Context {num : Type} `{JSNumber num}.

Lemma mapped_nonempty (table : list (string * string)) (m : string) :
  Forall (fun kv => snd kv <> "") table ->
  match lookup table m with Some mm => mm | None => "DC V" end <> "".
Proof.
  induction 1 as [|[k v] table Hkv Hall IH]; cbn [lookup]; [discriminate|].
  destruct (String.eqb k m); [exact Hkv | exact IH].
Qed.

Lemma multimeter_mapping_nonempty : Forall (fun kv => snd kv <> "") Multimeter.modeMapping.
Proof. repeat constructor; discriminate. Qed.

Lemma fluke117_mapping_nonempty : Forall (fun kv => snd kv <> "") Fluke117.MODE_MAPPING.
Proof. repeat constructor; discriminate. Qed.

Lemma multimeter_reading_mode (connections : list (connection num))
      (components : list (component num)) (device : component num) (es : errorFlags)
      (cv : connectedValue num) (m : string) :
  Multimeter.getConnectedValue connections components device es = Returned (Some cv) ->
  cv_mode cv = Some m ->
  cv_active cv = true
  /\ cv_mappedMode cv
     = Some match lookup Multimeter.modeMapping m with Some mm => mm | None => "DC V" end.
Proof.
  unfold Multimeter.getConnectedValue. cbv zeta.
  destruct (match sameSource _ _ with Some _ => _ | None => _ end) as [[sid isAux]|];
    [|discriminate].
  destruct (find _ components) as [source|]; [|discriminate].
  destruct (negb (power (state source))); [discriminate|].
  destruct (if loadingError es && output (state source) then _ else _); [|discriminate].
  destruct ((String.eqb (type source) "fluke5500a" || String.eqb (type source) "fluke5522a")
            && output (state source)).
  - intros [= <-]. cbn [cv_mode cv_active cv_mappedMode]. now intros ->.
  - destruct (String.eqb (type source) "sma100a" && rfOn (state source)); [|discriminate].
    intros [= <-]. discriminate.
Qed.

Lemma fluke117_reading_mode (connections : list (connection num))
      (components : list (component num)) (device : component num) (es : errorFlags)
      (cv : connectedValue num) :
  Fluke117.getConnectedValue connections components device es = Some cv ->
  cv_active cv = true
  /\ cv_mappedMode cv
     = Some match cv_mode cv with
            | Some m => match lookup Fluke117.MODE_MAPPING m with
                        | Some mm => mm
                        | None => "DC V"
                        end
            | None => "DC V"
            end.
Proof.
  unfold Fluke117.getConnectedValue. cbv zeta.
  destruct (match sameSource _ _ with Some _ => _ | None => _ end) as [[sid isAux]|];
    [|discriminate].
  destruct (find _ components) as [source|]; [|discriminate].
  destruct (negb (power (state source))); [discriminate|].
  destruct ((String.eqb (type source) "fluke5500a" || String.eqb (type source) "fluke5522a")
            && output (state source)); [|discriminate].
  intros [= <-]. cbn [cv_mode cv_active cv_mappedMode]. auto.
Qed.


End ToleranceProofs.

(** *** The devices' own scheduler *)


(** *** The Keysight U3606 *)

Section U3606AProofs.
Context {num : Type} `{JSNumber num}.

Lemma u3606a_position (i : Z) :
  (0 <= i <= 9)%Z ->
  exists pos, at_index U3606A.DIAL_POSITIONS i = Some pos
              /\ (i =? 0)%Z = String.eqb (U3606A.pid pos) "OFF".
Proof.
  intros Hi. unfold at_index.
  destruct (i <? 0)%Z eqn:E; [apply Z.ltb_lt in E; lia|].
  assert (Hn : exists n, i = Z.of_nat n /\ (n < 10)%nat)
    by (exists (Z.to_nat i); lia).
  destruct Hn as (n & -> & Hn). rewrite Nat2Z.id.
  do 10 (destruct n as [|n]; [eexists; split; reflexivity|]). lia.
Qed.

Lemma u3606a_rotate (device : component num) (dialIndex : Z) (direction : string) :
  (0 <= dialIndex <= 9)%Z ->
  let newIndex := if String.eqb direction "cw"
                  then Z.min (dialIndex + 1) 9 else Z.max (dialIndex - 1) 0 in
  (0 <= newIndex <= 9)%Z
  /\ exists pos,
       at_index U3606A.DIAL_POSITIONS newIndex = Some pos
       /\ U3606A.rotateDial device dialIndex direction
          = Returned (newIndex,
                      U3606A.setState device
                        {| p_power := Some (negb (String.eqb (U3606A.pid pos) "OFF"));
                           p_output := None; p_rfOn := None;
                           p_mode := Some (Some (U3606A.pid pos));
                           p_value := Some (lit 0);
                           p_unit := Some (U3606A.punit pos);
                           p_frequency := None; p_level := None;
                           p_complianceStatus := None |}).
Proof.
  intros Hi. cbv zeta.
  set (newIndex := if String.eqb direction "cw"
                   then Z.min (dialIndex + 1) 9 else Z.max (dialIndex - 1) 0).
  assert (Hnew : (0 <= newIndex <= 9)%Z) by (subst newIndex; destruct (String.eqb _ _); lia).
  split; [exact Hnew|].
  destruct (u3606a_position newIndex Hnew) as (pos & Hpos & Hoff).
  exists pos. split; [exact Hpos|].
  unfold U3606A.rotateDial. cbv zeta.
  change (Z.of_nat (List.length U3606A.DIAL_POSITIONS) - 1)%Z with 9%Z.
  fold newIndex. now rewrite Hpos, Hoff.
Qed.

(** X23.  The U3606's dial does not wrap: a turn clockwise moves it one
    position up and stops at the last, any other turn moves it one position
    down and stops at OFF.  Started on one of its ten positions (it starts on
    the second) it stays on one of them after any sequence of turns, so that
    no turn throws; each turn sets the mode and the unit to the new
    position's, the value to zero, and the power to on exactly when the new
    position is not OFF.  A turn forth and back gives back the position
    except at the two ends. *)
Theorem u3606a_dial (device : component num) (dialIndex : Z) (directions : list string) :
  (0 <= dialIndex <= 9)%Z ->
  (exists final,
      U3606A.turns device dialIndex directions = Returned final /\ (0 <= final <= 9)%Z)
  /\ (forall direction,
         exists pos,
           at_index U3606A.DIAL_POSITIONS
             (if String.eqb direction "cw"
              then Z.min (dialIndex + 1) 9 else Z.max (dialIndex - 1) 0) = Some pos
           /\ U3606A.rotateDial device dialIndex direction
              = Returned (if String.eqb direction "cw"
                          then Z.min (dialIndex + 1) 9 else Z.max (dialIndex - 1) 0,
                          U3606A.setState device
                            {| p_power := Some (negb (String.eqb (U3606A.pid pos) "OFF"));
                               p_output := None; p_rfOn := None;
                               p_mode := Some (Some (U3606A.pid pos));
                               p_value := Some (lit 0);
                               p_unit := Some (U3606A.punit pos);
                               p_frequency := None; p_level := None;
                               p_complianceStatus := None |}))
  /\ U3606A.turns device dialIndex ["cw"; "ccw"]
     = Returned (if (dialIndex =? 9)%Z then 8%Z else dialIndex)
  /\ U3606A.turns device dialIndex ["ccw"; "cw"]
     = Returned (if (dialIndex =? 0)%Z then 1%Z else dialIndex).
Proof.
  intros Hi.
  assert (Hturns : forall ds i, (0 <= i <= 9)%Z ->
             exists final, U3606A.turns device i ds = Returned final /\ (0 <= final <= 9)%Z).
  { induction ds as [|d ds IH]; intros i Hr.
    - exists i. split; [reflexivity | assumption].
    - cbn [U3606A.turns].
      destruct (u3606a_rotate device i d Hr) as (Hnew & pos & _ & ->).
      now apply IH. }
  assert (Htwo : forall d1 d2,
             U3606A.turns device dialIndex [d1; d2]
             = Returned (let i1 := if String.eqb d1 "cw"
                                   then Z.min (dialIndex + 1) 9 else Z.max (dialIndex - 1) 0 in
                         if String.eqb d2 "cw" then Z.min (i1 + 1) 9 else Z.max (i1 - 1) 0)).
  { intros d1 d2. cbn [U3606A.turns].
    destruct (u3606a_rotate device dialIndex d1 Hi) as (Hnew & pos & _ & ->).
    destruct (u3606a_rotate device _ d2 Hnew) as (_ & pos' & _ & ->). reflexivity. }
  split; [now apply Hturns|]. split; [|split].
  - intros direction. destruct (u3606a_rotate device dialIndex direction Hi)
      as (_ & pos & Hpos & Hrot). now exists pos.
  - rewrite Htwo. cbn [String.eqb Ascii.eqb Bool.eqb]. cbv zeta. f_equal.
    destruct (dialIndex =? 9)%Z eqn:E; [apply Z.eqb_eq in E | apply Z.eqb_neq in E]; lia.
  - rewrite Htwo. cbn [String.eqb Ascii.eqb Bool.eqb]. cbv zeta. f_equal.
    destruct (dialIndex =? 0)%Z eqn:E; [apply Z.eqb_eq in E | apply Z.eqb_neq in E]; lia.
Qed.

(** X24.  The U3606 resolves its circuit as the multimeter does but reads
    the source in its own way: it knows no loading error, so a reading it
    reports is always the programmed value of a Fluke 5500A switched to
    operate (in "A" through the AUX pair) or the level of an SMA100A with RF
    on.  With the loading-error flag off the multimeter reports the same
    value and unit wherever the U3606 reports one; and where the multimeter
    reports a reading and the U3606 none, the source is a Fluke 5522A, which
    the U3606 does not read. *)
Theorem u3606a_reading
    (connections : list (connection num)) (components : list (component num))
    (device : component num) (es : errorFlags) :
  (forall r,
      U3606A.getConnectedValue connections components device = Some r ->
      cv_active r = true
      /\ exists hiWire loWire isAux source,
           terminalWires connections (id device) hiWire loWire isAux
           /\ find (fun c => (id c =? from hiWire)%Z) components = Some source
           /\ power (state source) = true
           /\ ((type source = "fluke5500a" /\ output (state source) = true
                /\ cv_value r = value (state source)
                /\ cv_unit r = (if isAux then "A" else unit (state source)))
               \/ (type source = "sma100a" /\ rfOn (state source) = true
                   /\ cv_value r = level (state source) /\ cv_unit r = "dBm")))
  /\ (loadingError es = false ->
      forall r,
        U3606A.getConnectedValue connections components device = Some r ->
        exists cv,
          Multimeter.getConnectedValue connections components device es = Returned (Some cv)
          /\ cv_value cv = cv_value r /\ cv_unit cv = cv_unit r)
  /\ (forall cv,
        Multimeter.getConnectedValue connections components device es = Returned (Some cv) ->
        U3606A.getConnectedValue connections components device = None ->
        exists source,
          In source components /\ type source = "fluke5522a"
          /\ output (state source) = true).
Proof.
  split; [|split].
  - intros r. unfold U3606A.getConnectedValue. cbv zeta.
    pose proof (selected_terminalWires connections device) as Hsel.
    destruct (match sameSource _ _ with Some _ => _ | None => _ end) as [[sid isAux]|];
      [|discriminate].
    destruct (Hsel sid isAux eq_refl) as (h & l & Hw & -> & _). clear Hsel.
    destruct (find _ components) as [source|] eqn:Hfind; [|discriminate].
    destruct (power (state source)) eqn:Hpow; [|discriminate]. cbn [negb].
    destruct (String.eqb (type source) "fluke5500a") eqn:Hfl; cbn [andb].
    + apply String.eqb_eq in Hfl. destruct (output (state source)) eqn:Hout.
      * intros [= <-]. split; [reflexivity|]. exists h, l, isAux, source. auto 10.
      * rewrite Hfl. cbn. discriminate.
    + destruct (String.eqb (type source) "sma100a") eqn:Hsma; cbn [andb]; [|discriminate].
      apply String.eqb_eq in Hsma. destruct (rfOn (state source)) eqn:Hrf; [|discriminate].
      intros [= <-]. split; [reflexivity|]. exists h, l, isAux, source.
      split; [assumption|]. split; [assumption|]. split; [assumption|]. right. auto.
  - intros Hoff r. unfold U3606A.getConnectedValue, Multimeter.getConnectedValue. cbv zeta.
    destruct (match sameSource _ _ with Some _ => _ | None => _ end) as [[sid isAux]|];
      [|discriminate].
    destruct (find _ components) as [source|]; [|discriminate].
    destruct (negb (power (state source))); [discriminate|].
    rewrite Hoff. cbn [andb].
    destruct (String.eqb (type source) "fluke5500a") eqn:Hfl; cbn [andb orb].
    + destruct (output (state source)).
      * intros [= <-]. eexists. split; [reflexivity|]. split; reflexivity.
      * apply String.eqb_eq in Hfl. rewrite Hfl. cbn. discriminate.
    + destruct (String.eqb (type source) "sma100a") eqn:Hsma; cbn [andb]; [|discriminate].
      apply String.eqb_eq in Hsma. rewrite Hsma. cbn [String.eqb Ascii.eqb Bool.eqb andb].
      destruct (rfOn (state source)); [|discriminate].
      intros [= <-]. eexists. split; [reflexivity|]. split; reflexivity.
  - intros cv. unfold U3606A.getConnectedValue, Multimeter.getConnectedValue. cbv zeta.
    destruct (match sameSource _ _ with Some _ => _ | None => _ end) as [[sid isAux]|];
      [|discriminate].
    destruct (find _ components) as [source|] eqn:Hfind; [|discriminate].
    apply find_some in Hfind as [Hin _].
    destruct (negb (power (state source))); [discriminate|].
    destruct (if loadingError es && output (state source) then _ else _); [|discriminate].
    destruct (String.eqb (type source) "fluke5500a") eqn:Hfl; cbn [andb orb].
    + destruct (output (state source)); [discriminate|].
      apply String.eqb_eq in Hfl. rewrite Hfl. cbn. discriminate.
    + destruct (String.eqb (type source) "fluke5522a") eqn:H22; cbn [andb].
      * apply String.eqb_eq in H22. destruct (output (state source)) eqn:Hout.
        -- intros _ _. exists source. auto.
        -- rewrite H22. cbn. discriminate.
      * destruct (String.eqb (type source) "sma100a" && rfOn (state source));
          discriminate.
Qed.

End U3606AProofs.

(** X25.  The U3606 looks its tolerance up under the id of the dial
    position, while its package lists the tolerances under its own keys:
    only DCV, ACV and FREQ are both, so on every other position, the current
    and resistance positions among them, the tolerance is the fallback of
    0.01, and the entries DCA, ACA and OHM of the package are never read.
    On a dial index off the dial the lookup throws. *)
Theorem u3606a_tolerance (dialIndex : Z) :
  ((0 <= dialIndex <= 9)%Z ->
   exists pos,
     at_index U3606A.DIAL_POSITIONS dialIndex = Some pos
     /\ U3606A.tolerance (num := Q) u3606aConfig dialIndex
        = Returned (if String.eqb (U3606A.pid pos) "DCV" then 0.0035
                    else if String.eqb (U3606A.pid pos) "ACV" then 0.06
                    else if String.eqb (U3606A.pid pos) "FREQ" then 0.005
                    else 0.01)
     /\ ~ In (U3606A.pid pos) ["DCA"; "ACA"; "OHM"])
  /\ ((dialIndex < 0 \/ 9 < dialIndex)%Z ->
      U3606A.tolerance (num := Q) u3606aConfig dialIndex = TypeError).
Proof.
  split.
  - intros Hi. unfold U3606A.tolerance, U3606A.currentPos, at_index.
    destruct (dialIndex <? 0)%Z eqn:E; [apply Z.ltb_lt in E; lia|].
    assert (Hn : (Z.to_nat dialIndex < 10)%nat) by lia.
    revert Hn. generalize (Z.to_nat dialIndex) as n. intros n Hn.
    do 10 (destruct n as [|n];
           [eexists; split; [reflexivity|]; split;
            [reflexivity | cbn; intuition discriminate]|]).
    lia.
  - intros Hout. unfold U3606A.tolerance, U3606A.currentPos, at_index.
    destruct (dialIndex <? 0)%Z eqn:E; [reflexivity|]. apply Z.ltb_ge in E.
    destruct (nth_error U3606A.DIAL_POSITIONS (Z.to_nat dialIndex)) eqn:Hn; [|reflexivity].
    assert (Hlt : (Z.to_nat dialIndex < 10)%nat).
    { apply (nth_error_Some U3606A.DIAL_POSITIONS). now rewrite Hn. }
    lia.
Qed.

(** *** The clamp meter *)

Section ClampMeterProofs.
Context {num : Type} `{JSNumber num}.
Variable connections : list (connection num).
Variable components : list (component num).
Variable device : component num.

Local Abbreviation getConnectedValue :=
  (ClampMeter.getConnectedValue connections components device).

Lemma clamp_position (i : Z) :
  (0 <= i <= 11)%Z -> exists pos, at_index ClampMeter.DIAL_POSITIONS i = Some pos.
Proof.
  intros Hi. unfold at_index.
  destruct (i <? 0)%Z eqn:E; [apply Z.ltb_lt in E; lia|].
  destruct (nth_error ClampMeter.DIAL_POSITIONS (Z.to_nat i)) as [pos|] eqn:Hn;
    [now exists pos|].
  apply nth_error_None in Hn.
  cbn [List.length ClampMeter.DIAL_POSITIONS] in Hn. lia.
Qed.

Lemma clamp_no_position (i : Z) :
  (i < 0 \/ 11 < i)%Z -> at_index ClampMeter.DIAL_POSITIONS i = None.
Proof.
  intros Hi. unfold at_index.
  destruct (i <? 0)%Z eqn:E; [reflexivity|]. apply Z.ltb_ge in E.
  apply nth_error_None. cbn [List.length ClampMeter.DIAL_POSITIONS]. lia.
Qed.

(** The reading through the probes, which does not look at the dial *)
Lemma clamp_unclamped (i : Z) (pos : ClampMeter.position) :
  at_index ClampMeter.DIAL_POSITIONS i = Some pos ->
  findWire connections (id device) "clamp" = None
  \/ (str_is (ClampMeter.ptype pos) "clamp" || str_is (ClampMeter.ptype pos) "iflex") = false ->
  getConnectedValue i
  = match sameSource (findWire connections (id device) "hi")
                     (findWire connections (id device) "lo") with
    | Some sourceId =>
        match find (fun c => (id c =? sourceId)%Z) components with
        | Some source =>
            if power (state source)
               && (String.eqb (type source) "fluke5500a" && output (state source))
            then Returned (Some {| cv_value := value (state source);
                                   cv_unit := unit (state source);
                                   cv_mode := None; cv_mappedMode := None;
                                   cv_frequency := None; cv_active := true;
                                   cv_wireResistance := None |})
            else Returned None
        | None => Returned None
        end
    | None => Returned None
    end.
Proof.
  intros Hpos Hno. unfold ClampMeter.getConnectedValue, ClampMeter.currentPosition.
  rewrite Hpos. cbv zeta.
  destruct Hno as [-> | ->].
  - now destruct (str_is _ "clamp" || str_is _ "iflex").
  - reflexivity.
Qed.

(** X26.  On a dial index on its dial the clamp meter's resolver never
    throws; off the dial it does.  A reading it reports is marked active and
    comes from a source that is powered and switched to operate: either
    through the clamp, on a current or iFlex position, from the source of
    the first clamp wire into the meter, in "A" and with a falsy value read
    as zero, whatever the type of the source; or through the probes, from a
    Fluke 5500A at the far end of both the HI and the LO wire, at its
    programmed value and unit.  The clamp has precedence on the positions
    that use it; without a clamp wire into the meter the reading is the
    same on every position of the dial. *)
Theorem clamp_meter_reading (dialIndex : Z) :
  ((0 <= dialIndex <= 11)%Z -> exists r, getConnectedValue dialIndex = Returned r)
  /\ ((dialIndex < 0 \/ 11 < dialIndex)%Z -> getConnectedValue dialIndex = TypeError)
  /\ (forall cv,
         getConnectedValue dialIndex = Returned (Some cv) ->
         cv_active cv = true
         /\ exists source,
              In source components
              /\ power (state source) = true /\ output (state source) = true
              /\ ((exists pos clampConn,
                      at_index ClampMeter.DIAL_POSITIONS dialIndex = Some pos
                      /\ (ClampMeter.ptype pos = Some "clamp"
                          \/ ClampMeter.ptype pos = Some "iflex")
                      /\ findWire connections (id device) "clamp" = Some clampConn
                      /\ id source = from clampConn
                      /\ cv_value cv = num_or (Some (value (state source))) (lit 0)
                      /\ cv_unit cv = "A")
                  \/ (exists hiWire loWire,
                         completePair connections (id device) "hi" "lo" hiWire loWire
                         /\ id source = from hiWire
                         /\ type source = "fluke5500a"
                         /\ cv_value cv = value (state source)
                         /\ cv_unit cv = unit (state source))))
  /\ (forall pos clampConn source,
         at_index ClampMeter.DIAL_POSITIONS dialIndex = Some pos ->
         ClampMeter.ptype pos = Some "clamp" \/ ClampMeter.ptype pos = Some "iflex" ->
         findWire connections (id device) "clamp" = Some clampConn ->
         find (fun c => (id c =? from clampConn)%Z) components = Some source ->
         power (state source) = true -> output (state source) = true ->
         exists cv,
           getConnectedValue dialIndex = Returned (Some cv)
           /\ cv_value cv = num_or (Some (value (state source))) (lit 0)
           /\ cv_unit cv = "A")
  /\ (findWire connections (id device) "clamp" = None ->
      forall other,
        (0 <= dialIndex <= 11)%Z -> (0 <= other <= 11)%Z ->
        getConnectedValue other = getConnectedValue dialIndex).
Proof.
  assert (Hprobe : forall cv,
             match sameSource (findWire connections (id device) "hi")
                              (findWire connections (id device) "lo") with
             | Some sourceId =>
                 match find (fun c => (id c =? sourceId)%Z) components with
                 | Some source =>
                     if power (state source)
                        && (String.eqb (type source) "fluke5500a" && output (state source))
                     then Returned (Some {| cv_value := value (state source);
                                            cv_unit := unit (state source);
                                            cv_mode := None; cv_mappedMode := None;
                                            cv_frequency := None; cv_active := true;
                                            cv_wireResistance := None |})
                     else Returned None
                 | None => Returned None
                 end
             | None => Returned None
             end = Returned (Some cv) ->
             cv_active cv = true
             /\ exists source,
                  In source components
                  /\ power (state source) = true /\ output (state source) = true
                  /\ exists hiWire loWire,
                       completePair connections (id device) "hi" "lo" hiWire loWire
                       /\ id source = from hiWire
                       /\ type source = "fluke5500a"
                       /\ cv_value cv = value (state source)
                       /\ cv_unit cv = unit (state source)).
  { intros cv.
    destruct (sameSource _ _) as [sid|] eqn:Hsame; [|discriminate].
    apply sameSource_Some in Hsame as (h & l & Hpair & ->).
    destruct (find _ components) as [source|] eqn:Hfind; [|discriminate].
    apply find_some in Hfind as [Hin Hid]. apply Z.eqb_eq in Hid.
    destruct (power (state source)) eqn:Hpow; [|discriminate].
    destruct (String.eqb (type source) "fluke5500a") eqn:Hty; [|discriminate].
    destruct (output (state source)) eqn:Hout; [|discriminate].
    apply String.eqb_eq in Hty. cbn [andb]. intros [= <-].
    split; [reflexivity|]. exists source. repeat (split; [assumption|]).
    exists h, l. auto. }
  split; [|split; [|split; [|split]]].
  - intros Hi. destruct (clamp_position dialIndex Hi) as (pos & Hpos).
    unfold ClampMeter.getConnectedValue, ClampMeter.currentPosition. rewrite Hpos. cbv zeta.
    destruct (if str_is _ "clamp" || str_is _ "iflex" then _ else _); [eauto|].
    destruct (sameSource _ _); [|eauto].
    destruct (find _ components) as [source|]; [|eauto].
    destruct (power (state source) && _); eauto.
  - intros Hout. unfold ClampMeter.getConnectedValue, ClampMeter.currentPosition.
    now rewrite (clamp_no_position dialIndex Hout).
  - intros cv. unfold ClampMeter.getConnectedValue, ClampMeter.currentPosition.
    destruct (at_index ClampMeter.DIAL_POSITIONS dialIndex) as [pos|] eqn:Hpos;
      [|discriminate].
    cbv zeta.
    destruct (str_is (ClampMeter.ptype pos) "clamp" || str_is (ClampMeter.ptype pos) "iflex")
      eqn:Hkind.
    + destruct (findWire connections (id device) "clamp") as [w|] eqn:Hw.
      * destruct (find (fun c => (id c =? from w)%Z) components) as [source|] eqn:Hfind.
        -- destruct (power (state source)) eqn:Hpow; cbn [andb].
           ++ destruct (output (state source)) eqn:Hout.
              ** intros [= <-]. split; [reflexivity|].
                 apply find_some in Hfind as [Hin Hid]. apply Z.eqb_eq in Hid.
                 exists source. repeat (split; [assumption|]). left.
                 exists pos, w. split; [reflexivity|]. split.
                 { apply orb_true_iff in Hkind.
                   destruct (ClampMeter.ptype pos) as [ty|]; [|destruct Hkind; discriminate].
                   cbn [str_is] in Hkind.
                   destruct Hkind as [Hk | Hk]; apply String.eqb_eq in Hk; subst; auto. }
                 auto.
              ** intros Hcv. destruct (Hprobe cv Hcv) as (Hact & s & Hin & Hp & Ho & Hrest).
                 split; [assumption|]. exists s. auto 10.
           ++ intros Hcv. destruct (Hprobe cv Hcv) as (Hact & s & Hin & Hp & Ho & Hrest).
              split; [assumption|]. exists s. auto 10.
        -- intros Hcv. destruct (Hprobe cv Hcv) as (Hact & s & Hin & Hp & Ho & Hrest).
           split; [assumption|]. exists s. auto 10.
      * intros Hcv. destruct (Hprobe cv Hcv) as (Hact & s & Hin & Hp & Ho & Hrest).
        split; [assumption|]. exists s. auto 10.
    + intros Hcv. destruct (Hprobe cv Hcv) as (Hact & s & Hin & Hp & Ho & Hrest).
      split; [assumption|]. exists s. auto 10.
  - intros pos w source Hpos Hkind Hw Hfind Hpow Hout.
    unfold ClampMeter.getConnectedValue, ClampMeter.currentPosition. rewrite Hpos. cbv zeta.
    assert (Hk : str_is (ClampMeter.ptype pos) "clamp"
                 || str_is (ClampMeter.ptype pos) "iflex" = true)
      by (destruct Hkind as [-> | ->]; reflexivity).
    rewrite Hk, Hw, Hfind, Hpow, Hout. cbn [andb].
    eexists. split; [reflexivity|]. split; reflexivity.
  - intros Hno other Hi Ho.
    destruct (clamp_position dialIndex Hi) as (pos & Hpos).
    destruct (clamp_position other Ho) as (pos' & Hpos').
    rewrite (clamp_unclamped dialIndex pos Hpos (or_introl Hno)).
    now rewrite (clamp_unclamped other pos' Hpos' (or_introl Hno)).
Qed.

End ClampMeterProofs.

(** *** Wires made on the panels *)

Section PanelWiringProofs.
Context {num : Type} `{JSNumber num}.
Variable DEVICES : list (deviceConfig num).
Variable random : nat -> num.

Local Abbreviation perform := (Provider.perform DEVICES random).
Local Abbreviation handleClick := (ConnectionPoint.handleClick DEVICES random).
Local Abbreviation clickAll := (ConnectionPoint.clickAll DEVICES random).

(** The pending connection after a call of a device or of the page *)
Lemma perform_startPoint (st : simState num) (c : Provider.call) (k : nat) :
  isDeviceCall c = true ->
  connectionStartPoint (fst (perform st c k))
  = match c with
    | Provider.clearConnectionStart | Provider.clearAll => None
    | _ => connectionStartPoint st
    end.
Proof.
  intros Hc.
  destruct c as [ty px py | rid | cid px py | cid patch | aty title msg | aid | f t pol
                 | index | point | | | cs conns | | errorType | index];
    try discriminate; try reflexivity.
  - unfold Provider.perform, Provider.dispatch, SimulatorContext.simulatorReducer, bind.
    destruct (uncertaintyMode st && includes (SimulatorContext.getUUCTypes DEVICES) ty);
      [destruct (SimulatorContext.randomStatus random k)|]; reflexivity.
  - unfold Provider.perform, Provider.dispatch, SimulatorContext.simulatorReducer, bind.
    destruct (mapM _ (components st) k). reflexivity.
Qed.


End PanelWiringProofs.

(** * The further properties at work on the bench *)

Lemma wires_respect_roles_witness :
  existsb isLoadCall (@benchCalls Q _) = false
  /\ wellWired (@benchDevices Q _) session.
Proof.
  split; [reflexivity|].
  exact (wires_respect_roles benchDevices noDraw benchCalls 0%nat eq_refl).
Defined.

Lemma one_wire_per_polarity_witness :
  NoDup (map triple (connections (@session Q _))).
Proof.
  exact (one_wire_per_polarity benchDevices noDraw benchCalls 0%nat eq_refl eq_refl).
Defined.

Lemma empty_polarity_witness :
  wired (num := Q) voltageBench 0 1 "hi"
  /\ connections (fst (Provider.perform benchDevices half voltageBench
                         (Provider.addConnection 0 1 "") 0%nat))
     = (connections voltageBench ++ [newWire 0 1 "hi"])%list.
Proof.
  assert (Hw : wired (num := Q) voltageBench 0 1 "hi").
  { exists (benchWire "hi" "standard" 0.05). split; [left; reflexivity | repeat split]. }
  split; [exact Hw|].
  exact (proj1 (proj2 (empty_polarity_stores_second_hi benchDevices half voltageBench
                         0 1 0%nat Hw eq_refl))).
Defined.

Lemma wire_kind_is_a_switch_witness :
  Forall canonicalWire (connections (@session Q _)).
Proof.
  exact (proj1 (wire_kind_is_a_switch benchDevices noDraw benchCalls 0%nat eq_refl)).
Defined.
Lemma benchDevices_one_per_type : NoDup (map cfg_type (@benchDevices Q _)).
Proof.
  repeat constructor; cbn; intuition discriminate.
Qed.

Lemma registry_roles_agree_witness :
  DeviceRegistry.isCalibrator (@benchDevices Q _) "fluke5522a"
  = includes (SimulatorContext.getCalibratorTypes benchDevices) "fluke5522a"
  /\ DeviceRegistry.isUUC (@benchDevices Q _) "fluke5522a" = false.
Proof.
  destruct (registry_roles_agree benchDevices "fluke5522a" benchDevices_one_per_type)
    as (Hcal & _ & _ & _).
  split; [exact Hcal | reflexivity].
Defined.

Lemma no_wire_to_itself_witness :
  valid (SimulatorContext.checkConnectionCompatibility (num := Q) benchDevices session 0 0 "hi")
  = false
  /\ Forall (fun w => from w <> to w) (connections (@session Q _)).
Proof.
  destruct (no_wire_to_itself benchDevices noDraw benchCalls 0%nat
              benchDevices_one_per_type eq_refl) as [Hself Hall].
  split; [apply Hself | exact Hall].
Defined.

Lemma two_clicks_make_a_wire_witness :
  connections (fst (ConnectionPoint.clickAll (num := Q) benchDevices half placed
                      [ConnectionPoint.mkClick "output" 0 "hi";
                       ConnectionPoint.mkClick "input" 1 "hi"] 0%nat))
  = [newWire 0 1 "hi"].
Proof.
  assert (Hne : (0 <> 1)%Z) by discriminate.
  exact (proj1 (two_clicks_make_a_wire benchDevices half placed 0 1 "hi" 0%nat
                  eq_refl Hne eq_refl)).
Defined.


Lemma multimeter_throws_witness :
  multimeterReading (@modelessBench float _) = TypeError.
Proof.
  apply (proj1 (multimeter_throws_iff (connections modelessBench) (components modelessBench)
                  (deviceOf modelessBench 1%Z) (errorSimulation modelessBench))).
  split; [reflexivity|].
  exists (benchWire "hi" "standard" (lit 0.05)), (benchWire "lo" "standard" (lit 0.05)),
         false, (deviceOf modelessBench 0%Z).
  split; [left; split; [reflexivity|]; repeat split; vm_compute; reflexivity|].
  repeat split; vm_compute; reflexivity.
Defined.

Lemma readings_come_from_active_sources_witness :
  exists cv : connectedValue float,
    multimeterReading voltageBench = Returned (Some cv) /\ cv_active cv = true.
Proof.
  eexists. split; [vm_compute; reflexivity|].
  exact (proj1 (proj1 (readings_come_from_active_sources (connections voltageBench)
                         (components voltageBench) (deviceOf voltageBench 1%Z)
                         (errorSimulation voltageBench) _)
                      ltac:(vm_compute; reflexivity))).
Defined.

Lemma live_wires_and_readings_witness :
  exists (hiWire : connection float) (source : component float),
    In hiWire (connections voltageBench) /\ to hiWire = 1%Z
    /\ SimulatorContext.getComponent voltageBench (from hiWire) = Some source
    /\ (SimulatorContext.isOutputActive voltageBench (from hiWire) = true
        \/ type source = "fluke5522a").
Proof.
  pose proof (fun cv Hread =>
                proj2 (proj2 (live_wires_and_readings voltageBench
                                (deviceOf voltageBench 1%Z) cv))
                      (or_introl Hread)) as Hlive.
  edestruct Hlive as (h & s & Hw); [vm_compute; reflexivity|].
  now exists h, s.
Defined.

Lemma current_loading_error_witness :
  exists cv : connectedValue Q,
    multimeterReading currentBench = Returned (Some cv)
    /\ cv_value cv = (2 * 0.9995)%Q.
Proof.
  destruct (proj1 current_loading_error Q _
              (connections currentBench) (components currentBench)
              (deviceOf currentBench 1%Z) (errorSimulation currentBench)
              (benchWire "hi" "bad" 5) (benchWire "lo" "standard" 0.05) false
              (deviceOf currentBench 0%Z) "DC Current")
    as (cv & _ & Hm & _ & Hv & _);
    try (vm_compute; reflexivity).
  - left. split; [reflexivity|]. repeat split; vm_compute; reflexivity.
  - discriminate.
  - exists cv. split; [exact Hm | exact Hv].
Defined.


Lemma u3606a_dial_witness :
  U3606A.turns (deviceOf (num := Q) placed 1%Z) 1 ["cw"; "ccw"] = Returned 1%Z
  /\ U3606A.turns (deviceOf (num := Q) placed 1%Z) 9 ["cw"; "ccw"] = Returned 8%Z.
Proof.
  split.
  - exact (proj1 (proj2 (proj2 (u3606a_dial (deviceOf placed 1%Z) 1 []
                                   ltac:(split; discriminate))))).
  - exact (proj1 (proj2 (proj2 (u3606a_dial (deviceOf placed 1%Z) 9 []
                                   ltac:(split; discriminate))))).
Defined.
